(** * Blackbird SFU: the session / participant registry

    A shallow embedding of the two session handlers of package [sfu]
    ([MockSessionHandler] in mocksessionhandler.go and
    [WebRtcSessionHandler] in sessionutil.go), of the parameter checks
    they rely on (preconditions.go, sessionutils.go and the [check]
    methods of the parameter structs) and of the identifier generators.

    Conventions of the embedding:
    - a Go [string] is a Rocq [string]: a sequence of bytes, [len] is
      [String.length];
    - a Go [error] is an [option string]: [None] is [nil], [Some m] is an
      error whose [Error()] text is [m];
    - a [[]string] is a [list string]; the handlers only ever produce the
      [nil] slice or a non-empty one, so [[]] stands for [nil];
    - a pointer to a struct held in a result is an [option] of the struct
      value at the time the method returns ([None] is the [nil] pointer);
    - a Go map is a [gmap]; where the source leaves a map [nil] until its
      first use ([MockSessionHandler]) the map is an [option (gmap _ _)];
    - the mutex is not modelled: every method is one atomic step;
    - random identifiers and the wall clock are inputs of the methods
      that draw them. *)

From Stdlib Require Import Ascii NArith.
From stdpp Require Import gmap strings list fin_maps.

(** ** Go library functions *)

Module GoLib.

(** The bytes of a string. *)
Definition bytes_of (s : string) : list ascii := String.list_ascii_of_string s.

Definition byte_in_range (lo hi : N) (c : ascii) : bool :=
  ((lo <=? N_of_ascii c) && (N_of_ascii c <=? hi))%N.

(** [unicode.IsSpace]: the UTF-8 encodings of the code points of the
    Unicode White_Space property: U+0009..U+000D, U+0020, U+0085, U+00A0,
    U+1680, U+2000..U+200A, U+2028, U+2029, U+202F, U+205F, U+3000. *)
Definition White_Space : list (list N) :=
  [ [9]; [10]; [11]; [12]; [13]; [32];
    [194; 133]; [194; 160];
    [225; 154; 128];
    [226; 128; 128]; [226; 128; 129]; [226; 128; 130]; [226; 128; 131];
    [226; 128; 132]; [226; 128; 133]; [226; 128; 134]; [226; 128; 135];
    [226; 128; 136]; [226; 128; 137]; [226; 128; 138];
    [226; 128; 168]; [226; 128; 169]; [226; 128; 175];
    [226; 129; 159];
    [227; 128; 128] ]%N.

Fixpoint has_prefix (pat : list N) (bs : list ascii) : bool :=
  match pat, bs with
  | [], _ => true
  | p :: pat', b :: bs' => (N_of_ascii b =? p)%N && has_prefix pat' bs'
  | _ :: _, [] => false
  end.

(** Width in bytes of the white-space rune [bs] starts with, if any. *)
Definition space_width (table : list (list N)) (bs : list ascii) : option nat :=
  length <$> List.find (λ pat, has_prefix pat bs) table.

(** Drops the white-space runes [bs] starts with; [skip] counts the
    bytes still to drop of the rune being removed. *)
Fixpoint trim_runes (table : list (list N)) (skip : nat) (bs : list ascii)
    : list ascii :=
  match bs with
  | [] => []
  | _ :: rest =>
      match skip with
      | S k => trim_runes table k rest
      | O =>
          match space_width table bs with
          | Some w => trim_runes table (pred w) rest
          | None => bs
          end
      end
  end.

(** [strings.TrimSpace]: the string without its leading and trailing
    white space, as defined by Unicode. The trailing runes are found on
    the reversed bytes with the reversed encodings. *)
Definition TrimSpace (s : string) : string :=
  let left := trim_runes White_Space 0 (bytes_of s) in
  String.string_of_list_ascii
    (rev (trim_runes (map (@rev N) White_Space) 0 (rev left))).

(** The character class of the pattern ["[A-Za-z0-9=+\\-]"]. *)
Definition idClass (c : ascii) : bool :=
  byte_in_range 65 90 c || byte_in_range 97 122 c || byte_in_range 48 57 c
  || (N_of_ascii c =? 61)%N || (N_of_ascii c =? 43)%N || (N_of_ascii c =? 45)%N.

(** [regexp.MatchString("[A-Za-z0-9=+\\-]", v)]: the pattern is a single
    character class without anchors or repetition, so it matches as soon
    as one character of [v] belongs to the class. *)
Definition MatchString_idClass (v : string) : bool :=
  existsb idClass (bytes_of v).

(** One digit of [fmt.Sprintf("%x", _)]. *)
Definition hexDigit (n : N) : ascii :=
  if (n <? 10)%N then ascii_of_N (48 + n) else ascii_of_N (87 + n).

(** [fmt.Sprintf("%x", b)] for a byte array: two lower-case hexadecimal
    digits per byte. *)
Definition Sprintf_x (b : list ascii) : string :=
  String.string_of_list_ascii
    (b ≫= λ c, [hexDigit (N_of_ascii c / 16); hexDigit (N_of_ascii c mod 16)]).

(** [s[:n]] on a string that has at least [n] bytes. *)
Definition prefix_of (n : nat) (s : string) : string :=
  String.string_of_list_ascii (take n (bytes_of s)).

End GoLib.

(** ** preconditions.go, sessionutils.go, sessionutil.go *)

Definition IdLen : nat := 10.

Definition isNotBlank (n v : string) : option string :=
  if String.length (GoLib.TrimSpace v) =? 0
  then Some (n +:+ " must not be blank")
  else None.

Definition isId (n v : string) : option string :=
  let valid :=
    if String.length v =? IdLen
    then (if GoLib.MatchString_idClass v then true else false)
    else false in
  if negb valid then Some (v +:+ " must be a valid id") else None.

Definition checkNotBlank (name : string) : option string :=
  if String.length (GoLib.TrimSpace name) =? 0
  then Some "name must not be blank"
  else None.

(** sessionutil.go: [generateSessionId], where [sum] is the value of
    [sha256.Sum256([]byte(uuid.New().String()))], an array of 32 bytes. *)
Definition generateSessionId (sum : list ascii) : string :=
  let longId := GoLib.Sprintf_x sum in
  GoLib.prefix_of IdLen longId.

Definition generateParticipantId (sum : list ascii) : string :=
  generateSessionId sum.

(** [fmt.Sprintf("session %s does not exist", sessionId)] *)
Definition sessionDoesNotExist (sessionId : string) : string :=
  "session " +:+ sessionId +:+ " does not exist".


(** ** The structs of the API (sfu.go)

    Each struct is a record in a module of its name, so that the fields
    keep the names they have in the source. *)

Module Session.
Record t : Type := mk
  { Name : string; Id : string; CreationDateTime : string }.
End Session.

Module Participant.
Record t : Type := mk
  { Name : string; Id : string; SessionId : string;
    CreationDateTime : string }.

(** The assignment [p.Name = name]. *)
Definition set_Name (p : t) (name : string) : t :=
  {| Name := name; Id := Id p; SessionId := SessionId p;
     CreationDateTime := CreationDateTime p |}.
End Participant.

(** [errors = append(errors, err.Error())] under [if err != nil]. *)
Definition appendError (errors : list string) (err : option string) : list string :=
  match err with
  | Some msg => errors ++ [msg]
  | None => errors
  end.

Module CreateSessionParams.
Record t : Type := mk { Name : string }.
Definition check (p : t) : list string :=
  let errors := [] in
  let errors := appendError errors (isNotBlank "name" (Name p)) in
  errors.
End CreateSessionParams.

Module GetSessionParams.
Record t : Type := mk { Id : string }.
Definition check (p : t) : list string :=
  let errors := [] in
  let errors := appendError errors (isId "id" (Id p)) in
  errors.
End GetSessionParams.

Module DeleteSessionParams.
Record t : Type := mk { Id : string }.
Definition check (p : t) : list string :=
  let errors := [] in
  let errors := appendError errors (isId "id" (Id p)) in
  errors.
End DeleteSessionParams.

Module AddParticipantParams.
Record t : Type := mk { SessionId : string; Name : string }.
Definition check (p : t) : list string :=
  let errors := [] in
  let errors := appendError errors (isId "sessionId" (SessionId p)) in
  let errors := appendError errors (isNotBlank "name" (Name p)) in
  errors.
End AddParticipantParams.

Module GetParticipantParams.
Record t : Type := mk { SessionId : string; ParticipantId : string }.
Definition check (p : t) : list string :=
  let errors := [] in
  let errors := appendError errors (isId "sessionId" (SessionId p)) in
  let errors := appendError errors (isId "participantId" (ParticipantId p)) in
  errors.
End GetParticipantParams.

Module UpdateParticipantParams.
Record t : Type := mk
  { SessionId : string; ParticipantId : string; Name : string }.
Definition check (p : t) : list string :=
  let errors := [] in
  let errors := appendError errors (isId "sessionId" (SessionId p)) in
  let errors := appendError errors (isId "participantId" (ParticipantId p)) in
  let errors := appendError errors (isNotBlank "name" (Name p)) in
  errors.
End UpdateParticipantParams.

Module DeleteParticipantParams.
Record t : Type := mk { SessionId : string; ParticipantId : string }.
Definition check (p : t) : list string :=
  let errors := [] in
  let errors := appendError errors (isId "sessionId" (SessionId p)) in
  let errors := appendError errors (isId "participantId" (ParticipantId p)) in
  errors.
End DeleteParticipantParams.

Module GetParticipantsParams.
Record t : Type := mk { SessionId : string }.
Definition check (p : t) : list string :=
  let errors := [] in
  let errors := appendError errors (isId "sessionId" (SessionId p)) in
  errors.
End GetParticipantsParams.

(** The result structs. [CreateSessionResult], [GetSessionResult] and
    [DeleteSessionResult] have the same two fields, and so have the four
    results that carry one participant; each group is one record here. *)

Module SessionResult.
Record t : Type := mk
  { Session : option Session.t; Errors : list string }.
End SessionResult.

Module ParticipantResult.
Record t : Type := mk
  { Participant : option Participant.t; Errors : list string }.
End ParticipantResult.

Module ParticipantsResult.
(** [Participants] is filled by ranging over a map: its order is not
    fixed by the language; the model lists the map as [map_to_list]
    does. *)
Record t : Type := mk
  { Participants : list Participant.t; Errors : list string }.
End ParticipantsResult.

(** What a call of a handler method does: it returns its result struct
    and its [error], or it panics. Both leave a handler state behind. *)
Inductive outcome (St R : Type) : Type :=
  | Returns (h : St) (result : R) (err : option string)
  | Panics (h : St).
Arguments Returns {St R} h result err.
Arguments Panics {St R} h.

Definition state_of {St R} (o : outcome St R) : St :=
  match o with
  | Returns h _ _ => h
  | Panics h => h
  end.

Definition result_of {St R} (o : outcome St R) : option R :=
  match o with
  | Returns _ r _ => Some r
  | Panics _ => None
  end.

(** The call returned, and its [error] is [nil]. *)
Definition completes {St R} (o : outcome St R) : Prop :=
  ∃ h r, o = Returns h r None.

(** ** Go maps that may be [nil] *)

Module GoMap.
(** [None] is the [nil] map, which reads as an empty one. *)
Definition index {V} (m : option (gmap string V)) (k : string) : option V :=
  match m with
  | Some g => g !! k
  | None => None
  end.

(** [delete(m, k)]: does nothing on a [nil] map or an absent key. *)
Definition remove {V} (m : option (gmap string V)) (k : string)
    : option (gmap string V) :=
  match m with
  | Some g => Some (delete k g)
  | None => None
  end.

(** [if m == nil { m = make(...) }] *)
Definition orMake {V} (m : option (gmap string V)) : gmap string V :=
  match m with
  | Some g => g
  | None => ∅
  end.
End GoMap.

(** ** mocksessionhandler.go *)

Module RegisteredSession.
Record t : Type := mk
  { Session : Session.t;
    participants : option (gmap string Participant.t) }.
End RegisteredSession.

Module MockSessionHandler.

Record t : Type := mk
  { sessions : option (gmap string RegisteredSession.t) }.

(** [new(sfu.MockSessionHandler)], as the launcher builds it. *)
Definition new : t := {| sessions := None |}.

(** The session [sessionId] points to is replaced by [rs]: the effect of
    a write through the pointer [h.sessions[sessionId]]. *)
Definition store (h : t) (sessionId : string) (rs : RegisteredSession.t) : t :=
  {| sessions := Some (<[sessionId := rs]> (GoMap.orMake (sessions h))) |}.

Section Methods.
(** [uuid.Parse] of github.com/google/uuid, as the text of the error
    it returns: [None] when it accepts the string. *)
Variable uuid_Parse : string → option string.

(** sessionutils.go *)
Definition checkSessionId (id : string) : option string :=
  match uuid_Parse id with
  | Some err => Some err
  | None => None
  end.

(** [id] is the value of [generateSessionId()] of sessionutils.go, that
    is [uuid.New().String()], and [now] the one of
    [time.Now().Format(timeFormat)]. *)
Definition CreateSession (h : t) (p : CreateSessionParams.t) (id now : string)
    : outcome t SessionResult.t :=
  match checkNotBlank (CreateSessionParams.Name p) with
  | Some err =>
      Returns h {| SessionResult.Session := None;
                   SessionResult.Errors := [err] |} None
  | None =>
      let sessions0 := GoMap.orMake (sessions h) in
      let session :=
        {| Session.Name := CreateSessionParams.Name p;
           Session.Id := id;
           Session.CreationDateTime := now |} in
      let registeredSession :=
        {| RegisteredSession.Session := session;
           RegisteredSession.participants := None |} in
      Returns {| sessions :=
                   Some (<[Session.Id session := registeredSession]> sessions0) |}
              {| SessionResult.Session :=
                   Some (RegisteredSession.Session registeredSession);
                 SessionResult.Errors := [] |} None
  end.

Definition GetSession (h : t) (p : GetSessionParams.t)
    : outcome t SessionResult.t :=
  match checkSessionId (GetSessionParams.Id p) with
  | Some err =>
      Returns h {| SessionResult.Session := None;
                   SessionResult.Errors := [err] |} None
  | None =>
      match GoMap.index (sessions h) (GetSessionParams.Id p) with
      | Some registeredSession =>
          Returns h {| SessionResult.Session :=
                         Some (RegisteredSession.Session registeredSession);
                       SessionResult.Errors := [] |} None
      | None =>
          (* [&registeredSession.Session] on the nil pointer *)
          Panics h
      end
  end.

Definition DeleteSession (h : t) (p : DeleteSessionParams.t)
    : outcome t SessionResult.t :=
  match checkSessionId (DeleteSessionParams.Id p) with
  | Some err =>
      Returns h {| SessionResult.Session := None;
                   SessionResult.Errors := [err] |} None
  | None =>
      let registeredSession := GoMap.index (sessions h) (DeleteSessionParams.Id p) in
      let h' := {| sessions := GoMap.remove (sessions h) (DeleteSessionParams.Id p) |} in
      match registeredSession with
      | Some registeredSession =>
          Returns h' {| SessionResult.Session :=
                          Some (RegisteredSession.Session registeredSession);
                        SessionResult.Errors := [] |} None
      | None =>
          (* [&registeredSession.Session] on the nil pointer *)
          Panics h'
      end
  end.

Definition AddParticipant (h : t) (p : AddParticipantParams.t) (id now : string)
    : outcome t ParticipantResult.t :=
  match checkSessionId (AddParticipantParams.SessionId p) with
  | Some err =>
      Returns h {| ParticipantResult.Participant := None;
                   ParticipantResult.Errors := [err] |} None
  | None =>
  match checkNotBlank (AddParticipantParams.Name p) with
  | Some err =>
      Returns h {| ParticipantResult.Participant := None;
                   ParticipantResult.Errors := [err] |} None
  | None =>
  match GoMap.index (sessions h) (AddParticipantParams.SessionId p) with
  | None =>
      let e := sessionDoesNotExist (AddParticipantParams.SessionId p) in
      Returns h {| ParticipantResult.Participant := None;
                   ParticipantResult.Errors := [e] |} None
  | Some registeredSession =>
      let participants0 :=
        GoMap.orMake (RegisteredSession.participants registeredSession) in
      let participant :=
        {| Participant.SessionId :=
             Session.Id (RegisteredSession.Session registeredSession);
           Participant.Id := id;
           Participant.Name := AddParticipantParams.Name p;
           Participant.CreationDateTime := now |} in
      let registeredSession' :=
        {| RegisteredSession.Session :=
             RegisteredSession.Session registeredSession;
           RegisteredSession.participants :=
             Some (<[Participant.Id participant := participant]> participants0) |} in
      Returns (store h (AddParticipantParams.SessionId p) registeredSession')
              {| ParticipantResult.Participant := Some participant;
                 ParticipantResult.Errors := [] |} None
  end end end.

Definition GetParticipant (h : t) (p : GetParticipantParams.t)
    : outcome t ParticipantResult.t :=
  match GoMap.index (sessions h) (GetParticipantParams.SessionId p) with
  | None =>
      let e := sessionDoesNotExist (GetParticipantParams.SessionId p) in
      Returns h {| ParticipantResult.Participant := None;
                   ParticipantResult.Errors := [e] |} None
  | Some registeredSession =>
      let participant :=
        GoMap.index (RegisteredSession.participants registeredSession)
                    (GetParticipantParams.ParticipantId p) in
      Returns h {| ParticipantResult.Participant := participant;
                   ParticipantResult.Errors := [] |} None
  end.

Definition UpdateParticipant (h : t) (p : UpdateParticipantParams.t)
    : outcome t ParticipantResult.t :=
  match checkNotBlank (UpdateParticipantParams.Name p) with
  | Some err =>
      Returns h {| ParticipantResult.Participant := None;
                   ParticipantResult.Errors := [err] |} None
  | None =>
  match GoMap.index (sessions h) (UpdateParticipantParams.SessionId p) with
  | None =>
      let e := sessionDoesNotExist (UpdateParticipantParams.SessionId p) in
      Returns h {| ParticipantResult.Participant := None;
                   ParticipantResult.Errors := [e] |} None
  | Some registeredSession =>
      match GoMap.index (RegisteredSession.participants registeredSession)
                        (UpdateParticipantParams.ParticipantId p) with
      | None =>
          Returns h {| ParticipantResult.Participant := None;
                       ParticipantResult.Errors := [] |} None
      | Some participant =>
          let participant' :=
            Participant.set_Name participant (UpdateParticipantParams.Name p) in
          let registeredSession' :=
            {| RegisteredSession.Session :=
                 RegisteredSession.Session registeredSession;
               RegisteredSession.participants :=
                 Some (<[UpdateParticipantParams.ParticipantId p := participant']>
                         (GoMap.orMake (RegisteredSession.participants registeredSession))) |} in
          Returns (store h (UpdateParticipantParams.SessionId p) registeredSession')
                  {| ParticipantResult.Participant := Some participant';
                     ParticipantResult.Errors := [] |} None
      end
  end end.

Definition DeleteParticipant (h : t) (p : DeleteParticipantParams.t)
    : outcome t ParticipantResult.t :=
  match GoMap.index (sessions h) (DeleteParticipantParams.SessionId p) with
  | None =>
      let e := sessionDoesNotExist (DeleteParticipantParams.SessionId p) in
      Returns h {| ParticipantResult.Participant := None;
                   ParticipantResult.Errors := [e] |} None
  | Some registeredSession =>
      match GoMap.index (RegisteredSession.participants registeredSession)
                        (DeleteParticipantParams.ParticipantId p) with
      | None =>
          Returns h {| ParticipantResult.Participant := None;
                       ParticipantResult.Errors := [] |} None
      | Some participant =>
          let registeredSession' :=
            {| RegisteredSession.Session :=
                 RegisteredSession.Session registeredSession;
               RegisteredSession.participants :=
                 GoMap.remove (RegisteredSession.participants registeredSession)
                              (Participant.Id participant) |} in
          Returns (store h (DeleteParticipantParams.SessionId p) registeredSession')
                  {| ParticipantResult.Participant := Some participant;
                     ParticipantResult.Errors := [] |} None
      end
  end.

(** The loop ranges over a Go map, in an order the language leaves open:
    [map_to_list] lists the participants in one such order. What is
    proved of the list holds of every order: it is stated with [NoDup],
    [length], membership and [≡ₚ] only. *)
Definition GetParticipants (h : t) (p : GetParticipantsParams.t)
    : outcome t ParticipantsResult.t :=
  match GoMap.index (sessions h) (GetParticipantsParams.SessionId p) with
  | None =>
      let e := sessionDoesNotExist (GetParticipantsParams.SessionId p) in
      Returns h {| ParticipantsResult.Participants := [];
                   ParticipantsResult.Errors := [e] |} None
  | Some registeredSession =>
      let participants :=
        (map_to_list (GoMap.orMake
           (RegisteredSession.participants registeredSession))).*2 in
      Returns h {| ParticipantsResult.Participants := participants;
                   ParticipantsResult.Errors := [] |} None
  end.

(** The states the handler goes through, from the one the launcher
    builds. The identifiers drawn by [CreateSession] and
    [AddParticipant] are texts of UUIDs, which [uuid.Parse] accepts. A
    panic is recovered by the HTTP server, which keeps serving with
    the state the panic left. *)
Inductive reachable : t → Prop :=
  | reach_new : reachable new
  | reach_CreateSession h p id now :
      reachable h → uuid_Parse id = None →
      reachable (state_of (CreateSession h p id now))
  | reach_GetSession h p :
      reachable h → reachable (state_of (GetSession h p))
  | reach_DeleteSession h p :
      reachable h → reachable (state_of (DeleteSession h p))
  | reach_AddParticipant h p id now :
      reachable h → uuid_Parse id = None →
      reachable (state_of (AddParticipant h p id now))
  | reach_GetParticipant h p :
      reachable h → reachable (state_of (GetParticipant h p))
  | reach_UpdateParticipant h p :
      reachable h → reachable (state_of (UpdateParticipant h p))
  | reach_DeleteParticipant h p :
      reachable h → reachable (state_of (DeleteParticipant h p))
  | reach_GetParticipants h p :
      reachable h → reachable (state_of (GetParticipants h p)).

(** What holds of every registered participant and session: it is
    stored under its own identifier, and its name is not blank. *)
Definition participant_ok (sid pid : string) (p : Participant.t) : Prop :=
  Participant.Id p = pid
  ∧ Participant.SessionId p = sid
  ∧ checkNotBlank (Participant.Name p) = None.

Definition session_ok (sid : string) (rs : RegisteredSession.t) : Prop :=
  uuid_Parse sid = None
  ∧ Session.Id (RegisteredSession.Session rs) = sid
  ∧ checkNotBlank (Session.Name (RegisteredSession.Session rs)) = None
  ∧ map_Forall (participant_ok sid)
      (GoMap.orMake (RegisteredSession.participants rs)).

Definition wf (h : t) : Prop :=
  map_Forall session_ok (GoMap.orMake (sessions h)).

End Methods.
End MockSessionHandler.

(** ** sessionutil.go *)

(** [webRtcParticipant] embeds [Participant] and has no other field: its
    values are those of [Participant.t]. *)
Module webRtcSession.
Record t : Type := mk
  { Session : Session.t;
    participants : gmap string Participant.t }.
End webRtcSession.

Module WebRtcSessionHandler.

Record t : Type := mk { sessions : gmap string webRtcSession.t }.

Definition NewWebRtcSessionHandler : t := {| sessions := ∅ |}.

(** [sum] is the digest [generateSessionId] formats and [now] the value
    of [generateCreationDateTime()]. *)
Definition newSession (params : CreateSessionParams.t) (sum : list ascii)
    (now : string) : webRtcSession.t :=
  {| webRtcSession.Session :=
       {| Session.Id := generateSessionId sum;
          Session.Name := CreateSessionParams.Name params;
          Session.CreationDateTime := now |};
     webRtcSession.participants := ∅ |}.

Definition newParticipant (p : AddParticipantParams.t) (sum : list ascii)
    (now : string) : Participant.t :=
  {| Participant.Id := generateParticipantId sum;
     Participant.SessionId := AddParticipantParams.SessionId p;
     Participant.CreationDateTime := now;
     Participant.Name := AddParticipantParams.Name p |}.

(** The session [sessionId] points to is replaced by [s]: the effect of
    a write through the pointer [h.sessions[sessionId]]. *)
Definition store (h : t) (sessionId : string) (s : webRtcSession.t) : t :=
  {| sessions := <[sessionId := s]> (sessions h) |}.

(** [doActionOnSession]. The action is a closure over the handler and
    over one variable of its caller: here it maps the handler and the
    session to the handler it leaves and to the value it assigns to that
    variable. The boolean result is [true] exactly when the second
    component is [Some _]. *)
Definition doActionOnSession {A} (h : t) (sessionId : string)
    (action : t → webRtcSession.t → t * A) : t * option A :=
  match sessions h !! sessionId with
  | None => (h, None)
  | Some s => let '(h', a) := action h s in (h', Some a)
  end.

Definition CreateSession (h : t) (params : CreateSessionParams.t)
    (sum : list ascii) (now : string) : outcome t SessionResult.t :=
  match CreateSessionParams.check params with
  | (_ :: _) as errors =>
      Returns h {| SessionResult.Session := None;
                   SessionResult.Errors := errors |} None
  | [] =>
      let s := newSession params sum now in
      let h' := {| sessions :=
                     <[Session.Id (webRtcSession.Session s) := s]> (sessions h) |} in
      Returns h' {| SessionResult.Session := Some (webRtcSession.Session s);
                    SessionResult.Errors := [] |} None
  end.

Definition GetSession (h : t) (params : GetSessionParams.t)
    : outcome t SessionResult.t :=
  match GetSessionParams.check params with
  | (_ :: _) as errors =>
      Returns h {| SessionResult.Session := None;
                   SessionResult.Errors := errors |} None
  | [] =>
      let '(h', session) :=
        doActionOnSession h (GetSessionParams.Id params)
          (λ h s, (h, webRtcSession.Session s)) in
      Returns h' {| SessionResult.Session := session;
                    SessionResult.Errors := [] |} None
  end.

Definition DeleteSession (h : t) (params : DeleteSessionParams.t)
    : outcome t SessionResult.t :=
  match DeleteSessionParams.check params with
  | (_ :: _) as errors =>
      Returns h {| SessionResult.Session := None;
                   SessionResult.Errors := errors |} None
  | [] =>
      let '(h', session) :=
        doActionOnSession h (DeleteSessionParams.Id params)
          (λ h s, ({| sessions := delete (DeleteSessionParams.Id params) (sessions h) |},
                   webRtcSession.Session s)) in
      Returns h' {| SessionResult.Session := session;
                    SessionResult.Errors := [] |} None
  end.

Definition AddParticipant (h : t) (params : AddParticipantParams.t)
    (sum : list ascii) (now : string) : outcome t ParticipantResult.t :=
  match AddParticipantParams.check params with
  | (_ :: _) as errors =>
      Returns h {| ParticipantResult.Participant := None;
                   ParticipantResult.Errors := errors |} None
  | [] =>
      let participant := newParticipant params sum now in
      let action (h : t) (s : webRtcSession.t) : t * unit :=
        (store h (AddParticipantParams.SessionId params)
           {| webRtcSession.Session := webRtcSession.Session s;
              webRtcSession.participants :=
                <[Participant.Id participant := participant]>
                  (webRtcSession.participants s) |},
         tt) in
      match doActionOnSession h (AddParticipantParams.SessionId params) action with
      | (h', None) =>
          let errorMsg := sessionDoesNotExist (AddParticipantParams.SessionId params) in
          Returns h' {| ParticipantResult.Participant := None;
                        ParticipantResult.Errors := [errorMsg] |} None
      | (h', Some _) =>
          Returns h' {| ParticipantResult.Participant := Some participant;
                        ParticipantResult.Errors := [] |} None
      end
  end.

Definition GetParticipant (h : t) (params : GetParticipantParams.t)
    : outcome t ParticipantResult.t :=
  match GetParticipantParams.check params with
  | (_ :: _) as errors =>
      Returns h {| ParticipantResult.Participant := None;
                   ParticipantResult.Errors := errors |} None
  | [] =>
      let action (h : t) (s : webRtcSession.t) : t * option Participant.t :=
        (h, webRtcSession.participants s !! GetParticipantParams.ParticipantId params) in
      match doActionOnSession h (GetParticipantParams.SessionId params) action with
      | (h', None) =>
          let errorMsg := sessionDoesNotExist (GetParticipantParams.SessionId params) in
          Returns h' {| ParticipantResult.Participant := None;
                        ParticipantResult.Errors := [errorMsg] |} None
      | (h', Some participant) =>
          Returns h' {| ParticipantResult.Participant := participant;
                        ParticipantResult.Errors := [] |} None
      end
  end.

Definition UpdateParticipant (h : t) (params : UpdateParticipantParams.t)
    : outcome t ParticipantResult.t :=
  match UpdateParticipantParams.check params with
  | (_ :: _) as errors =>
      Returns h {| ParticipantResult.Participant := None;
                   ParticipantResult.Errors := errors |} None
  | [] =>
      let action (h : t) (s : webRtcSession.t) : t * option Participant.t :=
        match webRtcSession.participants s !! UpdateParticipantParams.ParticipantId params with
        | None => (h, None)
        | Some p =>
            let p' := Participant.set_Name p (UpdateParticipantParams.Name params) in
            (store h (UpdateParticipantParams.SessionId params)
               {| webRtcSession.Session := webRtcSession.Session s;
                  webRtcSession.participants :=
                    <[UpdateParticipantParams.ParticipantId params := p']>
                      (webRtcSession.participants s) |},
             Some p')
        end in
      match doActionOnSession h (UpdateParticipantParams.SessionId params) action with
      | (h', None) =>
          let errorMsg := sessionDoesNotExist (UpdateParticipantParams.SessionId params) in
          Returns h' {| ParticipantResult.Participant := None;
                        ParticipantResult.Errors := [errorMsg] |} None
      | (h', Some participant) =>
          Returns h' {| ParticipantResult.Participant := participant;
                        ParticipantResult.Errors := [] |} None
      end
  end.

Definition DeleteParticipant (h : t) (params : DeleteParticipantParams.t)
    : outcome t ParticipantResult.t :=
  match DeleteParticipantParams.check params with
  | (_ :: _) as errors =>
      Returns h {| ParticipantResult.Participant := None;
                   ParticipantResult.Errors := errors |} None
  | [] =>
      let action (h : t) (s : webRtcSession.t) : t * option Participant.t :=
        match webRtcSession.participants s !! DeleteParticipantParams.ParticipantId params with
        | None => (h, None)
        | Some p =>
            (store h (DeleteParticipantParams.SessionId params)
               {| webRtcSession.Session := webRtcSession.Session s;
                  webRtcSession.participants :=
                    delete (DeleteParticipantParams.ParticipantId params)
                           (webRtcSession.participants s) |},
             Some p)
        end in
      match doActionOnSession h (DeleteParticipantParams.SessionId params) action with
      | (h', None) =>
          let errorMsg := sessionDoesNotExist (DeleteParticipantParams.SessionId params) in
          Returns h' {| ParticipantResult.Participant := None;
                        ParticipantResult.Errors := [errorMsg] |} None
      | (h', Some participant) =>
          Returns h' {| ParticipantResult.Participant := participant;
                        ParticipantResult.Errors := [] |} None
      end
  end.

(** As in the [MockSessionHandler], the loop ranges over a Go map, and
    [map_to_list] lists the participants in one of the orders it can
    take; the list is compared up to its order only. *)
Definition GetParticipants (h : t) (params : GetParticipantsParams.t)
    : outcome t ParticipantsResult.t :=
  match GetParticipantsParams.check params with
  | (_ :: _) as errors =>
      Returns h {| ParticipantsResult.Participants := [];
                   ParticipantsResult.Errors := errors |} None
  | [] =>
      let action (h : t) (s : webRtcSession.t) : t * list Participant.t :=
        (h, (map_to_list (webRtcSession.participants s)).*2) in
      match doActionOnSession h (GetParticipantsParams.SessionId params) action with
      | (h', None) =>
          let errorMsg := sessionDoesNotExist (GetParticipantsParams.SessionId params) in
          Returns h' {| ParticipantsResult.Participants := [];
                        ParticipantsResult.Errors := [errorMsg] |} None
      | (h', Some participants) =>
          Returns h' {| ParticipantsResult.Participants := participants;
                        ParticipantsResult.Errors := [] |} None
      end
  end.

(** The states the handler goes through, from the one its constructor
    builds; a SHA-256 digest has 32 bytes. *)
Inductive reachable : t → Prop :=
  | reach_New : reachable NewWebRtcSessionHandler
  | reach_CreateSession h p sum now :
      reachable h → length sum = 32 →
      reachable (state_of (CreateSession h p sum now))
  | reach_GetSession h p :
      reachable h → reachable (state_of (GetSession h p))
  | reach_DeleteSession h p :
      reachable h → reachable (state_of (DeleteSession h p))
  | reach_AddParticipant h p sum now :
      reachable h → length sum = 32 →
      reachable (state_of (AddParticipant h p sum now))
  | reach_GetParticipant h p :
      reachable h → reachable (state_of (GetParticipant h p))
  | reach_UpdateParticipant h p :
      reachable h → reachable (state_of (UpdateParticipant h p))
  | reach_DeleteParticipant h p :
      reachable h → reachable (state_of (DeleteParticipant h p))
  | reach_GetParticipants h p :
      reachable h → reachable (state_of (GetParticipants h p)).

(** What holds of every registered participant and session: it is
    stored under its own identifier, which passes [isId], and its name
    is not blank. *)
Definition participant_ok (sid pid : string) (p : Participant.t) : Prop :=
  isId "participantId" pid = None
  ∧ Participant.Id p = pid
  ∧ Participant.SessionId p = sid
  ∧ isNotBlank "name" (Participant.Name p) = None.

Definition session_ok (sid : string) (s : webRtcSession.t) : Prop :=
  isId "sessionId" sid = None
  ∧ Session.Id (webRtcSession.Session s) = sid
  ∧ isNotBlank "name" (Session.Name (webRtcSession.Session s)) = None
  ∧ map_Forall (participant_ok sid) (webRtcSession.participants s).

Definition wf (h : t) : Prop := map_Forall session_ok (sessions h).

End WebRtcSessionHandler.

(** ** Comparing the two handlers

    The two handlers do not draw identifiers of the same format: the
    [MockSessionHandler] draws the text of a UUID and the
    [WebRtcSessionHandler] ten hexadecimal digits. They are compared up
    to a translation [f] of the identifiers of the first into those of
    the second. *)

Section Correspondence.
(** [uuid.Parse], as in [MockSessionHandler]. *)
Variable uuid_Parse : string → option string.
Variable f : string → string.

Definition translateSession (s : Session.t) : Session.t :=
  {| Session.Name := Session.Name s;
     Session.Id := f (Session.Id s);
     Session.CreationDateTime := Session.CreationDateTime s |}.

Definition translateParticipant (p : Participant.t) : Participant.t :=
  {| Participant.Name := Participant.Name p;
     Participant.Id := f (Participant.Id p);
     Participant.SessionId := f (Participant.SessionId p);
     Participant.CreationDateTime := Participant.CreationDateTime p |}.

Definition toWebRtc (rs : RegisteredSession.t) : webRtcSession.t :=
  {| webRtcSession.Session := translateSession (RegisteredSession.Session rs);
     webRtcSession.participants :=
       kmap f (translateParticipant
                 <$> GoMap.orMake (RegisteredSession.participants rs)) |}.








End Correspondence.

(** ** Concrete inputs used in the examples *)

Module Sample.

Definition isHex (c : ascii) : bool :=
  GoLib.byte_in_range 48 57 c || GoLib.byte_in_range 97 102 c
  || GoLib.byte_in_range 65 70 c.

Fixpoint canonical (i : nat) (bs : list ascii) : bool :=
  match bs with
  | [] => i =? 36
  | c :: rest =>
      (if bool_decide (i ∈ [8; 13; 18; 23])
       then (N_of_ascii c =? 45)%N else isHex c)
      && canonical (S i) rest
  end.

(** A parser that accepts the form xxxxxxxx-xxxx-xxxx-xxxx-xxxxxxxxxxxx
    only; it stands for [uuid.Parse] in the examples. *)
Definition uuid_Parse (s : string) : option string :=
  if canonical 0 (GoLib.bytes_of s) then None else Some "invalid UUID format".

Definition uuid1 : string := "123e4567-e89b-12d3-a456-426614174000".
Definition uuid2 : string := "123e4567-e89b-12d3-a456-426614174001".
Definition uuid3 : string := "123e4567-e89b-12d3-a456-426614174002".

(** Three digests of 32 bytes. *)
Definition sum1 : list ascii := replicate 32 "A"%char.
Definition sum2 : list ascii := replicate 32 "B"%char.
Definition sum3 : list ascii := replicate 32 "C"%char.

Definition now : string := "2024-01-01T10:00:00 +000000".
Definition later : string := "2024-01-01T11:30:00 +000000".

(** A [WebRtcSessionHandler] with one session, named standup, that has
    one participant, named alice. *)
Definition webRtc1 : WebRtcSessionHandler.t :=
  state_of (WebRtcSessionHandler.AddParticipant
    (state_of (WebRtcSessionHandler.CreateSession
       WebRtcSessionHandler.NewWebRtcSessionHandler
       {| CreateSessionParams.Name := "standup" |} sum1 now))
    {| AddParticipantParams.SessionId := generateSessionId sum1;
       AddParticipantParams.Name := "alice" |} sum2 now).

(** The same with a [MockSessionHandler]. *)
Definition mock1 : MockSessionHandler.t :=
  state_of (MockSessionHandler.AddParticipant uuid_Parse
    (state_of (MockSessionHandler.CreateSession
       MockSessionHandler.new
       {| CreateSessionParams.Name := "standup" |} uuid1 now))
    {| AddParticipantParams.SessionId := uuid1;
       AddParticipantParams.Name := "alice" |} uuid2 now).


End Sample.

(** ** Abbreviations and observations *)

Module W := WebRtcSessionHandler.
Module M := MockSessionHandler.

(** What the handlers hold: the record of a session, and a participant of
    a session. *)
Definition W_sessionOf (h : W.t) (sid : string) : option Session.t :=
  webRtcSession.Session <$> W.sessions h !! sid.

Definition W_participantOf (h : W.t) (sid pid : string) : option Participant.t :=
  W.sessions h !! sid ≫= λ s, webRtcSession.participants s !! pid.

Definition M_sessionOf (h : M.t) (sid : string) : option Session.t :=
  RegisteredSession.Session <$> GoMap.index (M.sessions h) sid.

Definition M_participantOf (h : M.t) (sid pid : string) : option Participant.t :=
  GoMap.index (M.sessions h) sid
  ≫= λ rs, GoMap.index (RegisteredSession.participants rs) pid.

(** The quiet miss: no participant and no errors. *)
Definition quietMiss : ParticipantResult.t :=
  {| ParticipantResult.Participant := None; ParticipantResult.Errors := [] |}.

(** ** sfu.go: the interface of the handlers *)

(** [SessionHandler]. [O] is what a handler draws when it creates a
    record: its identifier and its creation time. *)
Module SessionHandler.
Record t (St O : Type) : Type := mk
  { CreateSession : St → CreateSessionParams.t → O → outcome St SessionResult.t;
    GetSession : St → GetSessionParams.t → outcome St SessionResult.t;
    DeleteSession : St → DeleteSessionParams.t → outcome St SessionResult.t;
    AddParticipant :
      St → AddParticipantParams.t → O → outcome St ParticipantResult.t;
    GetParticipant : St → GetParticipantParams.t → outcome St ParticipantResult.t;
    UpdateParticipant :
      St → UpdateParticipantParams.t → outcome St ParticipantResult.t;
    DeleteParticipant :
      St → DeleteParticipantParams.t → outcome St ParticipantResult.t;
    GetParticipants :
      St → GetParticipantsParams.t → outcome St ParticipantsResult.t }.
Arguments CreateSession {St O} _ _ _ _.
Arguments GetSession {St O} _ _ _.
Arguments DeleteSession {St O} _ _ _.
Arguments AddParticipant {St O} _ _ _ _.
Arguments GetParticipant {St O} _ _ _.
Arguments UpdateParticipant {St O} _ _ _.
Arguments DeleteParticipant {St O} _ _ _.
Arguments GetParticipants {St O} _ _ _.
End SessionHandler.

(** The two implementations. The [WebRtcSessionHandler] draws a digest
    and a time, the [MockSessionHandler] the text of a UUID and a time. *)
Definition webRtcHandler : SessionHandler.t W.t (list ascii * string) :=
  {| SessionHandler.CreateSession h p o := W.CreateSession h p o.1 o.2;
     SessionHandler.GetSession := W.GetSession;
     SessionHandler.DeleteSession := W.DeleteSession;
     SessionHandler.AddParticipant h p o := W.AddParticipant h p o.1 o.2;
     SessionHandler.GetParticipant := W.GetParticipant;
     SessionHandler.UpdateParticipant := W.UpdateParticipant;
     SessionHandler.DeleteParticipant := W.DeleteParticipant;
     SessionHandler.GetParticipants := W.GetParticipants |}.

Definition mockHandler (uuid_Parse : string → option string)
    : SessionHandler.t M.t (string * string) :=
  {| SessionHandler.CreateSession h p o := M.CreateSession h p o.1 o.2;
     SessionHandler.GetSession := M.GetSession uuid_Parse;
     SessionHandler.DeleteSession := M.DeleteSession uuid_Parse;
     SessionHandler.AddParticipant h p o := M.AddParticipant uuid_Parse h p o.1 o.2;
     SessionHandler.GetParticipant := M.GetParticipant;
     SessionHandler.UpdateParticipant := M.UpdateParticipant;
     SessionHandler.DeleteParticipant := M.DeleteParticipant;
     SessionHandler.GetParticipants := M.GetParticipants |}.

(** ** sfu.go: the HTTP server

    A request is its method, the variables the router took from the path
    and its body. What a request handler does is the list of the calls it
    makes on the [http.ResponseWriter], in order: [WriteHeader], and the
    [Encode] of a result by a JSON encoder that writes to it. The calls of
    the logger are left out. *)

Module Request.
Record t : Type := mk
  { Method : string; Vars : gmap string string; Body : string }.
End Request.

Inductive Written : Type :=
  | WriteHeader (status : nat)
  | EncodeSession (result : SessionResult.t)
  | EncodeParticipant (result : ParticipantResult.t)
  | EncodeParticipants (result : ParticipantsResult.t).

(** A request handler returns, leaving the handler state [h] and the
    calls [w]; or the session handler panicked and nothing was written. *)
Inductive served (St : Type) : Type :=
  | Served (h : St) (w : list Written)
  | Crashed (h : St).
Arguments Served {St} h w.
Arguments Crashed {St} h.

Definition StatusOK : nat := 200.
Definition StatusCreated : nat := 201.
Definition StatusBadRequest : nat := 400.
Definition StatusNotFound : nat := 404.
Definition StatusInternalServerError : nat := 500.
Definition StatusNotImplemented : nat := 501.

(** [checkAddr] *)
Definition checkAddr (addr : string) : option string :=
  if String.length (GoLib.TrimSpace addr) =? 0
  then Some "server address must not be null or blank"
  else None.

Definition isPutOrPost (r : Request.t) : bool :=
  String.eqb (Request.Method r) "PUT" || String.eqb (Request.Method r) "POST".

Definition isGet (r : Request.t) : bool := String.eqb (Request.Method r) "GET".

Definition isDelete (r : Request.t) : bool :=
  String.eqb (Request.Method r) "DELETE".

(** [mux.Vars(r)[name]]: reading a Go map gives the empty string for a
    variable the route does not have. *)
Definition pathVar (r : Request.t) (name : string) : string :=
  default "" (Request.Vars r !! name).

(** The end of the request handlers: [json.NewEncoder(w).Encode(result)],
    followed by [w.WriteHeader(http.StatusInternalServerError)] when the
    encoder returns an error. [w] holds the calls made so far. *)
Definition encodeResult (w : list Written) (result : Written) (encodeFails : bool)
    : list Written :=
  if encodeFails
  then w ++ [result; WriteHeader StatusInternalServerError]
  else w ++ [result].

Module Server.
Section Handlers.
Context {St O : Type}.
(** [*s.handler] *)
Variable handler : SessionHandler.t St O.
(** [json.NewDecoder(r.Body).Decode(&params)] for the three parameter
    structs that are read from a body: [None] when it returns an error. *)
Variable decodeCreateSessionParams : string → option CreateSessionParams.t.
Variable decodeAddParticipantParams : string → option AddParticipantParams.t.
Variable decodeUpdateParticipantParams : string → option UpdateParticipantParams.t.

Definition onSessionsRequest (h : St) (r : Request.t) (o : O) (encodeFails : bool)
    : served St :=
  if negb (isPutOrPost r) then Served h [WriteHeader StatusNotImplemented]
  else
    match decodeCreateSessionParams (Request.Body r) with
    | None => Served h [WriteHeader StatusBadRequest]
    | Some params =>
        match SessionHandler.CreateSession handler h params o with
        | Panics h' => Crashed h'
        | Returns h' result (Some err) =>
            Served h' [WriteHeader StatusInternalServerError]
        | Returns h' result None =>
            let w :=
              match SessionResult.Errors result with
              | _ :: _ => [WriteHeader StatusBadRequest]
              | [] => [WriteHeader StatusCreated]
              end in
            Served h' (encodeResult w (EncodeSession result) encodeFails)
        end
    end.

(** The three statuses of a request for one session or one participant:
    bad request with the errors, not found without a body, or [ok]. *)
Definition onGetSessionRequest (h : St) (r : Request.t) (encodeFails : bool)
    : served St :=
  let sessionId := pathVar r "sessionId" in
  let params := {| GetSessionParams.Id := sessionId |} in
  match SessionHandler.GetSession handler h params with
  | Panics h' => Crashed h'
  | Returns h' result (Some err) =>
      Served h' [WriteHeader StatusInternalServerError]
  | Returns h' result None =>
      match SessionResult.Errors result, SessionResult.Session result with
      | _ :: _, _ =>
          Served h' (encodeResult [WriteHeader StatusBadRequest]
                       (EncodeSession result) encodeFails)
      | [], None => Served h' [WriteHeader StatusNotFound]
      | [], Some _ =>
          Served h' (encodeResult [WriteHeader StatusOK]
                       (EncodeSession result) encodeFails)
      end
  end.

Definition onDeleteSessionRequest (h : St) (r : Request.t) (encodeFails : bool)
    : served St :=
  let sessionId := pathVar r "sessionId" in
  let params := {| DeleteSessionParams.Id := sessionId |} in
  match SessionHandler.DeleteSession handler h params with
  | Panics h' => Crashed h'
  | Returns h' result (Some err) =>
      Served h' [WriteHeader StatusInternalServerError]
  | Returns h' result None =>
      match SessionResult.Errors result, SessionResult.Session result with
      | _ :: _, _ =>
          Served h' (encodeResult [WriteHeader StatusBadRequest]
                       (EncodeSession result) encodeFails)
      | [], None => Served h' [WriteHeader StatusNotFound]
      | [], Some _ =>
          Served h' (encodeResult [WriteHeader StatusOK]
                       (EncodeSession result) encodeFails)
      end
  end.

Definition onSessionRequest (h : St) (r : Request.t) (encodeFails : bool)
    : served St :=
  if isGet r then onGetSessionRequest h r encodeFails
  else if isDelete r then onDeleteSessionRequest h r encodeFails
  else Served h [WriteHeader StatusNotImplemented].

Definition onGetSessionParticipantsRequest (h : St) (r : Request.t)
    (encodeFails : bool) : served St :=
  let sessionId := pathVar r "sessionId" in
  match SessionHandler.GetParticipants handler h
          {| GetParticipantsParams.SessionId := sessionId |} with
  | Panics h' => Crashed h'
  | Returns h' result (Some err) =>
      Served h' [WriteHeader StatusInternalServerError]
  | Returns h' result None =>
      let w :=
        match ParticipantsResult.Errors result with
        | _ :: _ => [WriteHeader StatusBadRequest]
        | [] => [WriteHeader StatusOK]
        end in
      Served h' (encodeResult w (EncodeParticipants result) encodeFails)
  end.

Definition onPostSessionParticipantsRequest (h : St) (r : Request.t) (o : O)
    (encodeFails : bool) : served St :=
  match decodeAddParticipantParams (Request.Body r) with
  | None => Served h [WriteHeader StatusBadRequest]
  | Some params =>
      let params :=
        {| AddParticipantParams.SessionId := pathVar r "sessionId";
           AddParticipantParams.Name := AddParticipantParams.Name params |} in
      match SessionHandler.AddParticipant handler h params o with
      | Panics h' => Crashed h'
      | Returns h' result (Some err) =>
          Served h' [WriteHeader StatusInternalServerError]
      | Returns h' result None =>
          let w :=
            match ParticipantResult.Errors result with
            | _ :: _ => [WriteHeader StatusBadRequest]
            | [] => [WriteHeader StatusCreated]
            end in
          Served h' (encodeResult w (EncodeParticipant result) encodeFails)
      end
  end.

Definition onSessionParticipantsRequest (h : St) (r : Request.t) (o : O)
    (encodeFails : bool) : served St :=
  if isGet r then onGetSessionParticipantsRequest h r encodeFails
  else if isPutOrPost r then onPostSessionParticipantsRequest h r o encodeFails
  else Served h [WriteHeader StatusNotImplemented].

(** What the three request handlers for one participant do once the
    session handler has been called. *)
Definition respondParticipant (call : outcome St ParticipantResult.t)
    (encodeFails : bool) : served St :=
  match call with
  | Panics h' => Crashed h'
  | Returns h' result (Some err) =>
      Served h' [WriteHeader StatusInternalServerError]
  | Returns h' result None =>
      match ParticipantResult.Errors result, ParticipantResult.Participant result with
      | _ :: _, _ =>
          Served h' (encodeResult [WriteHeader StatusBadRequest]
                       (EncodeParticipant result) encodeFails)
      | [], None => Served h' [WriteHeader StatusNotFound]
      | [], Some _ =>
          Served h' (encodeResult [WriteHeader StatusOK]
                       (EncodeParticipant result) encodeFails)
      end
  end.

Definition onGetSessionParticipantRequest (h : St) (r : Request.t)
    (encodeFails : bool) : served St :=
  let sessionId := pathVar r "sessionId" in
  let participantId := pathVar r "participantId" in
  respondParticipant
    (SessionHandler.GetParticipant handler h
       {| GetParticipantParams.SessionId := sessionId;
          GetParticipantParams.ParticipantId := participantId |})
    encodeFails.

Definition onUpdateSessionParticipantRequest (h : St) (r : Request.t)
    (encodeFails : bool) : served St :=
  let sessionId := pathVar r "sessionId" in
  let participantId := pathVar r "participantId" in
  match decodeUpdateParticipantParams (Request.Body r) with
  | None => Served h [WriteHeader StatusBadRequest]
  | Some params =>
      let params :=
        {| UpdateParticipantParams.SessionId := sessionId;
           UpdateParticipantParams.ParticipantId := participantId;
           UpdateParticipantParams.Name := UpdateParticipantParams.Name params |} in
      respondParticipant
        (SessionHandler.UpdateParticipant handler h params) encodeFails
  end.

Definition onDeleteSessionParticipantRequest (h : St) (r : Request.t)
    (encodeFails : bool) : served St :=
  let sessionId := pathVar r "sessionId" in
  let participantId := pathVar r "participantId" in
  respondParticipant
    (SessionHandler.DeleteParticipant handler h
       {| DeleteParticipantParams.SessionId := sessionId;
          DeleteParticipantParams.ParticipantId := participantId |})
    encodeFails.

Definition onSessionParticipantRequest (h : St) (r : Request.t)
    (encodeFails : bool) : served St :=
  if isGet r then onGetSessionParticipantRequest h r encodeFails
  else if isPutOrPost r then onUpdateSessionParticipantRequest h r encodeFails
  else if isDelete r then onDeleteSessionParticipantRequest h r encodeFails
  else Served h [WriteHeader StatusNotImplemented].

End Handlers.
End Server.

(** The status a client receives is the one of the first [WriteHeader]:
    [net/http] ignores the later ones. *)
Definition firstStatus (w : list Written) : option nat :=
  match w with
  | WriteHeader status :: _ => Some status
  | _ => None
  end.





(** Requests and decoders used in the examples. The decoders stand for
    the JSON decoder: they read the whole body as the name, and fail on
    the empty body. *)
Module SampleHttp.

Definition decodeCreate (body : string) : option CreateSessionParams.t :=
  if String.eqb body "" then None
  else Some {| CreateSessionParams.Name := body |}.

Definition decodeAdd (sessionId body : string) : option AddParticipantParams.t :=
  if String.eqb body "" then None
  else Some {| AddParticipantParams.SessionId := sessionId;
               AddParticipantParams.Name := body |}.

Definition decodeUpdate (sessionId participantId body : string)
    : option UpdateParticipantParams.t :=
  if String.eqb body "" then None
  else Some {| UpdateParticipantParams.SessionId := sessionId;
               UpdateParticipantParams.ParticipantId := participantId;
               UpdateParticipantParams.Name := body |}.

Definition request (method sessionId participantId body : string) : Request.t :=
  {| Request.Method := method;
     Request.Vars :=
       {[ "sessionId" := sessionId; "participantId" := participantId ]};
     Request.Body := body |}.

End SampleHttp.

(** ** The logger package *)

Module logger.

Definition Debug : Z := 0.
Definition Info : Z := 1.
Definition Warn : Z := 2.
Definition Error : Z := 3.

Section Parse.
(** [strings.ToLower], and the text the verb [%q] gives a string. *)
Variable ToLower : string → string.
Variable Quote : string → string.

(** The [switch] takes the first case that is equal to the lowered
    string. *)
Definition ParseLogLevel (level : string) : Z * option string :=
  let l := Info in
  let lowered := ToLower level in
  if String.eqb lowered "info" then (Info, None)
  else if String.eqb lowered "debug" then (Debug, None)
  else if String.eqb lowered "error" then (Error, None)
  else if String.eqb lowered "warn" then (Warn, None)
  else (l, Some ("unknown log level " +:+ Quote level)).
End Parse.

(** The four printing functions, as the decision they take on the value
    of the variable [LogLevel]: whether the message goes to the logger. *)
Definition LogDebugF (LogLevel : Z) : bool := (LogLevel <=? Debug)%Z.
Definition LogInfoF (LogLevel : Z) : bool := (LogLevel <=? Info)%Z.
Definition LogWarnF (LogLevel : Z) : bool := (LogLevel <=? Warn)%Z.
Definition LogErrorF (LogLevel : Z) : bool := (LogLevel <=? Error)%Z.

End logger.

(** ** Classes of bytes used in the statements *)

(** The six white-space characters of ASCII. *)
Definition asciiSpace (c : ascii) : bool :=
  bool_decide (N_of_ascii c ∈ [9; 10; 11; 12; 13; 32]%N).

(** The characters of ASCII that leave a mark: from the exclamation mark
    to the tilde. *)
Definition asciiGraphic (c : ascii) : bool := GoLib.byte_in_range 33 126 c.

(** The digits of lower-case hexadecimal. *)
Definition lowerHex (c : ascii) : bool :=
  GoLib.byte_in_range 48 57 c || GoLib.byte_in_range 97 102 c.

(** The value of a hexadecimal digit. *)
Definition hexValue (c : ascii) : N :=
  if GoLib.byte_in_range 48 57 c then N_of_ascii c - 48 else N_of_ascii c - 87.

(** A pattern has bytes, all of them outside the graphic characters. *)
Definition noGraphic (pat : list N) : bool :=
  (0 <? length pat) && forallb (λ n, (n <? 33)%N || (126 <? n)%N) pat.

(** ** Shapes of statements about a call *)

(** When the call [o], made in the state [h], returns a result with
    errors, it has left the state [h] and the result holds nothing else
    ([empty]). *)
Definition failsCleanly {St R} (errors : R → list string) (empty : R → Prop)
    (h : St) (o : outcome St R) : Prop :=
  ∀ h' r err, o = Returns h' r err → errors r ≠ [] → h' = h ∧ empty r.

Definition noSession (r : SessionResult.t) : Prop :=
  SessionResult.Session r = None.

Definition noParticipant (r : ParticipantResult.t) : Prop :=
  ParticipantResult.Participant r = None.

Definition noParticipants (r : ParticipantsResult.t) : Prop :=
  ParticipantsResult.Participants r = [].

(** * Properties *)

(** ** The parameter checks *)

Lemma isId_name_irrelevant (n m v : string) : isId n v = isId m v.
Proof. reflexivity. Qed.

Lemma isId_None (n v : string) :
  isId n v = None ↔
  String.length v = IdLen ∧ GoLib.MatchString_idClass v = true.
Proof.
  unfold isId.
  destruct (Nat.eqb_spec (String.length v) IdLen) as [Hlen | Hlen];
    destruct (GoLib.MatchString_idClass v); simpl;
    split; try done; intros [? ?]; done.
Qed.

Lemma isId_wrong_length (n v : string) :
  String.length v ≠ IdLen → isId n v = Some (v +:+ " must be a valid id").
Proof.
  intros Hlen. unfold isId.
  by destruct (Nat.eqb_spec (String.length v) IdLen).
Qed.

Lemma isId_Some (n v e : string) :
  isId n v = Some e → e = v +:+ " must be a valid id".
Proof. unfold isId. case_match; congruence. Qed.

Lemma isNotBlank_name (v : string) : isNotBlank "name" v = checkNotBlank v.
Proof. reflexivity. Qed.

Lemma checkNotBlank_Some (v e : string) :
  checkNotBlank v = Some e → e = "name must not be blank".
Proof. unfold checkNotBlank. case_match; congruence. Qed.

(** ** The generated identifiers *)

Lemma hexDigit_high_in_class (c : ascii) :
  GoLib.idClass (GoLib.hexDigit (N_of_ascii c / 16)) = true.
Proof. destruct c as [[] [] [] [] [] [] [] []]; reflexivity. Qed.

Lemma string_of_list_ascii_length (l : list ascii) :
  String.length (String.string_of_list_ascii l) = length l.
Proof. induction l as [| c l IH]; simpl; congruence. Qed.

Lemma Sprintf_x_length (b : list ascii) :
  String.length (GoLib.Sprintf_x b) = 2 * length b.
Proof.
  unfold GoLib.Sprintf_x. rewrite string_of_list_ascii_length.
  induction b as [| c b IH]; [done |].
  rewrite bind_cons, length_app, IH. simpl. lia.
Qed.

(** [generateSessionId] returns [IdLen] characters. *)
Lemma generateSessionId_length (sum : list ascii) :
  length sum = 32 → String.length (generateSessionId sum) = IdLen.
Proof.
  intros Hsum. unfold generateSessionId, GoLib.prefix_of, GoLib.bytes_of.
  rewrite string_of_list_ascii_length, length_take.
  pose proof (Sprintf_x_length sum) as Hlen.
  unfold GoLib.Sprintf_x in *.
  rewrite String.list_ascii_of_string_of_list_ascii.
  rewrite string_of_list_ascii_length in Hlen.
  unfold IdLen. lia.
Qed.

(** The identifiers [generateSessionId] returns pass [isId]. *)
Lemma generateSessionId_isId (n : string) (sum : list ascii) :
  length sum = 32 → isId n (generateSessionId sum) = None.
Proof.
  intros Hsum. apply isId_None. split; [by apply generateSessionId_length |].
  destruct sum as [| c sum]; [done |].
  unfold generateSessionId, GoLib.prefix_of, GoLib.Sprintf_x,
    GoLib.MatchString_idClass, GoLib.bytes_of.
  rewrite !String.list_ascii_of_string_of_list_ascii.
  cbn [mbind list_bind app take IdLen existsb].
  by rewrite hexDigit_high_in_class.
Qed.

(** ** [WebRtcSessionHandler]: what the checks decide *)

Lemma appendError_nil (errors : list string) (err : option string) :
  appendError errors err = [] ↔ errors = [] ∧ err = None.
Proof.
  destruct err as [msg |]; simpl; [| tauto].
  split; [by destruct errors | by intros [_ ?]].
Qed.

Lemma GetSessionParams_check_nil (p : GetSessionParams.t) :
  GetSessionParams.check p = [] ↔ isId "id" (GetSessionParams.Id p) = None.
Proof. unfold GetSessionParams.check. rewrite appendError_nil. tauto. Qed.

Lemma DeleteSessionParams_check_nil (p : DeleteSessionParams.t) :
  DeleteSessionParams.check p = [] ↔ isId "id" (DeleteSessionParams.Id p) = None.
Proof. unfold DeleteSessionParams.check. rewrite appendError_nil. tauto. Qed.

Lemma CreateSessionParams_check_nil (p : CreateSessionParams.t) :
  CreateSessionParams.check p = [] ↔
  isNotBlank "name" (CreateSessionParams.Name p) = None.
Proof. unfold CreateSessionParams.check. rewrite appendError_nil. tauto. Qed.

Lemma AddParticipantParams_check_nil (p : AddParticipantParams.t) :
  AddParticipantParams.check p = [] ↔
  isId "sessionId" (AddParticipantParams.SessionId p) = None
  ∧ isNotBlank "name" (AddParticipantParams.Name p) = None.
Proof.
  unfold AddParticipantParams.check. rewrite !appendError_nil. tauto.
Qed.

Lemma GetParticipantParams_check_nil (p : GetParticipantParams.t) :
  GetParticipantParams.check p = [] ↔
  isId "sessionId" (GetParticipantParams.SessionId p) = None
  ∧ isId "participantId" (GetParticipantParams.ParticipantId p) = None.
Proof.
  unfold GetParticipantParams.check. rewrite !appendError_nil. tauto.
Qed.

Lemma DeleteParticipantParams_check_nil (p : DeleteParticipantParams.t) :
  DeleteParticipantParams.check p = [] ↔
  isId "sessionId" (DeleteParticipantParams.SessionId p) = None
  ∧ isId "participantId" (DeleteParticipantParams.ParticipantId p) = None.
Proof.
  unfold DeleteParticipantParams.check. rewrite !appendError_nil. tauto.
Qed.

Lemma UpdateParticipantParams_check_nil (p : UpdateParticipantParams.t) :
  UpdateParticipantParams.check p = [] ↔
  isId "sessionId" (UpdateParticipantParams.SessionId p) = None
  ∧ isId "participantId" (UpdateParticipantParams.ParticipantId p) = None
  ∧ isNotBlank "name" (UpdateParticipantParams.Name p) = None.
Proof.
  unfold UpdateParticipantParams.check. rewrite !appendError_nil. tauto.
Qed.

Lemma GetParticipantsParams_check_nil (p : GetParticipantsParams.t) :
  GetParticipantsParams.check p = [] ↔
  isId "sessionId" (GetParticipantsParams.SessionId p) = None.
Proof.
  unfold GetParticipantsParams.check. rewrite appendError_nil. tauto.
Qed.

(** ** [WebRtcSessionHandler]: the invariant of the reachable states *)

(** Splits the conjunctions of [session_ok] and [participant_ok] and
    closes the parts that are hypotheses. *)
Ltac ok_split :=
  unfold W.session_ok, W.participant_ok, M.session_ok, M.participant_ok;
  simpl; split_and!; try done.

Lemma W_wf_insert (h : W.t) (sid : string) (s : webRtcSession.t) :
  W.wf h → W.session_ok sid s → W.wf (W.store h sid s).
Proof. intros Hwf Hs. by apply map_Forall_insert_2. Qed.

Lemma W_wf_delete (h : W.t) (sid : string) :
  W.wf h → W.wf {| W.sessions := delete sid (W.sessions h) |}.
Proof. intros Hwf. by apply map_Forall_delete. Qed.

Lemma W_wf_CreateSession h p sum now :
  length sum = 32 → W.wf h → W.wf (state_of (W.CreateSession h p sum now)).
Proof.
  intros Hsum Hwf. unfold W.CreateSession.
  destruct (CreateSessionParams.check p) as [| e errors] eqn:Hcheck; [| done].
  apply CreateSessionParams_check_nil in Hcheck. simpl.
  apply map_Forall_insert_2; [| done].
  ok_split.
  by apply generateSessionId_isId.
Qed.

Lemma W_wf_DeleteSession h p :
  W.wf h → W.wf (state_of (W.DeleteSession h p)).
Proof.
  intros Hwf. unfold W.DeleteSession, W.doActionOnSession.
  destruct (DeleteSessionParams.check p); [| done].
  destruct (W.sessions h !! _); simpl; [| done].
  by apply W_wf_delete.
Qed.

Lemma W_wf_AddParticipant h p sum now :
  length sum = 32 → W.wf h → W.wf (state_of (W.AddParticipant h p sum now)).
Proof.
  intros Hsum Hwf. unfold W.AddParticipant, W.doActionOnSession.
  destruct (AddParticipantParams.check p) as [| e errors] eqn:Hcheck; [| done].
  apply AddParticipantParams_check_nil in Hcheck as [Hsid Hname].
  destruct (W.sessions h !! _) as [s |] eqn:Hs; simpl; [| done].
  apply W_wf_insert; [done |].
  destruct (Hwf _ _ Hs) as (? & ? & ? & Hparts).
  ok_split.
  apply map_Forall_insert_2; [| done].
  ok_split.
  by apply generateSessionId_isId.
Qed.

Lemma W_wf_UpdateParticipant h p :
  W.wf h → W.wf (state_of (W.UpdateParticipant h p)).
Proof.
  intros Hwf. unfold W.UpdateParticipant, W.doActionOnSession.
  destruct (UpdateParticipantParams.check p) as [| e errors] eqn:Hcheck; [| done].
  apply UpdateParticipantParams_check_nil in Hcheck as (Hsid & Hpid & Hname).
  destruct (W.sessions h !! _) as [s |] eqn:Hs; simpl; [| done].
  destruct (webRtcSession.participants s !! _) as [q |] eqn:Hq; simpl; [| done].
  apply W_wf_insert; [done |].
  destruct (Hwf _ _ Hs) as (? & ? & ? & Hparts).
  destruct (Hparts _ _ Hq) as (? & ? & ? & ?).
  ok_split.
  apply map_Forall_insert_2; [| done].
  by ok_split.
Qed.

Lemma W_wf_DeleteParticipant h p :
  W.wf h → W.wf (state_of (W.DeleteParticipant h p)).
Proof.
  intros Hwf. unfold W.DeleteParticipant, W.doActionOnSession.
  destruct (DeleteParticipantParams.check p); [| done].
  destruct (W.sessions h !! _) as [s |] eqn:Hs; simpl; [| done].
  destruct (webRtcSession.participants s !! _) as [q |] eqn:Hq; simpl; [| done].
  apply W_wf_insert; [done |].
  destruct (Hwf _ _ Hs) as (? & ? & ? & Hparts).
  ok_split.
  by apply map_Forall_delete.
Qed.

Lemma W_state_GetSession h p : state_of (W.GetSession h p) = h.
Proof.
  unfold W.GetSession, W.doActionOnSession.
  destruct (GetSessionParams.check p); [| done].
  by destruct (W.sessions h !! _).
Qed.

Lemma W_state_GetParticipant h p : state_of (W.GetParticipant h p) = h.
Proof.
  unfold W.GetParticipant, W.doActionOnSession.
  destruct (GetParticipantParams.check p); [| done].
  by destruct (W.sessions h !! _).
Qed.

Lemma W_state_GetParticipants h p : state_of (W.GetParticipants h p) = h.
Proof.
  unfold W.GetParticipants, W.doActionOnSession.
  destruct (GetParticipantsParams.check p); [| done].
  by destruct (W.sessions h !! _).
Qed.

(** Every reachable state of the [WebRtcSessionHandler] is well formed. *)
Lemma W_reachable_wf (h : W.t) : W.reachable h → W.wf h.
Proof.
  induction 1 as [| h p sum now _ IH Hsum | h p _ IH | h p _ IH
                  | h p sum now _ IH Hsum | h p _ IH | h p _ IH | h p _ IH
                  | h p _ IH].
  - apply map_Forall_empty.
  - by apply W_wf_CreateSession.
  - by rewrite W_state_GetSession.
  - by apply W_wf_DeleteSession.
  - by apply W_wf_AddParticipant.
  - by rewrite W_state_GetParticipant.
  - by apply W_wf_UpdateParticipant.
  - by apply W_wf_DeleteParticipant.
  - by rewrite W_state_GetParticipants.
Qed.

(** ** [MockSessionHandler]: the invariant of the reachable states *)

Lemma GoMap_index_orMake {V} (m : option (gmap string V)) (k : string) :
  GoMap.index m k = GoMap.orMake m !! k.
Proof. by destruct m. Qed.

Lemma GoMap_orMake_remove {V} (m : option (gmap string V)) (k : string) :
  GoMap.orMake (GoMap.remove m k) = delete k (GoMap.orMake m).
Proof. destruct m; simpl; [done |]. by rewrite delete_empty. Qed.

Lemma GoMap_remove_absent {V} (m : option (gmap string V)) (k : string) :
  GoMap.index m k = None → GoMap.remove m k = m.
Proof. destruct m; simpl; [| done]. intros Hk. by rewrite delete_id. Qed.

Section MockInvariant.
Variable uuid_Parse : string → option string.

Lemma M_wf_store (h : M.t) (sid : string) (rs : RegisteredSession.t) :
  M.wf uuid_Parse h → M.session_ok uuid_Parse sid rs →
  M.wf uuid_Parse (M.store h sid rs).
Proof. intros Hwf Hrs. by apply map_Forall_insert_2. Qed.

Lemma M_wf_lookup (h : M.t) (sid : string) (rs : RegisteredSession.t) :
  M.wf uuid_Parse h → GoMap.index (M.sessions h) sid = Some rs →
  M.session_ok uuid_Parse sid rs.
Proof. intros Hwf Hrs. rewrite GoMap_index_orMake in Hrs. by apply Hwf. Qed.

Lemma M_wf_CreateSession h p id now :
  uuid_Parse id = None → M.wf uuid_Parse h →
  M.wf uuid_Parse (state_of (M.CreateSession h p id now)).
Proof.
  intros Hid Hwf. unfold M.CreateSession.
  destruct (checkNotBlank _) eqn:Hname; [done |]. simpl.
  apply map_Forall_insert_2; [| done].
  ok_split.
Qed.

Lemma M_state_GetSession h p : state_of (M.GetSession uuid_Parse h p) = h.
Proof.
  unfold M.GetSession.
  destruct (M.checkSessionId _ _); [done |].
  by destruct (GoMap.index _ _).
Qed.

Lemma M_wf_DeleteSession h p :
  M.wf uuid_Parse h → M.wf uuid_Parse (state_of (M.DeleteSession uuid_Parse h p)).
Proof.
  intros Hwf. unfold M.DeleteSession.
  destruct (M.checkSessionId _ _); [done |].
  assert (M.wf uuid_Parse
            {| M.sessions := GoMap.remove (M.sessions h) (DeleteSessionParams.Id p) |}).
  { unfold M.wf. simpl. rewrite GoMap_orMake_remove. by apply map_Forall_delete. }
  by destruct (GoMap.index _ _).
Qed.

Lemma M_wf_AddParticipant h p id now :
  M.wf uuid_Parse h →
  M.wf uuid_Parse (state_of (M.AddParticipant uuid_Parse h p id now)).
Proof.
  intros Hwf. unfold M.AddParticipant.
  destruct (M.checkSessionId _ _); [done |].
  destruct (checkNotBlank _) eqn:Hname; [done |].
  destruct (GoMap.index _ _) as [rs |] eqn:Hrs; [| done]. simpl.
  destruct (M_wf_lookup _ _ _ Hwf Hrs) as (? & ? & ? & Hparts).
  apply M_wf_store; [done |]. ok_split.
  apply map_Forall_insert_2; [| done]. ok_split.
Qed.

Lemma M_state_GetParticipant h p : state_of (M.GetParticipant h p) = h.
Proof. unfold M.GetParticipant. by destruct (GoMap.index _ _). Qed.

Lemma M_state_GetParticipants h p : state_of (M.GetParticipants h p) = h.
Proof. unfold M.GetParticipants. by destruct (GoMap.index _ _). Qed.

Lemma M_wf_UpdateParticipant h p :
  M.wf uuid_Parse h → M.wf uuid_Parse (state_of (M.UpdateParticipant h p)).
Proof.
  intros Hwf. unfold M.UpdateParticipant.
  destruct (checkNotBlank _) eqn:Hname; [done |].
  destruct (GoMap.index (M.sessions h) _) as [rs |] eqn:Hrs; [| done].
  destruct (GoMap.index (RegisteredSession.participants rs) _)
    as [q |] eqn:Hq; [| done]. simpl.
  destruct (M_wf_lookup _ _ _ Hwf Hrs) as (? & ? & ? & Hparts).
  rewrite GoMap_index_orMake in Hq.
  destruct (Hparts _ _ Hq) as (? & ? & ?).
  apply M_wf_store; [done |]. ok_split.
  apply map_Forall_insert_2; [| done]. ok_split.
Qed.

Lemma M_wf_DeleteParticipant h p :
  M.wf uuid_Parse h → M.wf uuid_Parse (state_of (M.DeleteParticipant h p)).
Proof.
  intros Hwf. unfold M.DeleteParticipant.
  destruct (GoMap.index (M.sessions h) _) as [rs |] eqn:Hrs; [| done].
  destruct (GoMap.index (RegisteredSession.participants rs) _)
    as [q |] eqn:Hq; [| done]. simpl.
  destruct (M_wf_lookup _ _ _ Hwf Hrs) as (? & ? & ? & Hparts).
  apply M_wf_store; [done |]. ok_split.
  rewrite GoMap_orMake_remove. by apply map_Forall_delete.
Qed.

(** Every reachable state of the [MockSessionHandler] is well formed. *)
Lemma M_reachable_wf (h : M.t) : M.reachable uuid_Parse h → M.wf uuid_Parse h.
Proof.
  induction 1 as [| h p id now _ IH Hid | h p _ IH | h p _ IH
                  | h p id now _ IH Hid | h p _ IH | h p _ IH | h p _ IH
                  | h p _ IH].
  - apply map_Forall_empty.
  - by apply M_wf_CreateSession.
  - by rewrite M_state_GetSession.
  - by apply M_wf_DeleteSession.
  - by apply M_wf_AddParticipant.
  - by rewrite M_state_GetParticipant.
  - by apply M_wf_UpdateParticipant.
  - by apply M_wf_DeleteParticipant.
  - by rewrite M_state_GetParticipants.
Qed.

End MockInvariant.

(** ** Absent sessions, malformed identifiers *)

(** The methods of the [WebRtcSessionHandler] always return, with a [nil]
    error. *)
Lemma W_methods_complete (h : W.t) :
  (∀ p sum now, completes (W.CreateSession h p sum now))
  ∧ (∀ p, completes (W.GetSession h p))
  ∧ (∀ p, completes (W.DeleteSession h p))
  ∧ (∀ p sum now, completes (W.AddParticipant h p sum now))
  ∧ (∀ p, completes (W.GetParticipant h p))
  ∧ (∀ p, completes (W.UpdateParticipant h p))
  ∧ (∀ p, completes (W.DeleteParticipant h p))
  ∧ (∀ p, completes (W.GetParticipants h p)).
Proof.
  unfold completes, W.CreateSession, W.GetSession, W.DeleteSession,
    W.AddParticipant, W.GetParticipant, W.UpdateParticipant,
    W.DeleteParticipant, W.GetParticipants, W.doActionOnSession.
  split_and!; intros;
    repeat (case_match; simplify_eq/=); eauto.
Qed.

(** [WebRtcSessionHandler]: an identifier that passes [isId] and is not
    registered is reported as not found by [GetSession] and
    [DeleteSession]. *)
Lemma W_absent_session_not_found (h : W.t) (id : string) :
  isId "id" id = None → W.sessions h !! id = None →
  W.GetSession h {| GetSessionParams.Id := id |}
  = Returns h {| SessionResult.Session := None; SessionResult.Errors := [] |} None
  ∧ W.DeleteSession h {| DeleteSessionParams.Id := id |}
    = Returns h {| SessionResult.Session := None; SessionResult.Errors := [] |} None.
Proof.
  intros Hid Habsent.
  unfold W.GetSession, W.DeleteSession, W.doActionOnSession,
    GetSessionParams.check, DeleteSessionParams.check. simpl.
  by rewrite Hid, Habsent.
Qed.

(** C1, on the [MockSessionHandler]: [GetSession] and [DeleteSession],
    called with an identifier that [uuid.Parse] accepts and that is not
    registered, do not return a result with an absent session and no
    errors: they panic, taking the address of a field of the [nil]
    pointer the map lookup gave. The handler state is left as it was. *)
Theorem Mock_absent_session_panics
    (uuid_Parse : string → option string) (h : M.t) (id : string) :
  uuid_Parse id = None →
  GoMap.index (M.sessions h) id = None →
  M.GetSession uuid_Parse h {| GetSessionParams.Id := id |} = Panics h
  ∧ M.DeleteSession uuid_Parse h {| DeleteSessionParams.Id := id |} = Panics h.
Proof.
  intros Hid Habsent. unfold M.GetSession, M.DeleteSession, M.checkSessionId.
  simpl. rewrite Hid, Habsent, GoMap_remove_absent by done.
  by destruct h.
Qed.

Lemma Mock_absent_session_panics_witness :
  Sample.uuid_Parse Sample.uuid1 = None
  ∧ GoMap.index (M.sessions M.new) Sample.uuid1 = None
  ∧ M.GetSession Sample.uuid_Parse M.new
      {| GetSessionParams.Id := Sample.uuid1 |} = Panics M.new
  ∧ M.DeleteSession Sample.uuid_Parse M.new
      {| DeleteSessionParams.Id := Sample.uuid1 |} = Panics M.new.
Proof.
  split; [reflexivity |]. split; [reflexivity |].
  apply (Mock_absent_session_panics Sample.uuid_Parse M.new Sample.uuid1);
    reflexivity.
Defined.

(** [isId] rejects every string whose length is not [IdLen], and every
    string without a character of the class. *)
Lemma W_GetSession_wrong_length (h : W.t) (id : string) :
  String.length id ≠ IdLen →
  W.GetSession h {| GetSessionParams.Id := id |}
  = Returns h {| SessionResult.Session := None;
                 SessionResult.Errors := [id +:+ " must be a valid id"] |} None.
Proof.
  intros Hlen. unfold W.GetSession, GetSessionParams.check. simpl.
  by rewrite isId_wrong_length.
Qed.

(** C2, on the [WebRtcSessionHandler]: the identifier session_01 has
    [IdLen] characters, one of which, the underscore, is outside the class
    of the pattern; [isId] accepts it all the same, because the pattern
    asks for one character of the class only, and [GetSession] and
    [DeleteSession] answer not found: no session and no errors. *)
Theorem WebRtc_isId_accepts_disallowed_character :
  GoLib.idClass "_" = false
  ∧ isId "id" "session_01" = None
  ∧ W.GetSession W.NewWebRtcSessionHandler {| GetSessionParams.Id := "session_01" |}
    = Returns W.NewWebRtcSessionHandler
        {| SessionResult.Session := None; SessionResult.Errors := [] |} None
  ∧ W.DeleteSession W.NewWebRtcSessionHandler
      {| DeleteSessionParams.Id := "session_01" |}
    = Returns W.NewWebRtcSessionHandler
        {| SessionResult.Session := None; SessionResult.Errors := [] |} None.
Proof.
  split; [reflexivity |]. split; [reflexivity |].
  by apply W_absent_session_not_found.
Qed.

(** C3, on the [MockSessionHandler]: [AddParticipant] returns as soon as
    one check fails, so that a malformed [SessionId] together with a blank
    [Name] yields one error, the one of the identifier, and not two. *)
Theorem Mock_AddParticipant_stops_at_first_error
    (uuid_Parse : string → option string) (h : M.t)
    (sessionId name id now e1 e2 : string) :
  uuid_Parse sessionId = Some e1 →
  checkNotBlank name = Some e2 →
  M.AddParticipant uuid_Parse h
    {| AddParticipantParams.SessionId := sessionId;
       AddParticipantParams.Name := name |} id now
  = Returns h {| ParticipantResult.Participant := None;
                 ParticipantResult.Errors := [e1] |} None.
Proof.
  intros Hsid _. unfold M.AddParticipant, M.checkSessionId. simpl.
  by rewrite Hsid.
Qed.

Lemma Mock_AddParticipant_stops_at_first_error_witness :
  Sample.uuid_Parse "x" = Some "invalid UUID format"
  ∧ checkNotBlank "  " = Some "name must not be blank"
  ∧ M.AddParticipant Sample.uuid_Parse M.new
      {| AddParticipantParams.SessionId := "x";
         AddParticipantParams.Name := "  " |} Sample.uuid1 Sample.now
    = Returns M.new {| ParticipantResult.Participant := None;
                       ParticipantResult.Errors := ["invalid UUID format"] |} None.
Proof.
  split; [reflexivity |]. split; [reflexivity |].
  apply (Mock_AddParticipant_stops_at_first_error Sample.uuid_Parse M.new
           "x" "  " Sample.uuid1 Sample.now "invalid UUID format"
           "name must not be blank"); reflexivity.
Defined.

(** The same parameters, checked by [AddParticipantParams.check] as the
    [WebRtcSessionHandler] does, yield the two errors. *)
Lemma AddParticipantParams_check_collects :
  AddParticipantParams.check
    {| AddParticipantParams.SessionId := "x"; AddParticipantParams.Name := "  " |}
  = ["x must be a valid id"; "name must not be blank"].
Proof. reflexivity. Qed.

(** C4, on the [MockSessionHandler]: [GetParticipant], [UpdateParticipant]
    and [DeleteParticipant] look the session up without checking the
    format of the identifiers, so that the malformed [SessionId] x is
    answered with the error of a session that does not exist. *)
Theorem Mock_participant_methods_skip_id_validation :
  isId "sessionId" "x" = Some "x must be a valid id"
  ∧ M.GetParticipant M.new
      {| GetParticipantParams.SessionId := "x";
         GetParticipantParams.ParticipantId := "y" |}
    = Returns M.new {| ParticipantResult.Participant := None;
                       ParticipantResult.Errors := ["session x does not exist"] |} None
  ∧ M.UpdateParticipant M.new
      {| UpdateParticipantParams.SessionId := "x";
         UpdateParticipantParams.ParticipantId := "y";
         UpdateParticipantParams.Name := "alice" |}
    = Returns M.new {| ParticipantResult.Participant := None;
                       ParticipantResult.Errors := ["session x does not exist"] |} None
  ∧ M.DeleteParticipant M.new
      {| DeleteParticipantParams.SessionId := "x";
         DeleteParticipantParams.ParticipantId := "y" |}
    = Returns M.new {| ParticipantResult.Participant := None;
                       ParticipantResult.Errors := ["session x does not exist"] |} None.
Proof. split_and!; reflexivity. Qed.

(** The [WebRtcSessionHandler] answers a malformed identifier with the
    errors of its check, whatever the store holds. *)
Lemma W_GetParticipant_invalid (h : W.t) (p : GetParticipantParams.t) :
  GetParticipantParams.check p ≠ [] →
  W.GetParticipant h p
  = Returns h {| ParticipantResult.Participant := None;
                 ParticipantResult.Errors := GetParticipantParams.check p |} None.
Proof.
  intros Hcheck. unfold W.GetParticipant.
  by destruct (GetParticipantParams.check p).
Qed.

(** ** Participants that are not in a session *)

Lemma webRtc1_reachable : W.reachable Sample.webRtc1.
Proof.
  unfold Sample.webRtc1.
  apply W.reach_AddParticipant; [| reflexivity].
  apply W.reach_CreateSession; [| reflexivity].
  apply W.reach_New.
Qed.

Lemma mock1_reachable : M.reachable Sample.uuid_Parse Sample.mock1.
Proof.
  unfold Sample.mock1.
  apply M.reach_AddParticipant; [| reflexivity].
  apply M.reach_CreateSession; [| reflexivity].
  apply M.reach_new.
Qed.

Lemma W_quiet_miss (h : W.t) (sid pid name : string) (s : webRtcSession.t) :
  W.reachable h →
  W.sessions h !! sid = Some s →
  webRtcSession.participants s !! pid = None →
  isId "participantId" pid = None →
  isNotBlank "name" name = None →
  W.GetParticipant h
    {| GetParticipantParams.SessionId := sid;
       GetParticipantParams.ParticipantId := pid |} = Returns h quietMiss None
  ∧ W.UpdateParticipant h
      {| UpdateParticipantParams.SessionId := sid;
         UpdateParticipantParams.ParticipantId := pid;
         UpdateParticipantParams.Name := name |} = Returns h quietMiss None
  ∧ W.DeleteParticipant h
      {| DeleteParticipantParams.SessionId := sid;
         DeleteParticipantParams.ParticipantId := pid |} = Returns h quietMiss None.
Proof.
  intros Hreach Hs Hpid Hvalid Hname.
  destruct (W_reachable_wf h Hreach sid s Hs) as (Hsid & _).
  rewrite (isId_name_irrelevant _ "sessionId") in Hvalid.
  unfold W.GetParticipant, W.UpdateParticipant, W.DeleteParticipant,
    W.doActionOnSession, GetParticipantParams.check,
    UpdateParticipantParams.check, DeleteParticipantParams.check. simpl.
  rewrite (isId_name_irrelevant "participantId" "sessionId").
  by rewrite Hsid, Hvalid, Hname, Hs, Hpid.
Qed.

Lemma M_quiet_miss (h : M.t) (sid pid name : string) (rs : RegisteredSession.t) :
  GoMap.index (M.sessions h) sid = Some rs →
  GoMap.index (RegisteredSession.participants rs) pid = None →
  isNotBlank "name" name = None →
  M.GetParticipant h
    {| GetParticipantParams.SessionId := sid;
       GetParticipantParams.ParticipantId := pid |} = Returns h quietMiss None
  ∧ M.UpdateParticipant h
      {| UpdateParticipantParams.SessionId := sid;
         UpdateParticipantParams.ParticipantId := pid;
         UpdateParticipantParams.Name := name |} = Returns h quietMiss None
  ∧ M.DeleteParticipant h
      {| DeleteParticipantParams.SessionId := sid;
         DeleteParticipantParams.ParticipantId := pid |} = Returns h quietMiss None.
Proof.
  intros Hrs Hpid Hname. rewrite isNotBlank_name in Hname.
  unfold M.GetParticipant, M.UpdateParticipant, M.DeleteParticipant. simpl.
  by rewrite Hname, Hrs, Hpid.
Qed.

(** C5 as stated fails: in a registered session of the
    [WebRtcSessionHandler], the participant identifier zz, which is not in
    the session, is answered with a validation error by [GetParticipant]
    and [DeleteParticipant]; and, in both handlers, [UpdateParticipant]
    with a blank name is answered with a validation error, whether the
    participant exists or not. *)
Lemma quiet_miss_counterexample :
  let sid := generateSessionId Sample.sum1 in
  let absent := generateSessionId Sample.sum3 in
  (∃ s, W.sessions Sample.webRtc1 !! sid = Some s
        ∧ webRtcSession.participants s !! "zz" = None
        ∧ webRtcSession.participants s !! absent = None)
  ∧ W.GetParticipant Sample.webRtc1
      {| GetParticipantParams.SessionId := sid;
         GetParticipantParams.ParticipantId := "zz" |}
    = Returns Sample.webRtc1
        {| ParticipantResult.Participant := None;
           ParticipantResult.Errors := ["zz must be a valid id"] |} None
  ∧ W.DeleteParticipant Sample.webRtc1
      {| DeleteParticipantParams.SessionId := sid;
         DeleteParticipantParams.ParticipantId := "zz" |}
    = Returns Sample.webRtc1
        {| ParticipantResult.Participant := None;
           ParticipantResult.Errors := ["zz must be a valid id"] |} None
  ∧ W.UpdateParticipant Sample.webRtc1
      {| UpdateParticipantParams.SessionId := sid;
         UpdateParticipantParams.ParticipantId := absent;
         UpdateParticipantParams.Name := " " |}
    = Returns Sample.webRtc1
        {| ParticipantResult.Participant := None;
           ParticipantResult.Errors := ["name must not be blank"] |} None
  ∧ (∃ rs, GoMap.index (M.sessions Sample.mock1) Sample.uuid1 = Some rs
           ∧ GoMap.index (RegisteredSession.participants rs) Sample.uuid3 = None)
  ∧ M.UpdateParticipant Sample.mock1
      {| UpdateParticipantParams.SessionId := Sample.uuid1;
         UpdateParticipantParams.ParticipantId := Sample.uuid3;
         UpdateParticipantParams.Name := " " |}
    = Returns Sample.mock1
        {| ParticipantResult.Participant := None;
           ParticipantResult.Errors := ["name must not be blank"] |} None.
Proof.
  split_and!; try (vm_compute; reflexivity).
  - eexists. split_and!; vm_compute; reflexivity.
  - eexists. split_and!; vm_compute; reflexivity.
Qed.

(** C5, amended: for a registered session and a participant identifier
    that is not in it, [GetParticipant], [UpdateParticipant] and
    [DeleteParticipant] return no participant and no errors, and leave the
    handler as it was, provided the identifier passes the format check
    (which only the [WebRtcSessionHandler] makes) and the name given to
    [UpdateParticipant] is not blank. *)
Theorem quiet_miss_on_absent_participant :
  (∀ (h : W.t) (sid pid name : string) (s : webRtcSession.t),
     W.reachable h →
     W.sessions h !! sid = Some s →
     webRtcSession.participants s !! pid = None →
     isId "participantId" pid = None →
     isNotBlank "name" name = None →
     W.GetParticipant h
       {| GetParticipantParams.SessionId := sid;
          GetParticipantParams.ParticipantId := pid |} = Returns h quietMiss None
     ∧ W.UpdateParticipant h
         {| UpdateParticipantParams.SessionId := sid;
            UpdateParticipantParams.ParticipantId := pid;
            UpdateParticipantParams.Name := name |} = Returns h quietMiss None
     ∧ W.DeleteParticipant h
         {| DeleteParticipantParams.SessionId := sid;
            DeleteParticipantParams.ParticipantId := pid |} = Returns h quietMiss None)
  ∧ (∀ (h : M.t) (sid pid name : string) (rs : RegisteredSession.t),
       GoMap.index (M.sessions h) sid = Some rs →
       GoMap.index (RegisteredSession.participants rs) pid = None →
       isNotBlank "name" name = None →
       M.GetParticipant h
         {| GetParticipantParams.SessionId := sid;
            GetParticipantParams.ParticipantId := pid |} = Returns h quietMiss None
       ∧ M.UpdateParticipant h
           {| UpdateParticipantParams.SessionId := sid;
              UpdateParticipantParams.ParticipantId := pid;
              UpdateParticipantParams.Name := name |} = Returns h quietMiss None
       ∧ M.DeleteParticipant h
           {| DeleteParticipantParams.SessionId := sid;
              DeleteParticipantParams.ParticipantId := pid |} = Returns h quietMiss None).
Proof. split; [apply W_quiet_miss | apply M_quiet_miss]. Qed.

Lemma quiet_miss_on_absent_participant_witness :
  let sid := generateSessionId Sample.sum1 in
  let pid := generateSessionId Sample.sum3 in
  let s :=
    {| webRtcSession.Session :=
         {| Session.Name := "standup"; Session.Id := sid;
            Session.CreationDateTime := Sample.now |};
       webRtcSession.participants :=
         {[ generateSessionId Sample.sum2 :=
              {| Participant.Name := "alice";
                 Participant.Id := generateSessionId Sample.sum2;
                 Participant.SessionId := sid;
                 Participant.CreationDateTime := Sample.now |} ]} |} in
  let rs :=
    {| RegisteredSession.Session :=
         {| Session.Name := "standup"; Session.Id := Sample.uuid1;
            Session.CreationDateTime := Sample.now |};
       RegisteredSession.participants :=
         Some {[ Sample.uuid2 :=
              {| Participant.Name := "alice"; Participant.Id := Sample.uuid2;
                 Participant.SessionId := Sample.uuid1;
                 Participant.CreationDateTime := Sample.now |} ]} |} in
  ((W.reachable Sample.webRtc1
    ∧ W.sessions Sample.webRtc1 !! sid = Some s
    ∧ webRtcSession.participants s !! pid = None
    ∧ isId "participantId" pid = None
    ∧ isNotBlank "name" "bob" = None)
   ∧ W.GetParticipant Sample.webRtc1
       {| GetParticipantParams.SessionId := sid;
          GetParticipantParams.ParticipantId := pid |}
     = Returns Sample.webRtc1 quietMiss None
   ∧ W.UpdateParticipant Sample.webRtc1
       {| UpdateParticipantParams.SessionId := sid;
          UpdateParticipantParams.ParticipantId := pid;
          UpdateParticipantParams.Name := "bob" |}
     = Returns Sample.webRtc1 quietMiss None
   ∧ W.DeleteParticipant Sample.webRtc1
       {| DeleteParticipantParams.SessionId := sid;
          DeleteParticipantParams.ParticipantId := pid |}
     = Returns Sample.webRtc1 quietMiss None)
  ∧ ((GoMap.index (M.sessions Sample.mock1) Sample.uuid1 = Some rs
      ∧ GoMap.index (RegisteredSession.participants rs) Sample.uuid3 = None
      ∧ isNotBlank "name" "bob" = None)
     ∧ M.GetParticipant Sample.mock1
         {| GetParticipantParams.SessionId := Sample.uuid1;
            GetParticipantParams.ParticipantId := Sample.uuid3 |}
       = Returns Sample.mock1 quietMiss None
     ∧ M.UpdateParticipant Sample.mock1
         {| UpdateParticipantParams.SessionId := Sample.uuid1;
            UpdateParticipantParams.ParticipantId := Sample.uuid3;
            UpdateParticipantParams.Name := "bob" |}
       = Returns Sample.mock1 quietMiss None
     ∧ M.DeleteParticipant Sample.mock1
         {| DeleteParticipantParams.SessionId := Sample.uuid1;
            DeleteParticipantParams.ParticipantId := Sample.uuid3 |}
       = Returns Sample.mock1 quietMiss None).
Proof.
  intros sid pid s rs.
  assert (Hs : W.sessions Sample.webRtc1 !! sid = Some s)
    by (vm_compute; reflexivity).
  assert (Hpid : webRtcSession.participants s !! pid = None)
    by (vm_compute; reflexivity).
  assert (Hrs : GoMap.index (M.sessions Sample.mock1) Sample.uuid1 = Some rs)
    by (vm_compute; reflexivity).
  assert (Habsent : GoMap.index (RegisteredSession.participants rs) Sample.uuid3 = None)
    by (vm_compute; reflexivity).
  split.
  - split; [split_and!; [apply webRtc1_reachable | exact Hs | exact Hpid
                        | reflexivity | reflexivity] |].
    apply (proj1 quiet_miss_on_absent_participant Sample.webRtc1 sid pid "bob" s);
      [apply webRtc1_reachable | exact Hs | exact Hpid | reflexivity | reflexivity].
  - split; [split_and!; [exact Hrs | exact Habsent | reflexivity] |].
    apply (proj2 quiet_miss_on_absent_participant Sample.mock1 Sample.uuid1
             Sample.uuid3 "bob" rs); [exact Hrs | exact Habsent | reflexivity].
Defined.

(** ** [AddParticipant] on a session that is not registered *)

Lemma W_AddParticipant_no_session (h : W.t) (sid name : string)
    (sum : list ascii) (now : string) :
  isId "sessionId" sid = None →
  isNotBlank "name" name = None →
  W.sessions h !! sid = None →
  W.AddParticipant h
    {| AddParticipantParams.SessionId := sid; AddParticipantParams.Name := name |}
    sum now
  = Returns h {| ParticipantResult.Participant := None;
                 ParticipantResult.Errors := [sessionDoesNotExist sid] |} None.
Proof.
  intros Hsid Hname Habsent.
  unfold W.AddParticipant, W.doActionOnSession, AddParticipantParams.check.
  simpl. by rewrite Hsid, Hname, Habsent.
Qed.

Lemma M_AddParticipant_no_session (uuid_Parse : string → option string)
    (h : M.t) (sid name id now : string) :
  uuid_Parse sid = None →
  checkNotBlank name = None →
  GoMap.index (M.sessions h) sid = None →
  M.AddParticipant uuid_Parse h
    {| AddParticipantParams.SessionId := sid; AddParticipantParams.Name := name |}
    id now
  = Returns h {| ParticipantResult.Participant := None;
                 ParticipantResult.Errors := [sessionDoesNotExist sid] |} None.
Proof.
  intros Hsid Hname Habsent. unfold M.AddParticipant, M.checkSessionId.
  simpl. by rewrite Hsid, Hname, Habsent.
Qed.

(** C7: [AddParticipant], called with a session identifier that passes
    the format check of the handler and is not registered, and with a name
    that is not blank, returns no participant and the one error
    session ... does not exist, and leaves the handler as it was. The
    format check is [isId] in the [WebRtcSessionHandler] and [uuid.Parse]
    in the [MockSessionHandler]. *)
Theorem AddParticipant_unknown_session :
  (∀ (h : W.t) (sid name : string) (sum : list ascii) (now : string),
     isId "sessionId" sid = None →
     isNotBlank "name" name = None →
     W.sessions h !! sid = None →
     W.AddParticipant h
       {| AddParticipantParams.SessionId := sid;
          AddParticipantParams.Name := name |} sum now
     = Returns h
         {| ParticipantResult.Participant := None;
            ParticipantResult.Errors :=
              ["session " +:+ sid +:+ " does not exist"] |} None)
  ∧ (∀ (uuid_Parse : string → option string) (h : M.t)
       (sid name id now : string),
       uuid_Parse sid = None →
       checkNotBlank name = None →
       GoMap.index (M.sessions h) sid = None →
       M.AddParticipant uuid_Parse h
         {| AddParticipantParams.SessionId := sid;
            AddParticipantParams.Name := name |} id now
       = Returns h
           {| ParticipantResult.Participant := None;
              ParticipantResult.Errors :=
                ["session " +:+ sid +:+ " does not exist"] |} None).
Proof.
  split; [apply W_AddParticipant_no_session | apply M_AddParticipant_no_session].
Qed.

Lemma AddParticipant_unknown_session_witness :
  (isId "sessionId" "0123456789" = None
   ∧ isNotBlank "name" "alice" = None
   ∧ W.sessions Sample.webRtc1 !! "0123456789" = None
   ∧ W.AddParticipant Sample.webRtc1
       {| AddParticipantParams.SessionId := "0123456789";
          AddParticipantParams.Name := "alice" |} Sample.sum3 Sample.now
     = Returns Sample.webRtc1
         {| ParticipantResult.Participant := None;
            ParticipantResult.Errors := ["session 0123456789 does not exist"] |}
         None)
  ∧ (Sample.uuid_Parse Sample.uuid3 = None
     ∧ checkNotBlank "alice" = None
     ∧ GoMap.index (M.sessions Sample.mock1) Sample.uuid3 = None
     ∧ M.AddParticipant Sample.uuid_Parse Sample.mock1
         {| AddParticipantParams.SessionId := Sample.uuid3;
            AddParticipantParams.Name := "alice" |} Sample.uuid2 Sample.now
       = Returns Sample.mock1
           {| ParticipantResult.Participant := None;
              ParticipantResult.Errors :=
                ["session 123e4567-e89b-12d3-a456-426614174002 does not exist"] |}
           None).
Proof.
  assert (Hw : W.sessions Sample.webRtc1 !! "0123456789" = None)
    by (vm_compute; reflexivity).
  assert (Hm : GoMap.index (M.sessions Sample.mock1) Sample.uuid3 = None)
    by (vm_compute; reflexivity).
  split.
  - split_and!; [reflexivity | reflexivity | exact Hw |].
    apply (proj1 AddParticipant_unknown_session Sample.webRtc1 "0123456789"
             "alice" Sample.sum3 Sample.now); [reflexivity | reflexivity | exact Hw].
  - split_and!; [reflexivity | reflexivity | exact Hm |].
    apply (proj2 AddParticipant_unknown_session Sample.uuid_Parse Sample.mock1
             Sample.uuid3 "alice" Sample.uuid2 Sample.now);
      [reflexivity | reflexivity | exact Hm].
Defined.

(** ** [UpdateParticipant] changes one name *)

Lemma W_sessionOf_store (h : W.t) (sid sid' : string) (s s' : webRtcSession.t) :
  W.sessions h !! sid = Some s →
  webRtcSession.Session s' = webRtcSession.Session s →
  W_sessionOf (W.store h sid s') sid' = W_sessionOf h sid'.
Proof.
  intros Hs Heq. unfold W_sessionOf, W.store. simpl.
  destruct (decide (sid = sid')) as [<- | Hne].
  - by rewrite lookup_insert_eq, Hs; simpl; rewrite Heq.
  - by rewrite lookup_insert_ne.
Qed.

Lemma M_sessionOf_store (h : M.t) (sid sid' : string) (rs rs' : RegisteredSession.t) :
  GoMap.index (M.sessions h) sid = Some rs →
  RegisteredSession.Session rs' = RegisteredSession.Session rs →
  M_sessionOf (M.store h sid rs') sid' = M_sessionOf h sid'.
Proof.
  intros Hrs Heq. unfold M_sessionOf, M.store. simpl.
  rewrite GoMap_index_orMake in *.
  destruct (decide (sid = sid')) as [<- | Hne].
  - by rewrite lookup_insert_eq, Hrs; simpl; rewrite Heq.
  - by rewrite lookup_insert_ne.
Qed.

Lemma W_UpdateParticipant_existing (h : W.t) (sid pid name : string)
    (p : Participant.t) :
  W.reachable h →
  W_participantOf h sid pid = Some p →
  isNotBlank "name" name = None →
  ∃ h',
    W.UpdateParticipant h
      {| UpdateParticipantParams.SessionId := sid;
         UpdateParticipantParams.ParticipantId := pid;
         UpdateParticipantParams.Name := name |}
    = Returns h' {| ParticipantResult.Participant := Some (Participant.set_Name p name);
                    ParticipantResult.Errors := [] |} None
    ∧ W_participantOf h' sid pid = Some (Participant.set_Name p name)
    ∧ (∀ sid' pid', (sid', pid') ≠ (sid, pid) →
         W_participantOf h' sid' pid' = W_participantOf h sid' pid')
    ∧ (∀ sid', W_sessionOf h' sid' = W_sessionOf h sid').
Proof.
  intros Hreach Hp Hname. unfold W_participantOf in Hp.
  destruct (W.sessions h !! sid) as [s |] eqn:Hs; [| done]. simpl in Hp.
  destruct (W_reachable_wf h Hreach sid s Hs) as (Hsid & _ & _ & Hparts).
  destruct (Hparts pid p Hp) as (Hpid & _).
  eexists. split; [| split_and!].
  - unfold W.UpdateParticipant, W.doActionOnSession,
      UpdateParticipantParams.check. simpl.
    rewrite (isId_name_irrelevant "participantId" "sessionId").
    rewrite (isId_name_irrelevant _ "sessionId") in Hpid.
    by rewrite Hsid, Hpid, Hname, Hs, Hp.
  - unfold W_participantOf, W.store. simpl.
    rewrite lookup_insert_eq. simpl. by rewrite lookup_insert_eq.
  - intros sid' pid' Hne. unfold W_participantOf, W.store. simpl.
    destruct (decide (sid = sid')) as [<- | Hsid'].
    + rewrite lookup_insert_eq, Hs. simpl.
      rewrite lookup_insert_ne; [done | congruence].
    + by rewrite lookup_insert_ne.
  - intros sid'. by apply (W_sessionOf_store h sid sid' s).
Qed.

Lemma M_UpdateParticipant_existing (h : M.t) (sid pid name : string)
    (p : Participant.t) :
  M_participantOf h sid pid = Some p →
  isNotBlank "name" name = None →
  ∃ h',
    M.UpdateParticipant h
      {| UpdateParticipantParams.SessionId := sid;
         UpdateParticipantParams.ParticipantId := pid;
         UpdateParticipantParams.Name := name |}
    = Returns h' {| ParticipantResult.Participant := Some (Participant.set_Name p name);
                    ParticipantResult.Errors := [] |} None
    ∧ M_participantOf h' sid pid = Some (Participant.set_Name p name)
    ∧ (∀ sid' pid', (sid', pid') ≠ (sid, pid) →
         M_participantOf h' sid' pid' = M_participantOf h sid' pid')
    ∧ (∀ sid', M_sessionOf h' sid' = M_sessionOf h sid').
Proof.
  intros Hp Hname. rewrite isNotBlank_name in Hname.
  unfold M_participantOf in Hp.
  destruct (GoMap.index (M.sessions h) sid) as [rs |] eqn:Hrs; [| done].
  simpl in Hp.
  eexists. split; [| split_and!].
  - unfold M.UpdateParticipant. simpl. by rewrite Hname, Hrs, Hp.
  - unfold M_participantOf, M.store. simpl.
    rewrite lookup_insert_eq. simpl. by rewrite lookup_insert_eq.
  - intros sid' pid' Hne. unfold M_participantOf, M.store. simpl.
    destruct (decide (sid = sid')) as [<- | Hsid'].
    + rewrite lookup_insert_eq, Hrs. simpl.
      rewrite lookup_insert_ne by congruence.
      by rewrite GoMap_index_orMake.
    + rewrite lookup_insert_ne by done. by rewrite GoMap_index_orMake.
  - intros sid'. by apply (M_sessionOf_store h sid sid' rs).
Qed.

Lemma set_Name_fields (p : Participant.t) (name : string) :
  Participant.Name (Participant.set_Name p name) = name
  ∧ Participant.Id (Participant.set_Name p name) = Participant.Id p
  ∧ Participant.SessionId (Participant.set_Name p name) = Participant.SessionId p
  ∧ Participant.CreationDateTime (Participant.set_Name p name)
    = Participant.CreationDateTime p.
Proof. done. Qed.

(** C6: for a participant [p] registered under [pid] in the session
    [sid], and a name that is not blank, [UpdateParticipant] returns, with
    no errors, a participant [p'] that has the new name and the [Id],
    [SessionId] and [CreationDateTime] of [p]; afterwards the handler holds
    [p'] under [pid] in [sid], every other participant as before, and the
    record of every session as before. This holds in every reachable state
    of the [WebRtcSessionHandler] and in every state of the
    [MockSessionHandler]. *)
Theorem UpdateParticipant_changes_only_the_name :
  (∀ (h : W.t) (sid pid name : string) (p : Participant.t),
     W.reachable h →
     W_participantOf h sid pid = Some p →
     isNotBlank "name" name = None →
     ∃ h' p',
       W.UpdateParticipant h
         {| UpdateParticipantParams.SessionId := sid;
            UpdateParticipantParams.ParticipantId := pid;
            UpdateParticipantParams.Name := name |}
       = Returns h' {| ParticipantResult.Participant := Some p';
                       ParticipantResult.Errors := [] |} None
       ∧ Participant.Name p' = name
       ∧ Participant.Id p' = Participant.Id p
       ∧ Participant.SessionId p' = Participant.SessionId p
       ∧ Participant.CreationDateTime p' = Participant.CreationDateTime p
       ∧ W_participantOf h' sid pid = Some p'
       ∧ (∀ sid' pid', (sid', pid') ≠ (sid, pid) →
            W_participantOf h' sid' pid' = W_participantOf h sid' pid')
       ∧ (∀ sid', W_sessionOf h' sid' = W_sessionOf h sid'))
  ∧ (∀ (h : M.t) (sid pid name : string) (p : Participant.t),
       M_participantOf h sid pid = Some p →
       isNotBlank "name" name = None →
       ∃ h' p',
         M.UpdateParticipant h
           {| UpdateParticipantParams.SessionId := sid;
              UpdateParticipantParams.ParticipantId := pid;
              UpdateParticipantParams.Name := name |}
         = Returns h' {| ParticipantResult.Participant := Some p';
                         ParticipantResult.Errors := [] |} None
         ∧ Participant.Name p' = name
         ∧ Participant.Id p' = Participant.Id p
         ∧ Participant.SessionId p' = Participant.SessionId p
         ∧ Participant.CreationDateTime p' = Participant.CreationDateTime p
         ∧ M_participantOf h' sid pid = Some p'
         ∧ (∀ sid' pid', (sid', pid') ≠ (sid, pid) →
              M_participantOf h' sid' pid' = M_participantOf h sid' pid')
         ∧ (∀ sid', M_sessionOf h' sid' = M_sessionOf h sid')).
Proof.
  split.
  - intros h sid pid name p Hreach Hp Hname.
    destruct (W_UpdateParticipant_existing h sid pid name p Hreach Hp Hname)
      as (h' & Hcall & Hnew & Hothers & Hsessions).
    exists h', (Participant.set_Name p name).
    pose proof (set_Name_fields p name) as (? & ? & ? & ?). by split_and!.
  - intros h sid pid name p Hp Hname.
    destruct (M_UpdateParticipant_existing h sid pid name p Hp Hname)
      as (h' & Hcall & Hnew & Hothers & Hsessions).
    exists h', (Participant.set_Name p name).
    pose proof (set_Name_fields p name) as (? & ? & ? & ?). by split_and!.
Qed.

Lemma UpdateParticipant_changes_only_the_name_witness :
  let sid := generateSessionId Sample.sum1 in
  let pid := generateSessionId Sample.sum2 in
  let alice :=
    {| Participant.Name := "alice"; Participant.Id := pid;
       Participant.SessionId := sid; Participant.CreationDateTime := Sample.now |} in
  let malice :=
    {| Participant.Name := "alice"; Participant.Id := Sample.uuid2;
       Participant.SessionId := Sample.uuid1;
       Participant.CreationDateTime := Sample.now |} in
  ((W.reachable Sample.webRtc1
    ∧ W_participantOf Sample.webRtc1 sid pid = Some alice
    ∧ isNotBlank "name" "alice2" = None)
   ∧ ∃ h' p',
       W.UpdateParticipant Sample.webRtc1
         {| UpdateParticipantParams.SessionId := sid;
            UpdateParticipantParams.ParticipantId := pid;
            UpdateParticipantParams.Name := "alice2" |}
       = Returns h' {| ParticipantResult.Participant := Some p';
                       ParticipantResult.Errors := [] |} None
       ∧ Participant.Name p' = "alice2"
       ∧ Participant.Id p' = Participant.Id alice
       ∧ Participant.SessionId p' = Participant.SessionId alice
       ∧ Participant.CreationDateTime p' = Participant.CreationDateTime alice
       ∧ W_participantOf h' sid pid = Some p'
       ∧ (∀ sid' pid', (sid', pid') ≠ (sid, pid) →
            W_participantOf h' sid' pid' = W_participantOf Sample.webRtc1 sid' pid')
       ∧ (∀ sid', W_sessionOf h' sid' = W_sessionOf Sample.webRtc1 sid'))
  ∧ ((M_participantOf Sample.mock1 Sample.uuid1 Sample.uuid2 = Some malice
      ∧ isNotBlank "name" "alice2" = None)
     ∧ ∃ h' p',
         M.UpdateParticipant Sample.mock1
           {| UpdateParticipantParams.SessionId := Sample.uuid1;
              UpdateParticipantParams.ParticipantId := Sample.uuid2;
              UpdateParticipantParams.Name := "alice2" |}
         = Returns h' {| ParticipantResult.Participant := Some p';
                         ParticipantResult.Errors := [] |} None
         ∧ Participant.Name p' = "alice2"
         ∧ Participant.Id p' = Participant.Id malice
         ∧ Participant.SessionId p' = Participant.SessionId malice
         ∧ Participant.CreationDateTime p' = Participant.CreationDateTime malice
         ∧ M_participantOf h' Sample.uuid1 Sample.uuid2 = Some p'
         ∧ (∀ sid' pid', (sid', pid') ≠ (Sample.uuid1, Sample.uuid2) →
              M_participantOf h' sid' pid' = M_participantOf Sample.mock1 sid' pid')
         ∧ (∀ sid', M_sessionOf h' sid' = M_sessionOf Sample.mock1 sid')).
Proof.
  intros sid pid alice malice.
  assert (Hp : W_participantOf Sample.webRtc1 sid pid = Some alice)
    by (vm_compute; reflexivity).
  assert (Hq : M_participantOf Sample.mock1 Sample.uuid1 Sample.uuid2 = Some malice)
    by (vm_compute; reflexivity).
  split.
  - split; [split_and!; [apply webRtc1_reachable | exact Hp | reflexivity] |].
    apply (proj1 UpdateParticipant_changes_only_the_name
             Sample.webRtc1 sid pid "alice2" alice);
      [apply webRtc1_reachable | exact Hp | reflexivity].
  - split; [split; [exact Hq | reflexivity] |].
    apply (proj2 UpdateParticipant_changes_only_the_name
             Sample.mock1 Sample.uuid1 Sample.uuid2 "alice2" malice);
      [exact Hq | reflexivity].
Defined.

(** ** [CreateSession] and the generated identifier *)

Lemma W_key_is_Id (h : W.t) (sid : string) (s : webRtcSession.t) :
  W.reachable h → W.sessions h !! sid = Some s →
  Session.Id (webRtcSession.Session s) = sid.
Proof.
  intros Hreach Hs. by destruct (W_reachable_wf h Hreach sid s Hs) as (_ & ? & _).
Qed.

Lemma M_key_is_Id (uuid_Parse : string → option string) (h : M.t)
    (sid : string) (rs : RegisteredSession.t) :
  M.reachable uuid_Parse h → GoMap.index (M.sessions h) sid = Some rs →
  Session.Id (RegisteredSession.Session rs) = sid.
Proof.
  intros Hreach Hrs.
  by destruct (M_wf_lookup uuid_Parse h sid rs
                 (M_reachable_wf uuid_Parse h Hreach) Hrs) as (_ & ? & _).
Qed.

Lemma W_CreateSession_valid (h : W.t) (name : string) (sum : list ascii)
    (now : string) :
  isNotBlank "name" name = None →
  W.CreateSession h {| CreateSessionParams.Name := name |} sum now
  = Returns
      {| W.sessions :=
           <[generateSessionId sum :=
               W.newSession {| CreateSessionParams.Name := name |} sum now]>
             (W.sessions h) |}
      {| SessionResult.Session :=
           Some {| Session.Name := name; Session.Id := generateSessionId sum;
                   Session.CreationDateTime := now |};
         SessionResult.Errors := [] |} None.
Proof.
  intros Hname. unfold W.CreateSession, CreateSessionParams.check. simpl.
  by rewrite Hname.
Qed.

Lemma M_CreateSession_valid (h : M.t) (name id now : string) :
  checkNotBlank name = None →
  M.CreateSession h {| CreateSessionParams.Name := name |} id now
  = Returns
      {| M.sessions :=
           Some (<[id := {| RegisteredSession.Session :=
                              {| Session.Name := name; Session.Id := id;
                                 Session.CreationDateTime := now |};
                            RegisteredSession.participants := None |}]>
                   (GoMap.orMake (M.sessions h))) |}
      {| SessionResult.Session :=
           Some {| Session.Name := name; Session.Id := id;
                   Session.CreationDateTime := now |};
         SessionResult.Errors := [] |} None.
Proof. intros Hname. unfold M.CreateSession. simpl. by rewrite Hname. Qed.

(** C8 as stated fails: [CreateSession] does not compare the identifier
    it draws with those in use. When [generateSessionId] formats the same
    digest twice, the second session gets the identifier of the first,
    which is registered at that time, and takes its place in the map. *)
Lemma CreateSession_id_collision :
  let h1 :=
    state_of (W.CreateSession W.NewWebRtcSessionHandler
                {| CreateSessionParams.Name := "standup" |} Sample.sum1 Sample.now) in
  let call :=
    W.CreateSession h1 {| CreateSessionParams.Name := "retro" |}
      Sample.sum1 Sample.now in
  W.reachable h1
  ∧ isNotBlank "name" "retro" = None
  ∧ ∃ registered created,
      W.sessions h1 !! generateSessionId Sample.sum1 = Some registered
      ∧ result_of call
        = Some {| SessionResult.Session := Some created;
                  SessionResult.Errors := [] |}
      ∧ Session.Id created = Session.Id (webRtcSession.Session registered)
      ∧ W_sessionOf (state_of call) (generateSessionId Sample.sum1) = Some created
      ∧ Session.Name (webRtcSession.Session registered) = "standup"
      ∧ Session.Name created = "retro".
Proof.
  intros h1 call. split_and!.
  - apply W.reach_CreateSession; [apply W.reach_New | reflexivity].
  - reflexivity.
  - do 2 eexists. split_and!; vm_compute; reflexivity.
Qed.

(** C8, amended: for a name that is not blank, [CreateSession] returns,
    with no errors, a session that carries the drawn identifier; when that
    identifier is not registered at the time of the call, it differs from
    the [Id] of every registered session; and in every case a [GetSession]
    with that identifier, made next, returns that same session with no
    errors. The handler is in a reachable state, and the drawn identifier
    is one [generateSessionId] can return: the text of a digest for the
    [WebRtcSessionHandler], of a UUID for the [MockSessionHandler]. *)
Theorem CreateSession_then_GetSession :
  (∀ (h : W.t) (name : string) (sum : list ascii) (now : string),
     W.reachable h →
     length sum = 32 →
     isNotBlank "name" name = None →
     ∃ h' created,
       W.CreateSession h {| CreateSessionParams.Name := name |} sum now
       = Returns h' {| SessionResult.Session := Some created;
                       SessionResult.Errors := [] |} None
       ∧ Session.Id created = generateSessionId sum
       ∧ Session.Name created = name
       ∧ (W.sessions h !! Session.Id created = None →
          ∀ sid s, W.sessions h !! sid = Some s →
            Session.Id (webRtcSession.Session s) ≠ Session.Id created)
       ∧ W.GetSession h' {| GetSessionParams.Id := Session.Id created |}
         = Returns h' {| SessionResult.Session := Some created;
                         SessionResult.Errors := [] |} None)
  ∧ (∀ (uuid_Parse : string → option string) (h : M.t) (name id now : string),
       M.reachable uuid_Parse h →
       uuid_Parse id = None →
       isNotBlank "name" name = None →
       ∃ h' created,
         M.CreateSession h {| CreateSessionParams.Name := name |} id now
         = Returns h' {| SessionResult.Session := Some created;
                         SessionResult.Errors := [] |} None
         ∧ Session.Id created = id
         ∧ Session.Name created = name
         ∧ (GoMap.index (M.sessions h) (Session.Id created) = None →
            ∀ sid rs, GoMap.index (M.sessions h) sid = Some rs →
              Session.Id (RegisteredSession.Session rs) ≠ Session.Id created)
         ∧ M.GetSession uuid_Parse h' {| GetSessionParams.Id := Session.Id created |}
           = Returns h' {| SessionResult.Session := Some created;
                           SessionResult.Errors := [] |} None).
Proof.
  split.
  - intros h name sum now Hreach Hsum Hname.
    do 2 eexists. split; [by apply W_CreateSession_valid |]. simpl.
    split_and!; try done.
    + intros Hfresh sid s Hs Heq.
      rewrite (W_key_is_Id h sid s Hreach Hs) in Heq. congruence.
    + unfold W.GetSession, W.doActionOnSession, GetSessionParams.check. simpl.
      rewrite (isId_name_irrelevant "id" "sessionId").
      rewrite generateSessionId_isId by done. simpl.
      by rewrite lookup_insert_eq.
  - intros uuid_Parse h name id now Hreach Hid Hname.
    rewrite isNotBlank_name in Hname.
    do 2 eexists. split; [by apply M_CreateSession_valid |]. simpl.
    split_and!; try done.
    + intros Hfresh sid rs Hrs Heq.
      rewrite (M_key_is_Id uuid_Parse h sid rs Hreach Hrs) in Heq. congruence.
    + unfold M.GetSession, M.checkSessionId. simpl.
      by rewrite Hid, lookup_insert_eq.
Qed.

Lemma CreateSession_then_GetSession_witness :
  ((W.reachable Sample.webRtc1
    ∧ length Sample.sum3 = 32
    ∧ isNotBlank "name" "retro" = None)
   ∧ ∃ h' created,
       W.CreateSession Sample.webRtc1 {| CreateSessionParams.Name := "retro" |}
         Sample.sum3 Sample.now
       = Returns h' {| SessionResult.Session := Some created;
                       SessionResult.Errors := [] |} None
       ∧ Session.Id created = generateSessionId Sample.sum3
       ∧ Session.Name created = "retro"
       ∧ (W.sessions Sample.webRtc1 !! Session.Id created = None →
          ∀ sid s, W.sessions Sample.webRtc1 !! sid = Some s →
            Session.Id (webRtcSession.Session s) ≠ Session.Id created)
       ∧ W.GetSession h' {| GetSessionParams.Id := Session.Id created |}
         = Returns h' {| SessionResult.Session := Some created;
                         SessionResult.Errors := [] |} None)
  ∧ ((M.reachable Sample.uuid_Parse Sample.mock1
      ∧ Sample.uuid_Parse Sample.uuid3 = None
      ∧ isNotBlank "name" "retro" = None)
     ∧ ∃ h' created,
         M.CreateSession Sample.mock1 {| CreateSessionParams.Name := "retro" |}
           Sample.uuid3 Sample.now
         = Returns h' {| SessionResult.Session := Some created;
                         SessionResult.Errors := [] |} None
         ∧ Session.Id created = Sample.uuid3
         ∧ Session.Name created = "retro"
         ∧ (GoMap.index (M.sessions Sample.mock1) (Session.Id created) = None →
            ∀ sid rs, GoMap.index (M.sessions Sample.mock1) sid = Some rs →
              Session.Id (RegisteredSession.Session rs) ≠ Session.Id created)
         ∧ M.GetSession Sample.uuid_Parse h'
             {| GetSessionParams.Id := Session.Id created |}
           = Returns h' {| SessionResult.Session := Some created;
                           SessionResult.Errors := [] |} None).
Proof.
  split.
  - split; [split_and!; [apply webRtc1_reachable | reflexivity | reflexivity] |].
    apply (proj1 CreateSession_then_GetSession Sample.webRtc1 "retro"
             Sample.sum3 Sample.now);
      [apply webRtc1_reachable | reflexivity | reflexivity].
  - split; [split_and!; [apply mock1_reachable | reflexivity | reflexivity] |].
    apply (proj2 CreateSession_then_GetSession Sample.uuid_Parse Sample.mock1
             "retro" Sample.uuid3 Sample.now);
      [apply mock1_reachable | reflexivity | reflexivity].
Defined.

(** ** Names are not keys *)

Lemma W_CreateSession_same_name (h : W.t) (sid0 : string) (s0 : webRtcSession.t)
    (sum : list ascii) (now : string) :
  W.reachable h →
  W.sessions h !! sid0 = Some s0 →
  ∃ h' created,
    W.CreateSession h
      {| CreateSessionParams.Name := Session.Name (webRtcSession.Session s0) |}
      sum now
    = Returns h' {| SessionResult.Session := Some created;
                    SessionResult.Errors := [] |} None
    ∧ Session.Name created = Session.Name (webRtcSession.Session s0)
    ∧ Session.Id created = generateSessionId sum
    ∧ W_sessionOf h' (Session.Id created) = Some created
    ∧ (Session.Id created ≠ sid0 → W.sessions h' !! sid0 = Some s0).
Proof.
  intros Hreach Hs0.
  destruct (W_reachable_wf h Hreach sid0 s0 Hs0) as (_ & _ & Hname & _).
  do 2 eexists. split; [by apply W_CreateSession_valid |]. simpl.
  split_and!; try done.
  - unfold W_sessionOf. simpl. by rewrite lookup_insert_eq.
  - intros Hne. by rewrite lookup_insert_ne.
Qed.

Lemma M_CreateSession_same_name (uuid_Parse : string → option string) (h : M.t)
    (sid0 : string) (rs0 : RegisteredSession.t) (id now : string) :
  M.reachable uuid_Parse h →
  GoMap.index (M.sessions h) sid0 = Some rs0 →
  ∃ h' created,
    M.CreateSession h
      {| CreateSessionParams.Name := Session.Name (RegisteredSession.Session rs0) |}
      id now
    = Returns h' {| SessionResult.Session := Some created;
                    SessionResult.Errors := [] |} None
    ∧ Session.Name created = Session.Name (RegisteredSession.Session rs0)
    ∧ Session.Id created = id
    ∧ M_sessionOf h' (Session.Id created) = Some created
    ∧ (Session.Id created ≠ sid0 →
       GoMap.index (M.sessions h') sid0 = Some rs0).
Proof.
  intros Hreach Hrs0.
  destruct (M_wf_lookup uuid_Parse h sid0 rs0
              (M_reachable_wf uuid_Parse h Hreach) Hrs0) as (_ & _ & Hname & _).
  do 2 eexists. split; [by apply M_CreateSession_valid |]. simpl.
  split_and!; try done.
  - unfold M_sessionOf. simpl. by rewrite lookup_insert_eq.
  - intros Hne. rewrite lookup_insert_ne by done.
    by rewrite <- GoMap_index_orMake.
Qed.

Lemma W_AddParticipant_same_name (h : W.t) (sid pid0 : string)
    (p0 : Participant.t) (sum : list ascii) (now : string) :
  W.reachable h →
  W_participantOf h sid pid0 = Some p0 →
  ∃ h' added,
    W.AddParticipant h
      {| AddParticipantParams.SessionId := sid;
         AddParticipantParams.Name := Participant.Name p0 |} sum now
    = Returns h' {| ParticipantResult.Participant := Some added;
                    ParticipantResult.Errors := [] |} None
    ∧ Participant.Name added = Participant.Name p0
    ∧ Participant.Id added = generateParticipantId sum
    ∧ W_participantOf h' sid (Participant.Id added) = Some added
    ∧ (Participant.Id added ≠ pid0 → W_participantOf h' sid pid0 = Some p0).
Proof.
  intros Hreach Hp0. unfold W_participantOf in Hp0.
  destruct (W.sessions h !! sid) as [s |] eqn:Hs; [| done]. simpl in Hp0.
  destruct (W_reachable_wf h Hreach sid s Hs) as (Hsid & _ & _ & Hparts).
  destruct (Hparts pid0 p0 Hp0) as (_ & _ & _ & Hname).
  do 2 eexists. split.
  - unfold W.AddParticipant, W.doActionOnSession, AddParticipantParams.check.
    simpl. by rewrite Hsid, Hname, Hs.
  - unfold W_participantOf, W.store. simpl. split_and!; try done.
    + rewrite lookup_insert_eq. simpl. by rewrite lookup_insert_eq.
    + intros Hne. rewrite lookup_insert_eq. simpl. by rewrite lookup_insert_ne.
Qed.

Lemma M_AddParticipant_same_name (uuid_Parse : string → option string) (h : M.t)
    (sid pid0 : string) (p0 : Participant.t) (id now : string) :
  M.reachable uuid_Parse h →
  M_participantOf h sid pid0 = Some p0 →
  ∃ h' added,
    M.AddParticipant uuid_Parse h
      {| AddParticipantParams.SessionId := sid;
         AddParticipantParams.Name := Participant.Name p0 |} id now
    = Returns h' {| ParticipantResult.Participant := Some added;
                    ParticipantResult.Errors := [] |} None
    ∧ Participant.Name added = Participant.Name p0
    ∧ Participant.Id added = id
    ∧ M_participantOf h' sid (Participant.Id added) = Some added
    ∧ (Participant.Id added ≠ pid0 → M_participantOf h' sid pid0 = Some p0).
Proof.
  intros Hreach Hp0. unfold M_participantOf in Hp0.
  destruct (GoMap.index (M.sessions h) sid) as [rs |] eqn:Hrs; [| done].
  simpl in Hp0.
  destruct (M_wf_lookup uuid_Parse h sid rs
              (M_reachable_wf uuid_Parse h Hreach) Hrs) as (Hsid & _ & _ & Hparts).
  rewrite GoMap_index_orMake in Hp0.
  destruct (Hparts pid0 p0 Hp0) as (_ & _ & Hname).
  do 2 eexists. split.
  - unfold M.AddParticipant, M.checkSessionId. simpl.
    by rewrite Hsid, Hname, Hrs.
  - unfold M_participantOf, M.store. simpl. split_and!; try done.
    + rewrite lookup_insert_eq. simpl. by rewrite lookup_insert_eq.
    + intros Hne. rewrite lookup_insert_eq. simpl. by rewrite lookup_insert_ne.
Qed.

(** C10 as stated fails: the second record is stored under the identifier
    that is drawn for it, whether that identifier is in use or not. When
    [generateSessionId] formats again the digest that gave the session
    standup its identifier, [CreateSession] with the name standup leaves
    one session in the map, the new one; and when it formats again the
    digest that gave the participant alice her identifier,
    [AddParticipant] with the name alice leaves one participant in the
    session, the new one. *)
Lemma same_name_same_id_replaces :
  let sid := generateSessionId Sample.sum1 in
  let pid := generateParticipantId Sample.sum2 in
  let standup := {| CreateSessionParams.Name := "standup" |} in
  let alice := {| AddParticipantParams.SessionId := sid;
                  AddParticipantParams.Name := "alice" |} in
  let created := W.CreateSession Sample.webRtc1 standup Sample.sum1 Sample.later in
  let added := W.AddParticipant Sample.webRtc1 alice Sample.sum2 Sample.later in
  W.reachable Sample.webRtc1
  ∧ Session.Name <$> W_sessionOf Sample.webRtc1 sid = Some "standup"
  ∧ Participant.Name <$> W_participantOf Sample.webRtc1 sid pid = Some "alice"
  ∧ result_of created
    = Some {| SessionResult.Session :=
                Some {| Session.Name := "standup"; Session.Id := sid;
                        Session.CreationDateTime := Sample.later |};
              SessionResult.Errors := [] |}
  ∧ W.sessions (state_of created)
    = {[ sid := W.newSession standup Sample.sum1 Sample.later ]}
  ∧ result_of added
    = Some {| ParticipantResult.Participant :=
                Some (W.newParticipant alice Sample.sum2 Sample.later);
              ParticipantResult.Errors := [] |}
  ∧ webRtcSession.participants <$> W.sessions (state_of added) !! sid
    = Some {[ pid := W.newParticipant alice Sample.sum2 Sample.later ]}.
Proof.
  intros sid pid standup alice created added.
  split; [apply webRtc1_reachable |].
  split_and!; vm_compute; reflexivity.
Qed.

(** C10, amended: a name is never looked up. In a reachable state of
    either handler, [CreateSession] called with the name of a registered session
    returns, with no errors, a session of that name registered under the
    drawn identifier, and the session that had the name before stays
    registered next to it whenever the two identifiers differ; likewise
    [AddParticipant], called with the name of a participant of the
    session, returns with no errors a participant of that name, registered
    in the session under the drawn identifier, next to the one that had
    the name before whenever the two identifiers differ. *)
Theorem names_are_not_keys :
  (∀ (h : W.t) (sid0 : string) (s0 : webRtcSession.t) (sum : list ascii)
     (now : string),
     W.reachable h →
     W.sessions h !! sid0 = Some s0 →
     ∃ h' created,
       W.CreateSession h
         {| CreateSessionParams.Name := Session.Name (webRtcSession.Session s0) |}
         sum now
       = Returns h' {| SessionResult.Session := Some created;
                       SessionResult.Errors := [] |} None
       ∧ Session.Name created = Session.Name (webRtcSession.Session s0)
       ∧ Session.Id created = generateSessionId sum
       ∧ W_sessionOf h' (Session.Id created) = Some created
       ∧ (Session.Id created ≠ sid0 → W.sessions h' !! sid0 = Some s0))
  ∧ (∀ (h : W.t) (sid pid0 : string) (p0 : Participant.t) (sum : list ascii)
       (now : string),
       W.reachable h →
       W_participantOf h sid pid0 = Some p0 →
       ∃ h' added,
         W.AddParticipant h
           {| AddParticipantParams.SessionId := sid;
              AddParticipantParams.Name := Participant.Name p0 |} sum now
         = Returns h' {| ParticipantResult.Participant := Some added;
                         ParticipantResult.Errors := [] |} None
         ∧ Participant.Name added = Participant.Name p0
         ∧ Participant.Id added = generateParticipantId sum
         ∧ W_participantOf h' sid (Participant.Id added) = Some added
         ∧ (Participant.Id added ≠ pid0 → W_participantOf h' sid pid0 = Some p0))
  ∧ (∀ (uuid_Parse : string → option string) (h : M.t) (sid0 : string)
       (rs0 : RegisteredSession.t) (id now : string),
       M.reachable uuid_Parse h →
       GoMap.index (M.sessions h) sid0 = Some rs0 →
       ∃ h' created,
         M.CreateSession h
           {| CreateSessionParams.Name :=
                Session.Name (RegisteredSession.Session rs0) |} id now
         = Returns h' {| SessionResult.Session := Some created;
                         SessionResult.Errors := [] |} None
         ∧ Session.Name created = Session.Name (RegisteredSession.Session rs0)
         ∧ Session.Id created = id
         ∧ M_sessionOf h' (Session.Id created) = Some created
         ∧ (Session.Id created ≠ sid0 →
            GoMap.index (M.sessions h') sid0 = Some rs0))
  ∧ (∀ (uuid_Parse : string → option string) (h : M.t) (sid pid0 : string)
       (p0 : Participant.t) (id now : string),
       M.reachable uuid_Parse h →
       M_participantOf h sid pid0 = Some p0 →
       ∃ h' added,
         M.AddParticipant uuid_Parse h
           {| AddParticipantParams.SessionId := sid;
              AddParticipantParams.Name := Participant.Name p0 |} id now
         = Returns h' {| ParticipantResult.Participant := Some added;
                         ParticipantResult.Errors := [] |} None
         ∧ Participant.Name added = Participant.Name p0
         ∧ Participant.Id added = id
         ∧ M_participantOf h' sid (Participant.Id added) = Some added
         ∧ (Participant.Id added ≠ pid0 → M_participantOf h' sid pid0 = Some p0)).
Proof.
  split_and!.
  - apply W_CreateSession_same_name.
  - apply W_AddParticipant_same_name.
  - apply M_CreateSession_same_name.
  - apply M_AddParticipant_same_name.
Qed.

Lemma names_are_not_keys_witness :
  let sid := generateSessionId Sample.sum1 in
  let pid := generateSessionId Sample.sum2 in
  let alice :=
    {| Participant.Name := "alice"; Participant.Id := pid;
       Participant.SessionId := sid; Participant.CreationDateTime := Sample.now |} in
  let standup :=
    {| webRtcSession.Session :=
         {| Session.Name := "standup"; Session.Id := sid;
            Session.CreationDateTime := Sample.now |};
       webRtcSession.participants := {[ pid := alice ]} |} in
  let malice :=
    {| Participant.Name := "alice"; Participant.Id := Sample.uuid2;
       Participant.SessionId := Sample.uuid1;
       Participant.CreationDateTime := Sample.now |} in
  let mstandup :=
    {| RegisteredSession.Session :=
         {| Session.Name := "standup"; Session.Id := Sample.uuid1;
            Session.CreationDateTime := Sample.now |};
       RegisteredSession.participants := Some {[ Sample.uuid2 := malice ]} |} in
  ((W.reachable Sample.webRtc1
    ∧ W.sessions Sample.webRtc1 !! sid = Some standup
    ∧ W_participantOf Sample.webRtc1 sid pid = Some alice)
   ∧ (∃ h' created,
        W.CreateSession Sample.webRtc1 {| CreateSessionParams.Name := "standup" |}
          Sample.sum3 Sample.now
        = Returns h' {| SessionResult.Session := Some created;
                        SessionResult.Errors := [] |} None
        ∧ Session.Name created = "standup"
        ∧ Session.Id created = generateSessionId Sample.sum3
        ∧ W_sessionOf h' (Session.Id created) = Some created
        ∧ (Session.Id created ≠ sid → W.sessions h' !! sid = Some standup))
   ∧ (∃ h' added,
        W.AddParticipant Sample.webRtc1
          {| AddParticipantParams.SessionId := sid;
             AddParticipantParams.Name := "alice" |} Sample.sum3 Sample.now
        = Returns h' {| ParticipantResult.Participant := Some added;
                        ParticipantResult.Errors := [] |} None
        ∧ Participant.Name added = "alice"
        ∧ Participant.Id added = generateParticipantId Sample.sum3
        ∧ W_participantOf h' sid (Participant.Id added) = Some added
        ∧ (Participant.Id added ≠ pid → W_participantOf h' sid pid = Some alice)))
  ∧ ((M.reachable Sample.uuid_Parse Sample.mock1
      ∧ GoMap.index (M.sessions Sample.mock1) Sample.uuid1 = Some mstandup
      ∧ M_participantOf Sample.mock1 Sample.uuid1 Sample.uuid2 = Some malice)
     ∧ (∃ h' created,
          M.CreateSession Sample.mock1 {| CreateSessionParams.Name := "standup" |}
            Sample.uuid3 Sample.now
          = Returns h' {| SessionResult.Session := Some created;
                          SessionResult.Errors := [] |} None
          ∧ Session.Name created = "standup"
          ∧ Session.Id created = Sample.uuid3
          ∧ M_sessionOf h' (Session.Id created) = Some created
          ∧ (Session.Id created ≠ Sample.uuid1 →
             GoMap.index (M.sessions h') Sample.uuid1 = Some mstandup))
     ∧ (∃ h' added,
          M.AddParticipant Sample.uuid_Parse Sample.mock1
            {| AddParticipantParams.SessionId := Sample.uuid1;
               AddParticipantParams.Name := "alice" |} Sample.uuid3 Sample.now
          = Returns h' {| ParticipantResult.Participant := Some added;
                          ParticipantResult.Errors := [] |} None
          ∧ Participant.Name added = "alice"
          ∧ Participant.Id added = Sample.uuid3
          ∧ M_participantOf h' Sample.uuid1 (Participant.Id added) = Some added
          ∧ (Participant.Id added ≠ Sample.uuid2 →
             M_participantOf h' Sample.uuid1 Sample.uuid2 = Some malice))).
Proof.
  intros sid pid alice standup malice mstandup.
  assert (Hs : W.sessions Sample.webRtc1 !! sid = Some standup)
    by (vm_compute; reflexivity).
  assert (Hp : W_participantOf Sample.webRtc1 sid pid = Some alice)
    by (vm_compute; reflexivity).
  assert (Hrs : GoMap.index (M.sessions Sample.mock1) Sample.uuid1 = Some mstandup)
    by (vm_compute; reflexivity).
  assert (Hq : M_participantOf Sample.mock1 Sample.uuid1 Sample.uuid2 = Some malice)
    by (vm_compute; reflexivity).
  split.
  - split; [split_and!; [apply webRtc1_reachable | exact Hs | exact Hp] |].
    split.
    + apply (proj1 names_are_not_keys Sample.webRtc1 sid standup
               Sample.sum3 Sample.now); [apply webRtc1_reachable | exact Hs].
    + apply (proj1 (proj2 names_are_not_keys) Sample.webRtc1 sid pid alice
               Sample.sum3 Sample.now); [apply webRtc1_reachable | exact Hp].
  - split; [split_and!; [apply mock1_reachable | exact Hrs | exact Hq] |].
    split.
    + apply (proj1 (proj2 (proj2 names_are_not_keys)) Sample.uuid_Parse
               Sample.mock1 Sample.uuid1 mstandup Sample.uuid3 Sample.now);
        [apply mock1_reachable | exact Hrs].
    + apply (proj2 (proj2 (proj2 names_are_not_keys)) Sample.uuid_Parse
               Sample.mock1 Sample.uuid1 Sample.uuid2 malice Sample.uuid3
               Sample.now); [apply mock1_reachable | exact Hq].
Defined.

(** ** The two handlers side by side *)

Section SideBySide.
Variable uuid_Parse : string → option string.
Variable f : string → string.
Context `{!Inj (=) (=) f}.


Lemma toWebRtc_lookup (rs : RegisteredSession.t) (pid : string) :
  webRtcSession.participants (toWebRtc f rs) !! f pid
  = translateParticipant f
      <$> GoMap.index (RegisteredSession.participants rs) pid.
Proof.
  unfold toWebRtc. simpl.
  by rewrite lookup_kmap, lookup_fmap, GoMap_index_orMake.
Qed.









Lemma translate_set_Name (q : Participant.t) (name : string) :
  Participant.set_Name (translateParticipant f q) name
  = translateParticipant f (Participant.set_Name q name).
Proof. done. Qed.






End SideBySide.







(** * Further properties of the code *)

(** ** Blank strings *)

Lemma space_width_asciiSpace (c : ascii) (rest : list ascii) :
  asciiSpace c = true →
  GoLib.space_width GoLib.White_Space (c :: rest) = Some 1.
Proof.
  unfold asciiSpace. rewrite bool_decide_eq_true, !elem_of_cons, elem_of_nil.
  unfold GoLib.space_width, GoLib.White_Space.
  intros Hc. cbn [List.find GoLib.has_prefix].
  destruct Hc as [-> | [-> | [-> | [-> | [-> | [-> | []]]]]]]; reflexivity.
Qed.

Lemma trim_runes_asciiSpace (bs : list ascii) :
  forallb asciiSpace bs = true →
  GoLib.trim_runes GoLib.White_Space 0 bs = [].
Proof.
  induction bs as [| c rest IH]; [done |]. simpl forallb.
  intros [Hc Hrest]%andb_prop.
  cbn [GoLib.trim_runes]. rewrite space_width_asciiSpace by done.
  by apply IH.
Qed.

Lemma TrimSpace_asciiSpace (s : string) :
  forallb asciiSpace (GoLib.bytes_of s) = true → GoLib.TrimSpace s = "".
Proof.
  intros Hs. unfold GoLib.TrimSpace. by rewrite trim_runes_asciiSpace.
Qed.

Lemma has_prefix_spec (pat : list N) (bs : list ascii) :
  GoLib.has_prefix pat bs = true →
  ∃ pre post, bs = pre ++ post ∧ N_of_ascii <$> pre = pat.
Proof.
  revert bs. induction pat as [| p pat IH]; intros bs Hpre.
  - by exists [], bs.
  - destruct bs as [| b bs]; [done |]. simpl in Hpre.
    apply andb_prop in Hpre as [Hb Hrest]. apply N.eqb_eq in Hb.
    destruct (IH bs Hrest) as (pre & post & -> & <-).
    exists (b :: pre), post. by rewrite <- Hb.
Qed.

(** A pattern that is a prefix of [bs] has a byte, and ends before the
    first graphic character of [bs]. *)
Lemma space_width_before_graphic (table : list (list N)) (pre post : list ascii)
    (c : ascii) (w : nat) :
  forallb noGraphic table = true →
  asciiGraphic c = true →
  GoLib.space_width table (pre ++ c :: post) = Some w →
  0 < w ≤ length pre.
Proof.
  intros Htable Hc. unfold GoLib.space_width.
  destruct (List.find _ table) as [pat |] eqn:Hfind; [| done].
  intros [= <-]. apply find_some in Hfind as [Hin Hprefix].
  rewrite forallb_forall in Htable. specialize (Htable pat Hin).
  apply andb_prop in Htable as [Hlen Htable]. apply Nat.ltb_lt in Hlen.
  split; [done |].
  apply has_prefix_spec in Hprefix as (pre' & post' & Heq & <-).
  rewrite length_fmap.
  destruct (decide (length pre' ≤ length pre)) as [| Hlong]; [done |].
  exfalso.
  assert (Hc' : pre' !! length pre = Some c).
  { assert ((pre' ++ post') !! length pre = Some c) as Hlook
      by (rewrite <- Heq; apply list_lookup_middle; done).
    rewrite lookup_app_l in Hlook by lia. done. }
  rewrite forallb_forall in Htable.
  assert (Hn : In (N_of_ascii c) (N_of_ascii <$> pre')).
  { apply list_elem_of_In, list_elem_of_fmap. exists c. split; [done |].
    by eapply list_elem_of_lookup_2. }
  specialize (Htable _ Hn).
  unfold asciiGraphic, GoLib.byte_in_range in Hc.
  apply andb_prop in Hc as [Hlo Hhi].
  apply N.leb_le in Hlo, Hhi.
  apply orb_prop in Htable as [Hlt | Hgt];
    [apply N.ltb_lt in Hlt | apply N.ltb_lt in Hgt]; lia.
Qed.

(** Trimming never removes a graphic character. *)
Lemma trim_runes_keeps_graphic (table : list (list N)) (skip : nat)
    (pre post : list ascii) (c : ascii) :
  forallb noGraphic table = true →
  asciiGraphic c = true →
  skip ≤ length pre →
  ∃ pre', GoLib.trim_runes table skip (pre ++ c :: post) = pre' ++ c :: post.
Proof.
  intros Htable Hc. revert skip.
  induction pre as [| b pre IH]; intros skip Hskip.
  - simpl in Hskip. assert (skip = 0) as -> by lia. simpl.
    destruct (GoLib.space_width table (c :: post)) as [w |] eqn:Hw.
    + apply (space_width_before_graphic table [] post c w) in Hw; try done.
      simpl in Hw. lia.
    + by exists [].
  - simpl. destruct skip as [| k].
    + destruct (GoLib.space_width table (b :: pre ++ c :: post)) as [w |] eqn:Hw.
      * apply (space_width_before_graphic table (b :: pre) post c w) in Hw;
          try done.
        simpl in Hw. apply IH. lia.
      * by exists (b :: pre).
    + apply IH. simpl in Hskip. lia.
Qed.

Lemma TrimSpace_keeps_graphic (s : string) (c : ascii) :
  asciiGraphic c = true → c ∈ GoLib.bytes_of s →
  c ∈ GoLib.bytes_of (GoLib.TrimSpace s).
Proof.
  intros Hc Hin. unfold GoLib.TrimSpace, GoLib.bytes_of in *.
  rewrite String.list_ascii_of_string_of_list_ascii.
  apply list_elem_of_split in Hin as (pre & post & ->).
  destruct (trim_runes_keeps_graphic GoLib.White_Space 0 pre post c)
    as (pre1 & ->); [reflexivity | done | lia |].
  destruct (trim_runes_keeps_graphic (map (@rev N) GoLib.White_Space) 0
              (rev post) (rev pre1) c) as (pre2 & Heq);
    [reflexivity | done | lia |].
  assert (rev (pre1 ++ c :: post) = rev post ++ c :: rev pre1) as ->.
  { rewrite rev_app_distr. cbn [rev]. by rewrite <- app_assoc. }
  rewrite Heq, rev_app_distr. cbn [rev].
  rewrite !elem_of_app, list_elem_of_singleton. auto.
Qed.

(** X1: The three checks for a blank string decide alike: a string of ASCII
    white space only, the empty string among them, is blank, and a string
    with a graphic character of ASCII is not. *)
Theorem blank_checks_on_ascii (n v : string) :
  (forallb asciiSpace (GoLib.bytes_of v) = true →
     isNotBlank n v = Some (n +:+ " must not be blank")
     ∧ checkNotBlank v = Some "name must not be blank"
     ∧ checkAddr v = Some "server address must not be null or blank")
  ∧ (existsb asciiGraphic (GoLib.bytes_of v) = true →
       isNotBlank n v = None ∧ checkNotBlank v = None ∧ checkAddr v = None).
Proof.
  unfold isNotBlank, checkNotBlank, checkAddr. split.
  - intros Hv. by rewrite TrimSpace_asciiSpace.
  - intros (c & Hin & Hc)%existsb_exists. apply list_elem_of_In in Hin.
    pose proof (TrimSpace_keeps_graphic v c Hc Hin) as Hkept.
    destruct (GoLib.TrimSpace v) as [| c' s']; [| done].
    by apply elem_of_nil in Hkept.
Qed.

Lemma blank_checks_on_ascii_witness :
  (forallb asciiSpace (GoLib.bytes_of "   ") = true
   ∧ isNotBlank "name" "   " = Some "name must not be blank"
   ∧ checkNotBlank "   " = Some "name must not be blank"
   ∧ checkAddr "   " = Some "server address must not be null or blank")
  ∧ (existsb asciiGraphic (GoLib.bytes_of " bob ") = true
     ∧ isNotBlank "name" " bob " = None
     ∧ checkNotBlank " bob " = None
     ∧ checkAddr " bob " = None).
Proof.
  split.
  - split; [reflexivity |].
    apply (proj1 (blank_checks_on_ascii "name" "   ")). reflexivity.
  - split; [reflexivity |].
    apply (proj2 (blank_checks_on_ascii "name" " bob ")). reflexivity.
Defined.

(** X2: [CreateSession] with a name of ASCII white space only, or with the
    empty name, returns the one error name must not be blank and no
    session, and leaves the handler as it was: in both handlers. *)
Theorem CreateSession_blank_name (name : string) :
  forallb asciiSpace (GoLib.bytes_of name) = true →
  (∀ (h : W.t) (sum : list ascii) (now : string),
     W.CreateSession h {| CreateSessionParams.Name := name |} sum now
     = Returns h {| SessionResult.Session := None;
                    SessionResult.Errors := ["name must not be blank"] |} None)
  ∧ (∀ (h : M.t) (id now : string),
       M.CreateSession h {| CreateSessionParams.Name := name |} id now
       = Returns h {| SessionResult.Session := None;
                      SessionResult.Errors := ["name must not be blank"] |} None).
Proof.
  intros Hblank.
  destruct (proj1 (blank_checks_on_ascii "name" name) Hblank) as (Hw & Hm & _).
  split; intros.
  - unfold W.CreateSession, CreateSessionParams.check. simpl. by rewrite Hw.
  - unfold M.CreateSession. simpl. by rewrite Hm.
Qed.

Lemma CreateSession_blank_name_witness :
  forallb asciiSpace (GoLib.bytes_of "") = true
  ∧ (∀ (h : W.t) (sum : list ascii) (now : string),
       W.CreateSession h {| CreateSessionParams.Name := "" |} sum now
       = Returns h {| SessionResult.Session := None;
                      SessionResult.Errors := ["name must not be blank"] |} None)
  ∧ (∀ (h : M.t) (id now : string),
       M.CreateSession h {| CreateSessionParams.Name := "" |} id now
       = Returns h {| SessionResult.Session := None;
                      SessionResult.Errors := ["name must not be blank"] |} None).
Proof.
  split; [reflexivity |]. apply (CreateSession_blank_name ""). reflexivity.
Defined.

(** ** The identifiers [generateSessionId] returns *)

(** The two digits [fmt.Sprintf("%x", _)] gives a byte. *)
Lemma hexValue_hexDigits (c : ascii) :
  ascii_of_N (16 * hexValue (GoLib.hexDigit (N_of_ascii c / 16))
              + hexValue (GoLib.hexDigit (N_of_ascii c mod 16))) = c.
Proof. destruct c as [[] [] [] [] [] [] [] []]; reflexivity. Qed.

Lemma hexDigits_lowerHex (c : ascii) :
  lowerHex (GoLib.hexDigit (N_of_ascii c / 16)) = true
  ∧ lowerHex (GoLib.hexDigit (N_of_ascii c mod 16)) = true.
Proof. destruct c as [[] [] [] [] [] [] [] []]; split; reflexivity. Qed.

Lemma Sprintf_x_bytes (b : list ascii) :
  GoLib.bytes_of (GoLib.Sprintf_x b)
  = b ≫= λ c, [GoLib.hexDigit (N_of_ascii c / 16);
                GoLib.hexDigit (N_of_ascii c mod 16)].
Proof.
  unfold GoLib.bytes_of, GoLib.Sprintf_x.
  apply String.list_ascii_of_string_of_list_ascii.
Qed.

Lemma take_hex (n : nat) (b : list ascii) :
  take (2 * n) (GoLib.bytes_of (GoLib.Sprintf_x b))
  = GoLib.bytes_of (GoLib.Sprintf_x (take n b)).
Proof.
  rewrite !Sprintf_x_bytes. revert b.
  induction n as [| n IH]; intros [| c b]; try done.
  replace (2 * S n) with (S (S (2 * n))) by lia.
  rewrite !firstn_cons, !bind_cons. simpl. by rewrite IH.
Qed.

Lemma generateSessionId_bytes (sum : list ascii) :
  GoLib.bytes_of (generateSessionId sum)
  = GoLib.bytes_of (GoLib.Sprintf_x (take 5 sum)).
Proof.
  unfold generateSessionId, GoLib.prefix_of, IdLen.
  unfold GoLib.bytes_of at 1.
  rewrite String.list_ascii_of_string_of_list_ascii.
  apply (take_hex 5).
Qed.

Lemma bytes_of_inj (s1 s2 : string) :
  GoLib.bytes_of s1 = GoLib.bytes_of s2 → s1 = s2.
Proof.
  unfold GoLib.bytes_of. intros Heq.
  by rewrite <- (String.string_of_list_ascii_of_string s1),
    <- (String.string_of_list_ascii_of_string s2), Heq.
Qed.

Lemma Sprintf_x_inj (a b : list ascii) :
  GoLib.Sprintf_x a = GoLib.Sprintf_x b → a = b.
Proof.
  intros Heq%(f_equal GoLib.bytes_of). rewrite !Sprintf_x_bytes in Heq.
  revert b Heq. induction a as [| c a IH]; intros [| d b] Heq; try done.
  rewrite !bind_cons in Heq. simpl in Heq.
  injection Heq as Hhi Hlo Hrest.
  f_equal; [| by apply IH].
  by rewrite <- (hexValue_hexDigits c), <- (hexValue_hexDigits d), Hhi, Hlo.
Qed.

(** X3: The identifier is the lower-case hexadecimal text of the first five
    bytes of the digest: it has [IdLen] characters, all of them
    hexadecimal digits, it passes [isId], and two digests get the same
    identifier exactly when their first five bytes are the same. *)
Theorem generateSessionId_is_hex_of_five_bytes (sum sum' : list ascii) :
  length sum = 32 →
  length sum' = 32 →
  generateSessionId sum = GoLib.Sprintf_x (take 5 sum)
  ∧ String.length (generateSessionId sum) = IdLen
  ∧ forallb lowerHex (GoLib.bytes_of (generateSessionId sum)) = true
  ∧ isId "id" (generateSessionId sum) = None
  ∧ (generateSessionId sum = generateSessionId sum' ↔ take 5 sum = take 5 sum').
Proof.
  intros Hlen Hlen'.
  assert (Hhex : ∀ s, generateSessionId s = GoLib.Sprintf_x (take 5 s))
    by (intros s; apply bytes_of_inj, generateSessionId_bytes).
  split_and!.
  - apply Hhex.
  - by apply generateSessionId_length.
  - rewrite Hhex, Sprintf_x_bytes. apply forallb_forall.
    intros c Hin%list_elem_of_In%list_elem_of_bind.
    destruct Hin as (b & Hc & _).
    rewrite !elem_of_cons, elem_of_nil in Hc.
    destruct Hc as [-> | [-> | []]]; apply hexDigits_lowerHex.
  - by apply generateSessionId_isId.
  - rewrite !Hhex. split; [apply Sprintf_x_inj | by intros ->].
Qed.

Lemma generateSessionId_is_hex_of_five_bytes_witness :
  (length Sample.sum1 = 32 ∧ length Sample.sum2 = 32)
  ∧ generateSessionId Sample.sum1 = GoLib.Sprintf_x (take 5 Sample.sum1)
  ∧ String.length (generateSessionId Sample.sum1) = IdLen
  ∧ forallb lowerHex (GoLib.bytes_of (generateSessionId Sample.sum1)) = true
  ∧ isId "id" (generateSessionId Sample.sum1) = None
  ∧ (generateSessionId Sample.sum1 = generateSessionId Sample.sum2
     ↔ take 5 Sample.sum1 = take 5 Sample.sum2).
Proof.
  split; [split; reflexivity |].
  apply (generateSessionId_is_hex_of_five_bytes Sample.sum1 Sample.sum2);
    reflexivity.
Defined.

(** ** What the handlers keep *)

(** X4: In every state a handler can reach, a session is registered under its
    own [Id] and has a name that is not blank, and a participant is
    registered under its own [Id], in the session its [SessionId] names,
    with a name that is not blank. In the [WebRtcSessionHandler] the
    identifiers pass [isId]; in the [MockSessionHandler] those of the
    sessions pass [uuid.Parse]. *)
Theorem reachable_records_are_coherent :
  (∀ (h : W.t) (sid : string) (s : webRtcSession.t),
     W.reachable h →
     W.sessions h !! sid = Some s →
     isId "id" sid = None
     ∧ Session.Id (webRtcSession.Session s) = sid
     ∧ isNotBlank "name" (Session.Name (webRtcSession.Session s)) = None
     ∧ ∀ pid p, webRtcSession.participants s !! pid = Some p →
         isId "id" pid = None
         ∧ Participant.Id p = pid
         ∧ Participant.SessionId p = sid
         ∧ isNotBlank "name" (Participant.Name p) = None)
  ∧ (∀ (uuid_Parse : string → option string) (h : M.t) (sid : string)
       (rs : RegisteredSession.t),
       M.reachable uuid_Parse h →
       GoMap.index (M.sessions h) sid = Some rs →
       uuid_Parse sid = None
       ∧ Session.Id (RegisteredSession.Session rs) = sid
       ∧ checkNotBlank (Session.Name (RegisteredSession.Session rs)) = None
       ∧ ∀ pid p,
           GoMap.index (RegisteredSession.participants rs) pid = Some p →
           Participant.Id p = pid
           ∧ Participant.SessionId p = sid
           ∧ checkNotBlank (Participant.Name p) = None).
Proof.
  split.
  - intros h sid s Hreach Hs.
    destruct (W_reachable_wf h Hreach sid s Hs) as (? & ? & ? & Hparts).
    by split_and!.
  - intros uuid_Parse h sid rs Hreach Hrs.
    destruct (M_wf_lookup uuid_Parse h sid rs
                (M_reachable_wf uuid_Parse h Hreach) Hrs) as (? & ? & ? & Hparts).
    split_and!; try done.
    intros pid p Hp. rewrite GoMap_index_orMake in Hp.
    by destruct (Hparts pid p Hp) as (? & ? & ?).
Qed.

Lemma reachable_records_are_coherent_witness :
  let sid := generateSessionId Sample.sum1 in
  let pid := generateSessionId Sample.sum2 in
  let alice :=
    {| Participant.Name := "alice"; Participant.Id := pid;
       Participant.SessionId := sid; Participant.CreationDateTime := Sample.now |} in
  let s :=
    {| webRtcSession.Session :=
         {| Session.Name := "standup"; Session.Id := sid;
            Session.CreationDateTime := Sample.now |};
       webRtcSession.participants := {[ pid := alice ]} |} in
  (W.reachable Sample.webRtc1 ∧ W.sessions Sample.webRtc1 !! sid = Some s)
  ∧ isId "id" sid = None
  ∧ Session.Id (webRtcSession.Session s) = sid
  ∧ isNotBlank "name" (Session.Name (webRtcSession.Session s)) = None
  ∧ ∀ pid' p, webRtcSession.participants s !! pid' = Some p →
      isId "id" pid' = None
      ∧ Participant.Id p = pid'
      ∧ Participant.SessionId p = sid
      ∧ isNotBlank "name" (Participant.Name p) = None.
Proof.
  intros sid pid alice s.
  assert (Hs : W.sessions Sample.webRtc1 !! sid = Some s)
    by (vm_compute; reflexivity).
  split; [split; [apply webRtc1_reachable | exact Hs] |].
  apply (proj1 reachable_records_are_coherent Sample.webRtc1 sid s);
    [apply webRtc1_reachable | exact Hs].
Defined.

(** Unfolds the methods of the two handlers. *)
Ltac unfold_methods :=
  unfold W.CreateSession, W.GetSession, W.DeleteSession, W.AddParticipant,
    W.GetParticipant, W.UpdateParticipant, W.DeleteParticipant,
    W.GetParticipants, W.doActionOnSession,
    M.CreateSession, M.GetSession, M.DeleteSession, M.AddParticipant,
    M.GetParticipant, M.UpdateParticipant, M.DeleteParticipant,
    M.GetParticipants.

(** X5: [GetSession], [GetParticipant] and [GetParticipants] leave the
    handler as it was, whatever they are called with, whether they find
    something, report errors, or (in the [MockSessionHandler]) panic. *)
Theorem lookups_leave_the_state :
  (∀ (h : W.t) p, state_of (W.GetSession h p) = h)
  ∧ (∀ (h : W.t) p, state_of (W.GetParticipant h p) = h)
  ∧ (∀ (h : W.t) p, state_of (W.GetParticipants h p) = h)
  ∧ (∀ uuid_Parse (h : M.t) p, state_of (M.GetSession uuid_Parse h p) = h)
  ∧ (∀ (h : M.t) p, state_of (M.GetParticipant h p) = h)
  ∧ (∀ (h : M.t) p, state_of (M.GetParticipants h p) = h).
Proof.
  split_and!; intros.
  - apply W_state_GetSession.
  - apply W_state_GetParticipant.
  - apply W_state_GetParticipants.
  - apply M_state_GetSession.
  - apply M_state_GetParticipant.
  - apply M_state_GetParticipants.
Qed.

(** X6: A call that returns errors has changed nothing and returns nothing
    else: this holds of the eight methods of the [WebRtcSessionHandler],
    in every state and for every input. *)
Theorem WebRtc_errors_change_nothing (h : W.t) :
  (∀ p sum now,
     failsCleanly SessionResult.Errors noSession h (W.CreateSession h p sum now))
  ∧ (∀ p, failsCleanly SessionResult.Errors noSession h (W.GetSession h p))
  ∧ (∀ p, failsCleanly SessionResult.Errors noSession h (W.DeleteSession h p))
  ∧ (∀ p sum now,
       failsCleanly ParticipantResult.Errors noParticipant h
         (W.AddParticipant h p sum now))
  ∧ (∀ p, failsCleanly ParticipantResult.Errors noParticipant h
            (W.GetParticipant h p))
  ∧ (∀ p, failsCleanly ParticipantResult.Errors noParticipant h
            (W.UpdateParticipant h p))
  ∧ (∀ p, failsCleanly ParticipantResult.Errors noParticipant h
            (W.DeleteParticipant h p))
  ∧ (∀ p, failsCleanly ParticipantsResult.Errors noParticipants h
            (W.GetParticipants h p)).
Proof.
  unfold failsCleanly, noSession, noParticipant, noParticipants.
  unfold_methods.
  split_and!; intros;
    repeat (case_match; simplify_eq/=); done.
Qed.

(** X7: A call that returns errors has changed nothing and returns nothing
    else: this holds of the eight methods of the [MockSessionHandler], in
    every state and for every input. *)
Theorem Mock_errors_change_nothing (uuid_Parse : string → option string) (h : M.t) :
  (∀ p id now,
     failsCleanly SessionResult.Errors noSession h (M.CreateSession h p id now))
  ∧ (∀ p, failsCleanly SessionResult.Errors noSession h
            (M.GetSession uuid_Parse h p))
  ∧ (∀ p, failsCleanly SessionResult.Errors noSession h
            (M.DeleteSession uuid_Parse h p))
  ∧ (∀ p id now,
       failsCleanly ParticipantResult.Errors noParticipant h
         (M.AddParticipant uuid_Parse h p id now))
  ∧ (∀ p, failsCleanly ParticipantResult.Errors noParticipant h
            (M.GetParticipant h p))
  ∧ (∀ p, failsCleanly ParticipantResult.Errors noParticipant h
            (M.UpdateParticipant h p))
  ∧ (∀ p, failsCleanly ParticipantResult.Errors noParticipant h
            (M.DeleteParticipant h p))
  ∧ (∀ p, failsCleanly ParticipantsResult.Errors noParticipants h
            (M.GetParticipants h p)).
Proof.
  unfold failsCleanly, noSession, noParticipant, noParticipants.
  unfold_methods.
  split_and!; intros;
    repeat (case_match; simplify_eq/=); done.
Qed.

(** X8: The [WebRtcSessionHandler] checks before it looks up: when the check
    of the parameters finds errors, the result is those errors and nothing
    else, and the handler is left as it was, whatever it holds. *)
Theorem WebRtc_checks_before_lookup (h : W.t) :
  (∀ p sum now, CreateSessionParams.check p ≠ [] →
     W.CreateSession h p sum now
     = Returns h {| SessionResult.Session := None;
                    SessionResult.Errors := CreateSessionParams.check p |} None)
  ∧ (∀ p, GetSessionParams.check p ≠ [] →
       W.GetSession h p
       = Returns h {| SessionResult.Session := None;
                      SessionResult.Errors := GetSessionParams.check p |} None)
  ∧ (∀ p, DeleteSessionParams.check p ≠ [] →
       W.DeleteSession h p
       = Returns h {| SessionResult.Session := None;
                      SessionResult.Errors := DeleteSessionParams.check p |} None)
  ∧ (∀ p sum now, AddParticipantParams.check p ≠ [] →
       W.AddParticipant h p sum now
       = Returns h {| ParticipantResult.Participant := None;
                      ParticipantResult.Errors := AddParticipantParams.check p |}
           None)
  ∧ (∀ p, GetParticipantParams.check p ≠ [] →
       W.GetParticipant h p
       = Returns h {| ParticipantResult.Participant := None;
                      ParticipantResult.Errors := GetParticipantParams.check p |}
           None)
  ∧ (∀ p, UpdateParticipantParams.check p ≠ [] →
       W.UpdateParticipant h p
       = Returns h {| ParticipantResult.Participant := None;
                      ParticipantResult.Errors := UpdateParticipantParams.check p |}
           None)
  ∧ (∀ p, DeleteParticipantParams.check p ≠ [] →
       W.DeleteParticipant h p
       = Returns h {| ParticipantResult.Participant := None;
                      ParticipantResult.Errors := DeleteParticipantParams.check p |}
           None)
  ∧ (∀ p, GetParticipantsParams.check p ≠ [] →
       W.GetParticipants h p
       = Returns h {| ParticipantsResult.Participants := [];
                      ParticipantsResult.Errors := GetParticipantsParams.check p |}
           None).
Proof.
  unfold_methods. split_and!; intros; by case_match.
Qed.

(** ** Deleting *)

Lemma W_DeleteSession_registered (h : W.t) (sid : string) (s : webRtcSession.t) :
  W.reachable h →
  W.sessions h !! sid = Some s →
  ∃ h',
    W.DeleteSession h {| DeleteSessionParams.Id := sid |}
    = Returns h' {| SessionResult.Session := Some (webRtcSession.Session s);
                    SessionResult.Errors := [] |} None
    ∧ W.sessions h' = delete sid (W.sessions h)
    ∧ W.GetSession h' {| GetSessionParams.Id := sid |}
      = Returns h' {| SessionResult.Session := None;
                      SessionResult.Errors := [] |} None
    ∧ W.GetParticipants h' {| GetParticipantsParams.SessionId := sid |}
      = Returns h' {| ParticipantsResult.Participants := [];
                      ParticipantsResult.Errors := [sessionDoesNotExist sid] |} None.
Proof.
  intros Hreach Hs.
  destruct (W_reachable_wf h Hreach sid s Hs) as (Hsid & _).
  exists {| W.sessions := delete sid (W.sessions h) |}. unfold_methods.
  unfold DeleteSessionParams.check, GetSessionParams.check,
    GetParticipantsParams.check. simpl.
  rewrite (isId_name_irrelevant "id" "sessionId"), Hsid, Hs. simpl.
  by rewrite lookup_delete_eq.
Qed.

(** X9: [DeleteSession] on a registered session of a reachable
    [WebRtcSessionHandler] returns the record of the session with no
    errors and removes the session with its participants: afterwards
    [GetSession] reports it as not found, [GetParticipants] and
    [GetParticipant] answer that the session does not exist, and every
    other session is registered as before, with its participants. *)
Theorem WebRtc_DeleteSession_removes_the_session
    (h : W.t) (sid : string) (s : webRtcSession.t) :
  W.reachable h →
  W.sessions h !! sid = Some s →
  ∃ h',
    W.DeleteSession h {| DeleteSessionParams.Id := sid |}
    = Returns h' {| SessionResult.Session := Some (webRtcSession.Session s);
                    SessionResult.Errors := [] |} None
    ∧ W.sessions h' !! sid = None
    ∧ (∀ sid', sid' ≠ sid → W.sessions h' !! sid' = W.sessions h !! sid')
    ∧ W.GetSession h' {| GetSessionParams.Id := sid |}
      = Returns h' {| SessionResult.Session := None;
                      SessionResult.Errors := [] |} None
    ∧ W.GetParticipants h' {| GetParticipantsParams.SessionId := sid |}
      = Returns h'
          {| ParticipantsResult.Participants := [];
             ParticipantsResult.Errors :=
               ["session " +:+ sid +:+ " does not exist"] |} None
    ∧ (∀ pid, isId "participantId" pid = None →
         W.GetParticipant h'
           {| GetParticipantParams.SessionId := sid;
              GetParticipantParams.ParticipantId := pid |}
         = Returns h'
             {| ParticipantResult.Participant := None;
                ParticipantResult.Errors :=
                  ["session " +:+ sid +:+ " does not exist"] |} None).
Proof.
  intros Hreach Hs.
  destruct (W_reachable_wf h Hreach sid s Hs) as (Hsid & _).
  destruct (W_DeleteSession_registered h sid s Hreach Hs)
    as (h' & Hcall & Hstore & Hget & Hlist).
  exists h'. split_and!; try done.
  - by rewrite Hstore, lookup_delete_eq.
  - intros sid' Hne. by rewrite Hstore, lookup_delete_ne.
  - intros pid Hpid. unfold_methods. unfold GetParticipantParams.check. simpl.
    rewrite Hsid, Hpid, Hstore, lookup_delete_eq. done.
Qed.

Lemma WebRtc_DeleteSession_removes_the_session_witness :
  let sid := generateSessionId Sample.sum1 in
  let pid := generateSessionId Sample.sum2 in
  let s :=
    {| webRtcSession.Session :=
         {| Session.Name := "standup"; Session.Id := sid;
            Session.CreationDateTime := Sample.now |};
       webRtcSession.participants :=
         {[ pid := {| Participant.Name := "alice"; Participant.Id := pid;
                      Participant.SessionId := sid;
                      Participant.CreationDateTime := Sample.now |} ]} |} in
  (W.reachable Sample.webRtc1 ∧ W.sessions Sample.webRtc1 !! sid = Some s)
  ∧ ∃ h',
      W.DeleteSession Sample.webRtc1 {| DeleteSessionParams.Id := sid |}
      = Returns h' {| SessionResult.Session := Some (webRtcSession.Session s);
                      SessionResult.Errors := [] |} None
      ∧ W.sessions h' !! sid = None
      ∧ (∀ sid', sid' ≠ sid →
           W.sessions h' !! sid' = W.sessions Sample.webRtc1 !! sid')
      ∧ W.GetSession h' {| GetSessionParams.Id := sid |}
        = Returns h' {| SessionResult.Session := None;
                        SessionResult.Errors := [] |} None
      ∧ W.GetParticipants h' {| GetParticipantsParams.SessionId := sid |}
        = Returns h'
            {| ParticipantsResult.Participants := [];
               ParticipantsResult.Errors :=
                 ["session " +:+ sid +:+ " does not exist"] |} None
      ∧ (∀ pid, isId "participantId" pid = None →
           W.GetParticipant h'
             {| GetParticipantParams.SessionId := sid;
                GetParticipantParams.ParticipantId := pid |}
           = Returns h'
               {| ParticipantResult.Participant := None;
                  ParticipantResult.Errors :=
                    ["session " +:+ sid +:+ " does not exist"] |} None).
Proof.
  intros sid pid s.
  assert (Hs : W.sessions Sample.webRtc1 !! sid = Some s)
    by (vm_compute; reflexivity).
  split; [split; [apply webRtc1_reachable | exact Hs] |].
  apply (WebRtc_DeleteSession_removes_the_session Sample.webRtc1 sid s);
    [apply webRtc1_reachable | exact Hs].
Defined.

(** X10: [DeleteSession] on a registered session of a reachable
    [MockSessionHandler] returns the record of the session with no errors
    and removes the session with its participants; every other session
    stays as it was. Afterwards [GetParticipants] and [GetParticipant]
    answer that the session does not exist, and a second [DeleteSession],
    like a [GetSession], panics. *)
Theorem Mock_DeleteSession_removes_the_session
    (uuid_Parse : string → option string) (h : M.t) (sid : string)
    (rs : RegisteredSession.t) :
  M.reachable uuid_Parse h →
  GoMap.index (M.sessions h) sid = Some rs →
  ∃ h',
    M.DeleteSession uuid_Parse h {| DeleteSessionParams.Id := sid |}
    = Returns h' {| SessionResult.Session := Some (RegisteredSession.Session rs);
                    SessionResult.Errors := [] |} None
    ∧ GoMap.index (M.sessions h') sid = None
    ∧ (∀ sid', sid' ≠ sid →
         GoMap.index (M.sessions h') sid' = GoMap.index (M.sessions h) sid')
    ∧ M.GetParticipants h' {| GetParticipantsParams.SessionId := sid |}
      = Returns h'
          {| ParticipantsResult.Participants := [];
             ParticipantsResult.Errors :=
               ["session " +:+ sid +:+ " does not exist"] |} None
    ∧ (∀ pid,
         M.GetParticipant h'
           {| GetParticipantParams.SessionId := sid;
              GetParticipantParams.ParticipantId := pid |}
         = Returns h'
             {| ParticipantResult.Participant := None;
                ParticipantResult.Errors :=
                  ["session " +:+ sid +:+ " does not exist"] |} None)
    ∧ M.GetSession uuid_Parse h' {| GetSessionParams.Id := sid |} = Panics h'
    ∧ M.DeleteSession uuid_Parse h' {| DeleteSessionParams.Id := sid |}
      = Panics h'.
Proof.
  intros Hreach Hrs.
  destruct (M_wf_lookup uuid_Parse h sid rs
              (M_reachable_wf uuid_Parse h Hreach) Hrs) as (Hsid & _).
  assert (Hgone : GoMap.index (GoMap.remove (M.sessions h) sid) sid = None).
  { rewrite GoMap_index_orMake, GoMap_orMake_remove. apply lookup_delete_eq. }
  eexists. split.
  { unfold M.DeleteSession, M.checkSessionId. simpl. by rewrite Hsid, Hrs. }
  simpl. split_and!; try done.
  - intros sid' Hne.
    rewrite !GoMap_index_orMake, GoMap_orMake_remove. by apply lookup_delete_ne.
  - unfold M.GetParticipants. simpl. by rewrite Hgone.
  - intros pid. unfold M.GetParticipant. simpl. by rewrite Hgone.
  - unfold M.GetSession, M.checkSessionId. simpl. by rewrite Hsid, Hgone.
  - unfold M.DeleteSession, M.checkSessionId. simpl.
    rewrite Hsid, Hgone. by rewrite (GoMap_remove_absent _ _ Hgone).
Qed.

Lemma Mock_DeleteSession_removes_the_session_witness :
  let rs :=
    {| RegisteredSession.Session :=
         {| Session.Name := "standup"; Session.Id := Sample.uuid1;
            Session.CreationDateTime := Sample.now |};
       RegisteredSession.participants :=
         Some {[ Sample.uuid2 :=
              {| Participant.Name := "alice"; Participant.Id := Sample.uuid2;
                 Participant.SessionId := Sample.uuid1;
                 Participant.CreationDateTime := Sample.now |} ]} |} in
  (M.reachable Sample.uuid_Parse Sample.mock1
   ∧ GoMap.index (M.sessions Sample.mock1) Sample.uuid1 = Some rs)
  ∧ ∃ h',
      M.DeleteSession Sample.uuid_Parse Sample.mock1
        {| DeleteSessionParams.Id := Sample.uuid1 |}
      = Returns h' {| SessionResult.Session := Some (RegisteredSession.Session rs);
                      SessionResult.Errors := [] |} None
      ∧ GoMap.index (M.sessions h') Sample.uuid1 = None
      ∧ (∀ sid', sid' ≠ Sample.uuid1 →
           GoMap.index (M.sessions h') sid'
           = GoMap.index (M.sessions Sample.mock1) sid')
      ∧ M.GetParticipants h' {| GetParticipantsParams.SessionId := Sample.uuid1 |}
        = Returns h'
            {| ParticipantsResult.Participants := [];
               ParticipantsResult.Errors :=
                 ["session " +:+ Sample.uuid1 +:+ " does not exist"] |} None
      ∧ (∀ pid,
           M.GetParticipant h'
             {| GetParticipantParams.SessionId := Sample.uuid1;
                GetParticipantParams.ParticipantId := pid |}
           = Returns h'
               {| ParticipantResult.Participant := None;
                  ParticipantResult.Errors :=
                    ["session " +:+ Sample.uuid1 +:+ " does not exist"] |} None)
      ∧ M.GetSession Sample.uuid_Parse h' {| GetSessionParams.Id := Sample.uuid1 |}
        = Panics h'
      ∧ M.DeleteSession Sample.uuid_Parse h'
          {| DeleteSessionParams.Id := Sample.uuid1 |} = Panics h'.
Proof.
  intros rs.
  assert (Hrs : GoMap.index (M.sessions Sample.mock1) Sample.uuid1 = Some rs)
    by (vm_compute; reflexivity).
  split; [split; [apply mock1_reachable | exact Hrs] |].
  apply (Mock_DeleteSession_removes_the_session Sample.uuid_Parse Sample.mock1
           Sample.uuid1 rs); [apply mock1_reachable | exact Hrs].
Defined.

(** X11: [DeleteParticipant] on a participant [p] registered under [pid] in
    the session [sid] returns [p] with no errors and removes it: afterwards
    the handler holds no participant under [pid] in [sid], every other
    participant and the record of every session as before, and a
    [GetParticipant] or a second [DeleteParticipant] with the same
    identifiers returns neither a participant nor an error. The handler is
    in a reachable state. *)
Theorem DeleteParticipant_removes_the_participant :
  (∀ (h : W.t) (sid pid : string) (p : Participant.t),
     W.reachable h →
     W_participantOf h sid pid = Some p →
     ∃ h',
       W.DeleteParticipant h
         {| DeleteParticipantParams.SessionId := sid;
            DeleteParticipantParams.ParticipantId := pid |}
       = Returns h' {| ParticipantResult.Participant := Some p;
                       ParticipantResult.Errors := [] |} None
       ∧ W_participantOf h' sid pid = None
       ∧ (∀ sid' pid', (sid', pid') ≠ (sid, pid) →
            W_participantOf h' sid' pid' = W_participantOf h sid' pid')
       ∧ (∀ sid', W_sessionOf h' sid' = W_sessionOf h sid')
       ∧ W.GetParticipant h'
           {| GetParticipantParams.SessionId := sid;
              GetParticipantParams.ParticipantId := pid |}
         = Returns h' quietMiss None
       ∧ W.DeleteParticipant h'
           {| DeleteParticipantParams.SessionId := sid;
              DeleteParticipantParams.ParticipantId := pid |}
         = Returns h' quietMiss None)
  ∧ (∀ (uuid_Parse : string → option string) (h : M.t) (sid pid : string)
       (p : Participant.t),
       M.reachable uuid_Parse h →
       M_participantOf h sid pid = Some p →
       ∃ h',
         M.DeleteParticipant h
           {| DeleteParticipantParams.SessionId := sid;
              DeleteParticipantParams.ParticipantId := pid |}
         = Returns h' {| ParticipantResult.Participant := Some p;
                         ParticipantResult.Errors := [] |} None
         ∧ M_participantOf h' sid pid = None
         ∧ (∀ sid' pid', (sid', pid') ≠ (sid, pid) →
              M_participantOf h' sid' pid' = M_participantOf h sid' pid')
         ∧ (∀ sid', M_sessionOf h' sid' = M_sessionOf h sid')
         ∧ M.GetParticipant h'
             {| GetParticipantParams.SessionId := sid;
                GetParticipantParams.ParticipantId := pid |}
           = Returns h' quietMiss None
         ∧ M.DeleteParticipant h'
             {| DeleteParticipantParams.SessionId := sid;
                DeleteParticipantParams.ParticipantId := pid |}
           = Returns h' quietMiss None).
Proof.
  split.
  - intros h sid pid p Hreach Hp. unfold W_participantOf in Hp.
    destruct (W.sessions h !! sid) as [s |] eqn:Hs; [| done]. simpl in Hp.
    destruct (W_reachable_wf h Hreach sid s Hs) as (Hsid & _ & _ & Hparts).
    destruct (Hparts pid p Hp) as (Hpid & _).
    set (s' := {| webRtcSession.Session := webRtcSession.Session s;
                  webRtcSession.participants :=
                    delete pid (webRtcSession.participants s) |}).
    assert (Hcheck : DeleteParticipantParams.check
                       {| DeleteParticipantParams.SessionId := sid;
                          DeleteParticipantParams.ParticipantId := pid |} = []).
    { apply DeleteParticipantParams_check_nil. by split. }
    assert (Hcheck' : GetParticipantParams.check
                        {| GetParticipantParams.SessionId := sid;
                           GetParticipantParams.ParticipantId := pid |} = []).
    { apply GetParticipantParams_check_nil. by split. }
    exists (W.store h sid s'). split_and!.
    + unfold W.DeleteParticipant, W.doActionOnSession. rewrite Hcheck. simpl.
      by rewrite Hs, Hp.
    + unfold W_participantOf, W.store. simpl.
      rewrite lookup_insert_eq. simpl. by rewrite lookup_delete_eq.
    + intros sid' pid' Hne. unfold W_participantOf, W.store. simpl.
      destruct (decide (sid = sid')) as [<- | Hsid'].
      * rewrite lookup_insert_eq, Hs. simpl.
        rewrite lookup_delete_ne; [done | congruence].
      * by rewrite lookup_insert_ne.
    + intros sid'. by apply (W_sessionOf_store h sid sid' s).
    + unfold W.GetParticipant, W.doActionOnSession, W.store.
      rewrite Hcheck'. simpl.
      by rewrite lookup_insert_eq; simpl; rewrite lookup_delete_eq.
    + unfold W.DeleteParticipant, W.doActionOnSession, W.store.
      rewrite Hcheck. simpl.
      by rewrite lookup_insert_eq; simpl; rewrite lookup_delete_eq.
  - intros uuid_Parse h sid pid p Hreach Hp. unfold M_participantOf in Hp.
    destruct (GoMap.index (M.sessions h) sid) as [rs |] eqn:Hrs; [| done].
    simpl in Hp.
    destruct (M_wf_lookup uuid_Parse h sid rs
                (M_reachable_wf uuid_Parse h Hreach) Hrs) as (_ & _ & _ & Hparts).
    pose proof Hp as Hp'. rewrite GoMap_index_orMake in Hp'.
    destruct (Hparts pid p Hp') as (Hkey & _).
    set (rs' := {| RegisteredSession.Session := RegisteredSession.Session rs;
                   RegisteredSession.participants :=
                     GoMap.remove (RegisteredSession.participants rs) pid |}).
    assert (Hgone : GoMap.index (RegisteredSession.participants rs') pid = None).
    { unfold rs'. simpl.
      rewrite GoMap_index_orMake, GoMap_orMake_remove. apply lookup_delete_eq. }
    exists (M.store h sid rs'). split_and!.
    + unfold M.DeleteParticipant. simpl. by rewrite Hrs, Hp, Hkey.
    + unfold M_participantOf, M.store. simpl. by rewrite lookup_insert_eq.
    + intros sid' pid' Hne. unfold M_participantOf, M.store. simpl.
      destruct (decide (sid = sid')) as [<- | Hsid'].
      * rewrite lookup_insert_eq, Hrs. simpl.
        rewrite !GoMap_index_orMake, GoMap_orMake_remove.
        rewrite lookup_delete_ne; [done | congruence].
      * rewrite lookup_insert_ne by done. by rewrite GoMap_index_orMake.
    + intros sid'. by apply (M_sessionOf_store h sid sid' rs).
    + unfold M.GetParticipant, M.store. simpl.
      by rewrite lookup_insert_eq, Hgone.
    + unfold M.DeleteParticipant, M.store. simpl.
      by rewrite lookup_insert_eq, Hgone.
Qed.

Lemma DeleteParticipant_removes_the_participant_witness :
  let sid := generateSessionId Sample.sum1 in
  let pid := generateSessionId Sample.sum2 in
  let alice :=
    {| Participant.Name := "alice"; Participant.Id := pid;
       Participant.SessionId := sid; Participant.CreationDateTime := Sample.now |} in
  (W.reachable Sample.webRtc1
   ∧ W_participantOf Sample.webRtc1 sid pid = Some alice)
  ∧ ∃ h',
      W.DeleteParticipant Sample.webRtc1
        {| DeleteParticipantParams.SessionId := sid;
           DeleteParticipantParams.ParticipantId := pid |}
      = Returns h' {| ParticipantResult.Participant := Some alice;
                      ParticipantResult.Errors := [] |} None
      ∧ W_participantOf h' sid pid = None
      ∧ (∀ sid' pid', (sid', pid') ≠ (sid, pid) →
           W_participantOf h' sid' pid' = W_participantOf Sample.webRtc1 sid' pid')
      ∧ (∀ sid', W_sessionOf h' sid' = W_sessionOf Sample.webRtc1 sid')
      ∧ W.GetParticipant h'
          {| GetParticipantParams.SessionId := sid;
             GetParticipantParams.ParticipantId := pid |}
        = Returns h' quietMiss None
      ∧ W.DeleteParticipant h'
          {| DeleteParticipantParams.SessionId := sid;
             DeleteParticipantParams.ParticipantId := pid |}
        = Returns h' quietMiss None.
Proof.
  intros sid pid alice.
  assert (Hp : W_participantOf Sample.webRtc1 sid pid = Some alice)
    by (vm_compute; reflexivity).
  split; [split; [apply webRtc1_reachable | exact Hp] |].
  apply (proj1 DeleteParticipant_removes_the_participant
           Sample.webRtc1 sid pid alice); [apply webRtc1_reachable | exact Hp].
Defined.

(** ** Adding *)

(** X12: [AddParticipant] on a registered session, with a name that is not
    blank, returns with no errors a participant that has the given name,
    the drawn identifier, the identifier of the session and the time of
    the call; a [GetParticipant] made next with the two identifiers
    returns that participant; every participant registered under another
    pair of identifiers, and the record of every session, is as before.
    The handler is in a reachable state. *)
Theorem AddParticipant_then_GetParticipant :
  (∀ (h : W.t) (sid name : string) (s : webRtcSession.t) (sum : list ascii)
     (now : string),
     W.reachable h →
     length sum = 32 →
     W.sessions h !! sid = Some s →
     isNotBlank "name" name = None →
     let added :=
       {| Participant.Name := name; Participant.Id := generateParticipantId sum;
          Participant.SessionId := sid; Participant.CreationDateTime := now |} in
     ∃ h',
       W.AddParticipant h
         {| AddParticipantParams.SessionId := sid;
            AddParticipantParams.Name := name |} sum now
       = Returns h' {| ParticipantResult.Participant := Some added;
                       ParticipantResult.Errors := [] |} None
       ∧ W.GetParticipant h'
           {| GetParticipantParams.SessionId := sid;
              GetParticipantParams.ParticipantId := Participant.Id added |}
         = Returns h' {| ParticipantResult.Participant := Some added;
                         ParticipantResult.Errors := [] |} None
       ∧ (∀ sid' pid', (sid', pid') ≠ (sid, Participant.Id added) →
            W_participantOf h' sid' pid' = W_participantOf h sid' pid')
       ∧ (∀ sid', W_sessionOf h' sid' = W_sessionOf h sid'))
  ∧ (∀ (uuid_Parse : string → option string) (h : M.t) (sid name : string)
       (rs : RegisteredSession.t) (id now : string),
       M.reachable uuid_Parse h →
       GoMap.index (M.sessions h) sid = Some rs →
       isNotBlank "name" name = None →
       let added :=
         {| Participant.Name := name; Participant.Id := id;
            Participant.SessionId := sid; Participant.CreationDateTime := now |} in
       ∃ h',
         M.AddParticipant uuid_Parse h
           {| AddParticipantParams.SessionId := sid;
              AddParticipantParams.Name := name |} id now
         = Returns h' {| ParticipantResult.Participant := Some added;
                         ParticipantResult.Errors := [] |} None
         ∧ M.GetParticipant h'
             {| GetParticipantParams.SessionId := sid;
                GetParticipantParams.ParticipantId := Participant.Id added |}
           = Returns h' {| ParticipantResult.Participant := Some added;
                           ParticipantResult.Errors := [] |} None
         ∧ (∀ sid' pid', (sid', pid') ≠ (sid, Participant.Id added) →
              M_participantOf h' sid' pid' = M_participantOf h sid' pid')
         ∧ (∀ sid', M_sessionOf h' sid' = M_sessionOf h sid')).
Proof.
  split.
  - intros h sid name s sum now Hreach Hsum Hs Hname added.
    destruct (W_reachable_wf h Hreach sid s Hs) as (Hsid & _).
    pose proof (generateSessionId_isId "participantId" sum Hsum) as Hpid.
    set (s' := {| webRtcSession.Session := webRtcSession.Session s;
                  webRtcSession.participants :=
                    <[generateParticipantId sum := added]>
                      (webRtcSession.participants s) |}).
    exists (W.store h sid s'). split_and!.
    + unfold W.AddParticipant, W.doActionOnSession, AddParticipantParams.check.
      simpl. by rewrite Hsid, Hname, Hs.
    + unfold W.GetParticipant, W.doActionOnSession, GetParticipantParams.check,
        W.store. simpl. unfold generateParticipantId at 1.
      rewrite Hsid, Hpid. simpl.
      by rewrite lookup_insert_eq; simpl; rewrite lookup_insert_eq.
    + intros sid' pid' Hne. unfold W_participantOf, W.store. simpl.
      destruct (decide (sid = sid')) as [<- | Hsid'].
      * rewrite lookup_insert_eq, Hs. simpl.
        rewrite lookup_insert_ne; [done | intros Heq; apply Hne; by rewrite <- Heq].
      * by rewrite lookup_insert_ne.
    + intros sid'. by apply (W_sessionOf_store h sid sid' s).
  - intros uuid_Parse h sid name rs id now Hreach Hrs Hname added.
    rewrite isNotBlank_name in Hname.
    destruct (M_wf_lookup uuid_Parse h sid rs
                (M_reachable_wf uuid_Parse h Hreach) Hrs) as (Hsid & Hkey & _).
    set (rs' := {| RegisteredSession.Session := RegisteredSession.Session rs;
                   RegisteredSession.participants :=
                     Some (<[id := added]>
                             (GoMap.orMake (RegisteredSession.participants rs))) |}).
    exists (M.store h sid rs'). split_and!.
    + unfold M.AddParticipant, M.checkSessionId. simpl.
      by rewrite Hsid, Hname, Hrs, Hkey.
    + unfold M.GetParticipant, M.store. simpl.
      by rewrite lookup_insert_eq; simpl; rewrite lookup_insert_eq.
    + intros sid' pid' Hne. unfold M_participantOf, M.store. simpl.
      destruct (decide (sid = sid')) as [<- | Hsid'].
      * rewrite lookup_insert_eq, Hrs. simpl.
        rewrite lookup_insert_ne by (intros Heq; apply Hne; by rewrite <- Heq).
        by rewrite GoMap_index_orMake.
      * rewrite lookup_insert_ne by done. by rewrite GoMap_index_orMake.
    + intros sid'. by apply (M_sessionOf_store h sid sid' rs).
Qed.

Lemma AddParticipant_then_GetParticipant_witness :
  let sid := generateSessionId Sample.sum1 in
  let s :=
    {| webRtcSession.Session :=
         {| Session.Name := "standup"; Session.Id := sid;
            Session.CreationDateTime := Sample.now |};
       webRtcSession.participants :=
         {[ generateSessionId Sample.sum2 :=
              {| Participant.Name := "alice";
                 Participant.Id := generateSessionId Sample.sum2;
                 Participant.SessionId := sid;
                 Participant.CreationDateTime := Sample.now |} ]} |} in
  let added :=
    {| Participant.Name := "bob"; Participant.Id := generateParticipantId Sample.sum3;
       Participant.SessionId := sid; Participant.CreationDateTime := Sample.later |} in
  (W.reachable Sample.webRtc1
   ∧ length Sample.sum3 = 32
   ∧ W.sessions Sample.webRtc1 !! sid = Some s
   ∧ isNotBlank "name" "bob" = None)
  ∧ ∃ h',
      W.AddParticipant Sample.webRtc1
        {| AddParticipantParams.SessionId := sid;
           AddParticipantParams.Name := "bob" |} Sample.sum3 Sample.later
      = Returns h' {| ParticipantResult.Participant := Some added;
                      ParticipantResult.Errors := [] |} None
      ∧ W.GetParticipant h'
          {| GetParticipantParams.SessionId := sid;
             GetParticipantParams.ParticipantId := Participant.Id added |}
        = Returns h' {| ParticipantResult.Participant := Some added;
                        ParticipantResult.Errors := [] |} None
      ∧ (∀ sid' pid', (sid', pid') ≠ (sid, Participant.Id added) →
           W_participantOf h' sid' pid' = W_participantOf Sample.webRtc1 sid' pid')
      ∧ (∀ sid', W_sessionOf h' sid' = W_sessionOf Sample.webRtc1 sid').
Proof.
  intros sid s added.
  assert (Hs : W.sessions Sample.webRtc1 !! sid = Some s)
    by (vm_compute; reflexivity).
  split; [split_and!; [apply webRtc1_reachable | reflexivity | exact Hs
                      | reflexivity] |].
  apply (proj1 AddParticipant_then_GetParticipant Sample.webRtc1 sid "bob" s
           Sample.sum3 Sample.later);
    [apply webRtc1_reachable | reflexivity | exact Hs | reflexivity].
Defined.

(** ** Listing *)

Lemma values_of_coherent_map (sid : string) (m : gmap string Participant.t) :
  (∀ pid p, m !! pid = Some p → Participant.Id p = pid) →
  NoDup (map_to_list m).*2
  ∧ length (map_to_list m).*2 = size m
  ∧ ∀ p, p ∈ (map_to_list m).*2 ↔ ∃ pid, m !! pid = Some p.
Proof.
  intros Hkey. split_and!.
  - apply NoDup_fmap_2_strong; [| apply NoDup_map_to_list].
    intros [k1 p1] [k2 p2] H1%elem_of_map_to_list H2%elem_of_map_to_list Heq.
    simpl in Heq. subst p2.
    by rewrite <- (Hkey _ _ H1), <- (Hkey _ _ H2).
  - by rewrite length_fmap, length_map_to_list.
  - intros p. rewrite list_elem_of_fmap. split.
    + intros ([pid q] & -> & Hin%elem_of_map_to_list). by exists pid.
    + intros (pid & Hp). exists (pid, p). split; [done |].
      by apply elem_of_map_to_list.
Qed.

(** X13: [GetParticipants] on a registered session returns, with no errors and
    without changing the handler, a list without repetition that holds
    exactly the participants registered in the session: as many as the
    session has identifiers of participants. The handler is in a reachable
    state. *)
Theorem GetParticipants_lists_the_session :
  (∀ (h : W.t) (sid : string) (s : webRtcSession.t),
     W.reachable h →
     W.sessions h !! sid = Some s →
     ∃ participants,
       W.GetParticipants h {| GetParticipantsParams.SessionId := sid |}
       = Returns h {| ParticipantsResult.Participants := participants;
                      ParticipantsResult.Errors := [] |} None
       ∧ NoDup participants
       ∧ length participants = size (webRtcSession.participants s)
       ∧ ∀ p, p ∈ participants ↔ ∃ pid, W_participantOf h sid pid = Some p)
  ∧ (∀ (uuid_Parse : string → option string) (h : M.t) (sid : string)
       (rs : RegisteredSession.t),
       M.reachable uuid_Parse h →
       GoMap.index (M.sessions h) sid = Some rs →
       ∃ participants,
         M.GetParticipants h {| GetParticipantsParams.SessionId := sid |}
         = Returns h {| ParticipantsResult.Participants := participants;
                        ParticipantsResult.Errors := [] |} None
         ∧ NoDup participants
         ∧ length participants
           = size (GoMap.orMake (RegisteredSession.participants rs))
         ∧ ∀ p, p ∈ participants ↔ ∃ pid, M_participantOf h sid pid = Some p).
Proof.
  split.
  - intros h sid s Hreach Hs.
    destruct (W_reachable_wf h Hreach sid s Hs) as (Hsid & _ & _ & Hparts).
    destruct (values_of_coherent_map sid (webRtcSession.participants s))
      as (Hnodup & Hlen & Hmem).
    { intros pid p Hp. by destruct (Hparts pid p Hp) as (_ & ? & _). }
    eexists. split_and!; [| exact Hnodup | exact Hlen |].
    + unfold W.GetParticipants, W.doActionOnSession, GetParticipantsParams.check.
      simpl. by rewrite Hsid, Hs.
    + intros p. rewrite Hmem. unfold W_participantOf. by rewrite Hs.
  - intros uuid_Parse h sid rs Hreach Hrs.
    destruct (M_wf_lookup uuid_Parse h sid rs
                (M_reachable_wf uuid_Parse h Hreach) Hrs) as (_ & _ & _ & Hparts).
    destruct (values_of_coherent_map sid
                (GoMap.orMake (RegisteredSession.participants rs)))
      as (Hnodup & Hlen & Hmem).
    { intros pid p Hp. by destruct (Hparts pid p Hp) as (? & _). }
    eexists. split_and!; [| exact Hnodup | exact Hlen |].
    + unfold M.GetParticipants. simpl. by rewrite Hrs.
    + intros p. rewrite Hmem. unfold M_participantOf. rewrite Hrs. simpl.
      by setoid_rewrite GoMap_index_orMake.
Qed.

Lemma GetParticipants_lists_the_session_witness :
  let sid := generateSessionId Sample.sum1 in
  let s :=
    {| webRtcSession.Session :=
         {| Session.Name := "standup"; Session.Id := sid;
            Session.CreationDateTime := Sample.now |};
       webRtcSession.participants :=
         {[ generateSessionId Sample.sum2 :=
              {| Participant.Name := "alice";
                 Participant.Id := generateSessionId Sample.sum2;
                 Participant.SessionId := sid;
                 Participant.CreationDateTime := Sample.now |} ]} |} in
  (W.reachable Sample.webRtc1 ∧ W.sessions Sample.webRtc1 !! sid = Some s)
  ∧ ∃ participants,
      W.GetParticipants Sample.webRtc1 {| GetParticipantsParams.SessionId := sid |}
      = Returns Sample.webRtc1
          {| ParticipantsResult.Participants := participants;
             ParticipantsResult.Errors := [] |} None
      ∧ NoDup participants
      ∧ length participants = size (webRtcSession.participants s)
      ∧ ∀ p, p ∈ participants
             ↔ ∃ pid, W_participantOf Sample.webRtc1 sid pid = Some p.
Proof.
  intros sid s.
  assert (Hs : W.sessions Sample.webRtc1 !! sid = Some s)
    by (vm_compute; reflexivity).
  split; [split; [apply webRtc1_reachable | exact Hs] |].
  apply (proj1 GetParticipants_lists_the_session Sample.webRtc1 sid s);
    [apply webRtc1_reachable | exact Hs].
Defined.

(** X14: When the identifier drawn for a new participant is not in use in the
    session, [AddParticipant] with a name that is not blank makes the list
    of [GetParticipants] one longer: the new list is the old one with the
    new participant, in some order. The [WebRtcSessionHandler] is in a
    reachable state. *)
Theorem WebRtc_AddParticipant_extends_the_list
    (h : W.t) (sid name : string) (s : webRtcSession.t) (sum : list ascii)
    (now : string) :
  W.reachable h →
  length sum = 32 →
  W.sessions h !! sid = Some s →
  webRtcSession.participants s !! generateParticipantId sum = None →
  isNotBlank "name" name = None →
  ∃ h' added before after,
    W.AddParticipant h
      {| AddParticipantParams.SessionId := sid;
         AddParticipantParams.Name := name |} sum now
    = Returns h' {| ParticipantResult.Participant := Some added;
                    ParticipantResult.Errors := [] |} None
    ∧ W.GetParticipants h {| GetParticipantsParams.SessionId := sid |}
      = Returns h {| ParticipantsResult.Participants := before;
                     ParticipantsResult.Errors := [] |} None
    ∧ W.GetParticipants h' {| GetParticipantsParams.SessionId := sid |}
      = Returns h' {| ParticipantsResult.Participants := after;
                      ParticipantsResult.Errors := [] |} None
    ∧ after ≡ₚ added :: before
    ∧ length after = S (length before).
Proof.
  intros Hreach Hsum Hs Hfresh Hname.
  destruct (W_reachable_wf h Hreach sid s Hs) as (Hsid & _).
  assert (Hperm :
    (map_to_list (<[generateParticipantId sum :=
                      W.newParticipant
                        {| AddParticipantParams.SessionId := sid;
                           AddParticipantParams.Name := name |} sum now]>
                    (webRtcSession.participants s))).*2
    ≡ₚ W.newParticipant
         {| AddParticipantParams.SessionId := sid;
            AddParticipantParams.Name := name |} sum now
       :: (map_to_list (webRtcSession.participants s)).*2).
  { by rewrite map_to_list_insert. }
  do 4 eexists. split_and!.
  - unfold W.AddParticipant, W.doActionOnSession, AddParticipantParams.check.
    simpl. by rewrite Hsid, Hname, Hs.
  - unfold W.GetParticipants, W.doActionOnSession, GetParticipantsParams.check.
    simpl. by rewrite Hsid, Hs.
  - unfold W.GetParticipants, W.doActionOnSession, GetParticipantsParams.check,
      W.store. simpl. rewrite Hsid. simpl. by rewrite lookup_insert_eq.
  - exact Hperm.
  - by rewrite Hperm.
Qed.

Lemma WebRtc_AddParticipant_extends_the_list_witness :
  let sid := generateSessionId Sample.sum1 in
  let s :=
    {| webRtcSession.Session :=
         {| Session.Name := "standup"; Session.Id := sid;
            Session.CreationDateTime := Sample.now |};
       webRtcSession.participants :=
         {[ generateSessionId Sample.sum2 :=
              {| Participant.Name := "alice";
                 Participant.Id := generateSessionId Sample.sum2;
                 Participant.SessionId := sid;
                 Participant.CreationDateTime := Sample.now |} ]} |} in
  (W.reachable Sample.webRtc1
   ∧ length Sample.sum3 = 32
   ∧ W.sessions Sample.webRtc1 !! sid = Some s
   ∧ webRtcSession.participants s !! generateParticipantId Sample.sum3 = None
   ∧ isNotBlank "name" "bob" = None)
  ∧ ∃ h' added before after,
      W.AddParticipant Sample.webRtc1
        {| AddParticipantParams.SessionId := sid;
           AddParticipantParams.Name := "bob" |} Sample.sum3 Sample.later
      = Returns h' {| ParticipantResult.Participant := Some added;
                      ParticipantResult.Errors := [] |} None
      ∧ W.GetParticipants Sample.webRtc1
          {| GetParticipantsParams.SessionId := sid |}
        = Returns Sample.webRtc1
            {| ParticipantsResult.Participants := before;
               ParticipantsResult.Errors := [] |} None
      ∧ W.GetParticipants h' {| GetParticipantsParams.SessionId := sid |}
        = Returns h' {| ParticipantsResult.Participants := after;
                        ParticipantsResult.Errors := [] |} None
      ∧ after ≡ₚ added :: before
      ∧ length after = S (length before).
Proof.
  intros sid s.
  assert (Hs : W.sessions Sample.webRtc1 !! sid = Some s)
    by (vm_compute; reflexivity).
  assert (Hfresh : webRtcSession.participants s
                     !! generateParticipantId Sample.sum3 = None)
    by (vm_compute; reflexivity).
  split; [split_and!; [apply webRtc1_reachable | reflexivity | exact Hs
                      | exact Hfresh | reflexivity] |].
  apply (WebRtc_AddParticipant_extends_the_list Sample.webRtc1 sid "bob" s
           Sample.sum3 Sample.later);
    [apply webRtc1_reachable | reflexivity | exact Hs | exact Hfresh | reflexivity].
Defined.

(** ** What a method leaves alone *)

Lemma W_store_frame (h : W.t) (sid : string) (s s' : webRtcSession.t) :
  W.sessions h !! sid = Some s →
  webRtcSession.Session s' = webRtcSession.Session s →
  ∀ sid',
    W_sessionOf (W.store h sid s') sid' = W_sessionOf h sid'
    ∧ (sid' ≠ sid →
       ∀ pid', W_participantOf (W.store h sid s') sid' pid'
               = W_participantOf h sid' pid').
Proof.
  intros Hs Heq sid'. split; [by apply (W_sessionOf_store h sid sid' s) |].
  intros Hne pid'. unfold W_participantOf, W.store. simpl.
  by rewrite lookup_insert_ne.
Qed.

Lemma M_store_frame (h : M.t) (sid : string) (rs rs' : RegisteredSession.t) :
  GoMap.index (M.sessions h) sid = Some rs →
  RegisteredSession.Session rs' = RegisteredSession.Session rs →
  ∀ sid',
    M_sessionOf (M.store h sid rs') sid' = M_sessionOf h sid'
    ∧ (sid' ≠ sid →
       ∀ pid', M_participantOf (M.store h sid rs') sid' pid'
               = M_participantOf h sid' pid').
Proof.
  intros Hrs Heq sid'. split; [by apply (M_sessionOf_store h sid sid' rs) |].
  intros Hne pid'. unfold M_participantOf, M.store. simpl.
  rewrite lookup_insert_ne by done. by rewrite GoMap_index_orMake.
Qed.

(** X15: [AddParticipant], [UpdateParticipant] and [DeleteParticipant] never
    register or remove a session, never change the record of a session,
    and never touch the participants of a session other than the one they
    are called for: in every state of the [WebRtcSessionHandler] and for
    every input, whether the call succeeds or not. *)
Theorem WebRtc_participant_methods_touch_one_session (h : W.t) (sid' : string) :
  (∀ p sum now,
     let h' := state_of (W.AddParticipant h p sum now) in
     W_sessionOf h' sid' = W_sessionOf h sid'
     ∧ (sid' ≠ AddParticipantParams.SessionId p →
        ∀ pid', W_participantOf h' sid' pid' = W_participantOf h sid' pid'))
  ∧ (∀ p,
       let h' := state_of (W.UpdateParticipant h p) in
       W_sessionOf h' sid' = W_sessionOf h sid'
       ∧ (sid' ≠ UpdateParticipantParams.SessionId p →
          ∀ pid', W_participantOf h' sid' pid' = W_participantOf h sid' pid'))
  ∧ (∀ p,
       let h' := state_of (W.DeleteParticipant h p) in
       W_sessionOf h' sid' = W_sessionOf h sid'
       ∧ (sid' ≠ DeleteParticipantParams.SessionId p →
          ∀ pid', W_participantOf h' sid' pid' = W_participantOf h sid' pid')).
Proof.
  split_and!; intros p; intros; subst h'; unfold_methods.
  - destruct (AddParticipantParams.check p); [| done].
    destruct (W.sessions h !! _) as [s |] eqn:Hs; [| done].
    by apply (W_store_frame h _ s).
  - destruct (UpdateParticipantParams.check p); [| done].
    destruct (W.sessions h !! _) as [s |] eqn:Hs; [| done].
    destruct (webRtcSession.participants s !! _); [| done].
    by apply (W_store_frame h _ s).
  - destruct (DeleteParticipantParams.check p); [| done].
    destruct (W.sessions h !! _) as [s |] eqn:Hs; [| done].
    destruct (webRtcSession.participants s !! _); [| done].
    by apply (W_store_frame h _ s).
Qed.

(** X16: [AddParticipant], [UpdateParticipant] and [DeleteParticipant]
    never register or remove a session, never change the record of a
    session, and never touch the participants of a session other than the
    one they are called for: in every state of the [MockSessionHandler] and
    for every input, whether the call succeeds or not. *)
Theorem Mock_participant_methods_touch_one_session
    (uuid_Parse : string → option string) (h : M.t) (sid' : string) :
  (∀ p id now,
     let h' := state_of (M.AddParticipant uuid_Parse h p id now) in
     M_sessionOf h' sid' = M_sessionOf h sid'
     ∧ (sid' ≠ AddParticipantParams.SessionId p →
        ∀ pid', M_participantOf h' sid' pid' = M_participantOf h sid' pid'))
  ∧ (∀ p,
       let h' := state_of (M.UpdateParticipant h p) in
       M_sessionOf h' sid' = M_sessionOf h sid'
       ∧ (sid' ≠ UpdateParticipantParams.SessionId p →
          ∀ pid', M_participantOf h' sid' pid' = M_participantOf h sid' pid'))
  ∧ (∀ p,
       let h' := state_of (M.DeleteParticipant h p) in
       M_sessionOf h' sid' = M_sessionOf h sid'
       ∧ (sid' ≠ DeleteParticipantParams.SessionId p →
          ∀ pid', M_participantOf h' sid' pid' = M_participantOf h sid' pid')).
Proof.
  split_and!; intros p; intros; subst h'; unfold_methods.
  - destruct (M.checkSessionId _ _); [done |].
    destruct (checkNotBlank _); [done |].
    destruct (GoMap.index (M.sessions h) _) as [rs |] eqn:Hrs; [| done].
    by apply (M_store_frame h _ rs).
  - destruct (checkNotBlank _); [done |].
    destruct (GoMap.index (M.sessions h) _) as [rs |] eqn:Hrs; [| done].
    destruct (GoMap.index (RegisteredSession.participants rs) _); [| done].
    by apply (M_store_frame h _ rs).
  - destruct (GoMap.index (M.sessions h) _) as [rs |] eqn:Hrs; [| done].
    destruct (GoMap.index (RegisteredSession.participants rs) _); [| done].
    by apply (M_store_frame h _ rs).
Qed.

(** X17: [CreateSession] touches the entry of the drawn identifier only: every
    session registered under another identifier stays as it was, with its
    participants, whatever the name is. When the name is not blank, the
    session it registers has no participants: [GetParticipants] returns
    the empty list for it, with no errors. *)
Theorem CreateSession_registers_an_empty_session :
  (∀ (h : W.t) (p : CreateSessionParams.t) (sum : list ascii) (now : string),
     let h' := state_of (W.CreateSession h p sum now) in
     (∀ sid', sid' ≠ generateSessionId sum →
        W.sessions h' !! sid' = W.sessions h !! sid')
     ∧ (length sum = 32 →
        isNotBlank "name" (CreateSessionParams.Name p) = None →
        W.GetParticipants h'
          {| GetParticipantsParams.SessionId := generateSessionId sum |}
        = Returns h' {| ParticipantsResult.Participants := [];
                        ParticipantsResult.Errors := [] |} None))
  ∧ (∀ (h : M.t) (p : CreateSessionParams.t) (id now : string),
       let h' := state_of (M.CreateSession h p id now) in
       (∀ sid', sid' ≠ id →
          GoMap.index (M.sessions h') sid' = GoMap.index (M.sessions h) sid')
       ∧ (isNotBlank "name" (CreateSessionParams.Name p) = None →
          M.GetParticipants h' {| GetParticipantsParams.SessionId := id |}
          = Returns h' {| ParticipantsResult.Participants := [];
                          ParticipantsResult.Errors := [] |} None)).
Proof.
  split.
  - intros h p sum now h'. subst h'. unfold W.CreateSession. split.
    + intros sid' Hne. destruct (CreateSessionParams.check p); [| done].
      simpl. by rewrite lookup_insert_ne.
    + intros Hsum Hname. apply CreateSessionParams_check_nil in Hname.
      rewrite Hname. simpl.
      unfold W.GetParticipants, W.doActionOnSession, GetParticipantsParams.check.
      simpl. rewrite generateSessionId_isId by done. simpl.
      rewrite lookup_insert_eq. simpl. by rewrite map_to_list_empty.
  - intros h p id now h'. subst h'. unfold M.CreateSession. split.
    + intros sid' Hne. destruct (checkNotBlank _); [done |].
      simpl. rewrite lookup_insert_ne by done. by rewrite GoMap_index_orMake.
    + intros Hname. rewrite isNotBlank_name in Hname. rewrite Hname. simpl.
      unfold M.GetParticipants. simpl. rewrite lookup_insert_eq. simpl.
      by rewrite map_to_list_empty.
Qed.

Lemma CreateSession_registers_an_empty_session_witness :
  let p := {| CreateSessionParams.Name := "retro" |} in
  let h' := state_of (W.CreateSession Sample.webRtc1 p Sample.sum3 Sample.now) in
  (length Sample.sum3 = 32
   ∧ isNotBlank "name" (CreateSessionParams.Name p) = None)
  ∧ (∀ sid', sid' ≠ generateSessionId Sample.sum3 →
       W.sessions h' !! sid' = W.sessions Sample.webRtc1 !! sid')
  ∧ W.GetParticipants h'
      {| GetParticipantsParams.SessionId := generateSessionId Sample.sum3 |}
    = Returns h' {| ParticipantsResult.Participants := [];
                    ParticipantsResult.Errors := [] |} None.
Proof.
  intros p h'. split; [split; reflexivity |].
  destruct (proj1 CreateSession_registers_an_empty_session Sample.webRtc1 p
              Sample.sum3 Sample.now) as [Hframe Hempty].
  split; [exact Hframe | apply Hempty; reflexivity].
Defined.

(** ** The HTTP server *)

Section ServerFacts.
Context {St O : Type}.
Variable handler : SessionHandler.t St O.
Variable decodeCreateSessionParams : string → option CreateSessionParams.t.
Variable decodeAddParticipantParams : string → option AddParticipantParams.t.
Variable decodeUpdateParticipantParams : string → option UpdateParticipantParams.t.





(** X19: A request with a method the route does not serve is answered with the
    status 501, and a request whose body cannot be decoded with the status
    400: in both cases nothing else is written and the session handler is
    not called, so that its state stays as it was. *)
Theorem requests_rejected_before_the_handler (h : St) (r : Request.t) (o : O)
    (encodeFails : bool) :
  (isPutOrPost r = false →
   Server.onSessionsRequest handler decodeCreateSessionParams h r o encodeFails
   = Served h [WriteHeader 501])
  ∧ (isPutOrPost r = true →
     decodeCreateSessionParams (Request.Body r) = None →
     Server.onSessionsRequest handler decodeCreateSessionParams h r o encodeFails
     = Served h [WriteHeader 400])
  ∧ (isGet r = false → isDelete r = false →
     Server.onSessionRequest handler h r encodeFails
     = Served h [WriteHeader 501])
  ∧ (isGet r = false → isPutOrPost r = false →
     Server.onSessionParticipantsRequest handler decodeAddParticipantParams
       h r o encodeFails = Served h [WriteHeader 501])
  ∧ (isGet r = false → isPutOrPost r = true →
     decodeAddParticipantParams (Request.Body r) = None →
     Server.onSessionParticipantsRequest handler decodeAddParticipantParams
       h r o encodeFails = Served h [WriteHeader 400])
  ∧ (isGet r = false → isPutOrPost r = false → isDelete r = false →
     Server.onSessionParticipantRequest handler decodeUpdateParticipantParams
       h r encodeFails = Served h [WriteHeader 501])
  ∧ (isGet r = false → isPutOrPost r = true →
     decodeUpdateParticipantParams (Request.Body r) = None →
     Server.onSessionParticipantRequest handler decodeUpdateParticipantParams
       h r encodeFails = Served h [WriteHeader 400]).
Proof.
  unfold Server.onSessionsRequest, Server.onSessionRequest,
    Server.onSessionParticipantsRequest, Server.onSessionParticipantRequest,
    Server.onPostSessionParticipantsRequest,
    Server.onUpdateSessionParticipantRequest.
  split_and!; intros; repeat match goal with H : _ = _ |- _ => rewrite H end;
    done.
Qed.

(** X20: The identifiers of the path win over those of the body: two decoders
    that read the same name from every body make [AddParticipant] and
    [UpdateParticipant] requests behave alike, whatever [SessionId] and
    [ParticipantId] they read. *)
Theorem path_identifiers_override_the_body
    (decodeAdd' : string → option AddParticipantParams.t)
    (decodeUpdate' : string → option UpdateParticipantParams.t)
    (h : St) (r : Request.t) (o : O) (encodeFails : bool) :
  (AddParticipantParams.Name <$> decodeAddParticipantParams (Request.Body r)
   = AddParticipantParams.Name <$> decodeAdd' (Request.Body r) →
   Server.onPostSessionParticipantsRequest handler decodeAddParticipantParams
     h r o encodeFails
   = Server.onPostSessionParticipantsRequest handler decodeAdd' h r o encodeFails)
  ∧ (UpdateParticipantParams.Name
       <$> decodeUpdateParticipantParams (Request.Body r)
     = UpdateParticipantParams.Name <$> decodeUpdate' (Request.Body r) →
     Server.onUpdateSessionParticipantRequest handler
       decodeUpdateParticipantParams h r encodeFails
     = Server.onUpdateSessionParticipantRequest handler decodeUpdate' h r
         encodeFails).
Proof.
  unfold Server.onPostSessionParticipantsRequest,
    Server.onUpdateSessionParticipantRequest.
  split; intros Hname.
  - destruct (decodeAddParticipantParams _), (decodeAdd' _);
      simplify_eq/=; by try rewrite Hname.
  - destruct (decodeUpdateParticipantParams _), (decodeUpdate' _);
      simplify_eq/=; by try rewrite Hname.
Qed.

End ServerFacts.


Lemma requests_rejected_before_the_handler_witness :
  let patch := SampleHttp.request "PATCH" "" "" "standup" in
  let post := SampleHttp.request "POST" "" "" "" in
  let o := (Sample.sum3, Sample.now) in
  (isPutOrPost patch = false
   ∧ Server.onSessionsRequest webRtcHandler SampleHttp.decodeCreate
       Sample.webRtc1 patch o false
     = Served Sample.webRtc1 [WriteHeader 501])
  ∧ (isPutOrPost post = true
     ∧ SampleHttp.decodeCreate (Request.Body post) = None
     ∧ Server.onSessionsRequest webRtcHandler SampleHttp.decodeCreate
         Sample.webRtc1 post o false
       = Served Sample.webRtc1 [WriteHeader 400])
  ∧ (isGet patch = false ∧ isDelete patch = false
     ∧ Server.onSessionRequest webRtcHandler Sample.webRtc1 patch false
       = Served Sample.webRtc1 [WriteHeader 501]).
Proof.
  intros patch post o.
  pose proof (requests_rejected_before_the_handler webRtcHandler
                SampleHttp.decodeCreate (SampleHttp.decodeAdd "")
                (SampleHttp.decodeUpdate "" "") Sample.webRtc1 patch o false)
    as (Hpatch & _ & Hsession & _).
  pose proof (requests_rejected_before_the_handler webRtcHandler
                SampleHttp.decodeCreate (SampleHttp.decodeAdd "")
                (SampleHttp.decodeUpdate "" "") Sample.webRtc1 post o false)
    as (_ & Hpost & _).
  split; [split; [reflexivity | apply Hpatch; reflexivity] |].
  split; [split; [reflexivity | split; [reflexivity | apply Hpost; reflexivity]] |].
  split; [reflexivity | split; [reflexivity | apply Hsession; reflexivity]].
Defined.

Lemma path_identifiers_override_the_body_witness :
  let sid := generateSessionId Sample.sum1 in
  let r := SampleHttp.request "POST" sid "" "bob" in
  let o := (Sample.sum3, Sample.now) in
  AddParticipantParams.Name <$> SampleHttp.decodeAdd "another" (Request.Body r)
  = AddParticipantParams.Name <$> SampleHttp.decodeAdd "" (Request.Body r)
  ∧ Server.onPostSessionParticipantsRequest webRtcHandler
      (SampleHttp.decodeAdd "another") Sample.webRtc1 r o false
    = Server.onPostSessionParticipantsRequest webRtcHandler
        (SampleHttp.decodeAdd "") Sample.webRtc1 r o false.
Proof.
  intros sid r o. split; [reflexivity |].
  apply (proj1 (path_identifiers_override_the_body webRtcHandler
                  (SampleHttp.decodeAdd "another")
                  (SampleHttp.decodeUpdate "" "")
                  (SampleHttp.decodeAdd "") (SampleHttp.decodeUpdate "" "")
                  Sample.webRtc1 r o false)).
  reflexivity.
Defined.

(** ** The server in front of the [WebRtcSessionHandler] *)

(** X21: The route of one session, in front of a reachable
    [WebRtcSessionHandler]. A GET or a DELETE with an identifier that
    fails [isId] is answered with the status 400 and the error of the
    check; with an identifier that passes and is not registered, with the
    status 404 and no body; with a registered identifier, with the status
    200 and the record of the session, which DELETE has then removed. *)
Theorem WebRtc_session_route (h : W.t) (r : Request.t) (encodeFails : bool) :
  W.reachable h →
  let sid := pathVar r "sessionId" in
  let invalid :=
    EncodeSession {| SessionResult.Session := None;
                     SessionResult.Errors := [sid +:+ " must be a valid id"] |} in
  let found s :=
    EncodeSession
      {| SessionResult.Session := Some (webRtcSession.Session s);
         SessionResult.Errors := [] |} in
  (isGet r = true →
     (isId "id" sid ≠ None →
      Server.onSessionRequest webRtcHandler h r encodeFails
      = Served h (encodeResult [WriteHeader 400] invalid encodeFails))
     ∧ (isId "id" sid = None → W.sessions h !! sid = None →
        Server.onSessionRequest webRtcHandler h r encodeFails
        = Served h [WriteHeader 404])
     ∧ (∀ s, W.sessions h !! sid = Some s →
        Server.onSessionRequest webRtcHandler h r encodeFails
        = Served h (encodeResult [WriteHeader 200] (found s) encodeFails)))
  ∧ (isDelete r = true →
       (isId "id" sid ≠ None →
        Server.onSessionRequest webRtcHandler h r encodeFails
        = Served h (encodeResult [WriteHeader 400] invalid encodeFails))
       ∧ (isId "id" sid = None → W.sessions h !! sid = None →
          Server.onSessionRequest webRtcHandler h r encodeFails
          = Served h [WriteHeader 404])
       ∧ (∀ s, W.sessions h !! sid = Some s →
          Server.onSessionRequest webRtcHandler h r encodeFails
          = Served {| W.sessions := delete sid (W.sessions h) |}
              (encodeResult [WriteHeader 200] (found s) encodeFails))).
Proof.
  intros Hreach sid invalid found.
  assert (Hmethod : isDelete r = true → isGet r = false).
  { unfold isDelete, isGet. intros ->%String.eqb_eq. reflexivity. }
  assert (Hvalid : ∀ s, W.sessions h !! sid = Some s → isId "id" sid = None).
  { intros s Hs. by destruct (W_reachable_wf h Hreach sid s Hs) as (? & _). }
  unfold Server.onSessionRequest, Server.onGetSessionRequest,
    Server.onDeleteSessionRequest, webRtcHandler. simpl.
  unfold W.GetSession, W.DeleteSession, W.doActionOnSession,
    GetSessionParams.check, DeleteSessionParams.check. simpl. fold sid.
  split.
  - intros ->. split_and!.
    + intros Hbad. destruct (isId "id" sid) as [e |] eqn:Hid; [| done].
      apply isId_Some in Hid as ->. reflexivity.
    + intros -> ->. reflexivity.
    + intros s Hs. by rewrite (Hvalid s Hs), Hs.
  - intros Hdel. rewrite (Hmethod Hdel), Hdel. split_and!.
    + intros Hbad. destruct (isId "id" sid) as [e |] eqn:Hid; [| done].
      apply isId_Some in Hid as ->. reflexivity.
    + intros -> ->. reflexivity.
    + intros s Hs. by rewrite (Hvalid s Hs), Hs.
Qed.

Lemma WebRtc_session_route_witness :
  let r := SampleHttp.request "DELETE" (generateSessionId Sample.sum1) "" "" in
  let sid := pathVar r "sessionId" in
  let invalid :=
    EncodeSession {| SessionResult.Session := None;
                     SessionResult.Errors := [sid +:+ " must be a valid id"] |} in
  let found s :=
    EncodeSession
      {| SessionResult.Session := Some (webRtcSession.Session s);
         SessionResult.Errors := [] |} in
  W.reachable Sample.webRtc1
  ∧ isDelete r = true
  ∧ (isId "id" sid ≠ None →
     Server.onSessionRequest webRtcHandler Sample.webRtc1 r false
     = Served Sample.webRtc1 (encodeResult [WriteHeader 400] invalid false))
  ∧ (isId "id" sid = None → W.sessions Sample.webRtc1 !! sid = None →
     Server.onSessionRequest webRtcHandler Sample.webRtc1 r false
     = Served Sample.webRtc1 [WriteHeader 404])
  ∧ (∀ s, W.sessions Sample.webRtc1 !! sid = Some s →
     Server.onSessionRequest webRtcHandler Sample.webRtc1 r false
     = Served {| W.sessions := delete sid (W.sessions Sample.webRtc1) |}
         (encodeResult [WriteHeader 200] (found s) false)).
Proof.
  intros r sid invalid found.
  split; [apply webRtc1_reachable |]. split; [reflexivity |].
  apply (proj2 (WebRtc_session_route Sample.webRtc1 r false webRtc1_reachable)).
  reflexivity.
Defined.

(** X22: The route of one participant, in front of the
    [WebRtcSessionHandler], for identifiers that pass [isId]: a GET, a
    DELETE or an update with a name that is not blank is answered with the
    status 400 and the error session ... does not exist when the session
    is not registered, and with the status 404 and no body when the
    session is registered and the participant is not. In both cases the
    handler is left as it was. *)
Theorem WebRtc_participant_route
    (decodeUpdate : string → option UpdateParticipantParams.t)
    (h : W.t) (r : Request.t) (encodeFails : bool) :
  let sid := pathVar r "sessionId" in
  let pid := pathVar r "participantId" in
  let noSuchSession :=
    Served h
      (encodeResult [WriteHeader 400]
         (EncodeParticipant
            {| ParticipantResult.Participant := None;
               ParticipantResult.Errors :=
                 ["session " +:+ sid +:+ " does not exist"] |}) encodeFails) in
  isId "sessionId" sid = None →
  isId "participantId" pid = None →
  (isGet r = true ∨ isDelete r = true
   ∨ (isPutOrPost r = true
      ∧ ∃ p, decodeUpdate (Request.Body r) = Some p
             ∧ isNotBlank "name" (UpdateParticipantParams.Name p) = None)) →
  (W.sessions h !! sid = None →
   Server.onSessionParticipantRequest webRtcHandler decodeUpdate h r encodeFails
   = noSuchSession)
  ∧ (∀ s, W.sessions h !! sid = Some s →
       webRtcSession.participants s !! pid = None →
       Server.onSessionParticipantRequest webRtcHandler decodeUpdate h r
         encodeFails
       = Served h [WriteHeader 404]).
Proof.
  intros sid pid noSuchSession Hsid Hpid Hmethod.
  assert (Hget : Server.onGetSessionParticipantRequest webRtcHandler h r encodeFails
                 = Server.respondParticipant
                     (W.GetParticipant h
                        {| GetParticipantParams.SessionId := sid;
                           GetParticipantParams.ParticipantId := pid |})
                     encodeFails) by reflexivity.
  assert (Hdel : Server.onDeleteSessionParticipantRequest webRtcHandler h r
                   encodeFails
                 = Server.respondParticipant
                     (W.DeleteParticipant h
                        {| DeleteParticipantParams.SessionId := sid;
                           DeleteParticipantParams.ParticipantId := pid |})
                     encodeFails) by reflexivity.
  assert (Hcases :
    Server.onSessionParticipantRequest webRtcHandler decodeUpdate h r encodeFails
    = Server.respondParticipant
        (W.GetParticipant h
           {| GetParticipantParams.SessionId := sid;
              GetParticipantParams.ParticipantId := pid |}) encodeFails
    ∨ Server.onSessionParticipantRequest webRtcHandler decodeUpdate h r encodeFails
      = Server.respondParticipant
          (W.DeleteParticipant h
             {| DeleteParticipantParams.SessionId := sid;
                DeleteParticipantParams.ParticipantId := pid |}) encodeFails
    ∨ ∃ name, isNotBlank "name" name = None
        ∧ Server.onSessionParticipantRequest webRtcHandler decodeUpdate h r
            encodeFails
          = Server.respondParticipant
              (W.UpdateParticipant h
                 {| UpdateParticipantParams.SessionId := sid;
                    UpdateParticipantParams.ParticipantId := pid;
                    UpdateParticipantParams.Name := name |}) encodeFails).
  { unfold Server.onSessionParticipantRequest.
    destruct Hmethod as [Hm | [Hm | (Hm & p & Hdecode & Hname)]].
    - left. by rewrite Hm.
    - right; left.
      assert (isGet r = false) as ->
        by (revert Hm; unfold isDelete, isGet; by intros ->%String.eqb_eq).
      assert (isPutOrPost r = false) as ->
        by (revert Hm; unfold isDelete, isPutOrPost; by intros ->%String.eqb_eq).
      by rewrite Hm.
    - right; right. exists (UpdateParticipantParams.Name p). split; [done |].
      assert (isGet r = false) as ->.
      { revert Hm. unfold isPutOrPost, isGet.
        by intros [->%String.eqb_eq | ->%String.eqb_eq]%orb_prop. }
      rewrite Hm. unfold Server.onUpdateSessionParticipantRequest.
      by rewrite Hdecode. }
  assert (Hchecks :
    GetParticipantParams.check
      {| GetParticipantParams.SessionId := sid;
         GetParticipantParams.ParticipantId := pid |} = []
    ∧ DeleteParticipantParams.check
        {| DeleteParticipantParams.SessionId := sid;
           DeleteParticipantParams.ParticipantId := pid |} = []
    ∧ ∀ name, isNotBlank "name" name = None →
        UpdateParticipantParams.check
          {| UpdateParticipantParams.SessionId := sid;
             UpdateParticipantParams.ParticipantId := pid;
             UpdateParticipantParams.Name := name |} = []).
  { split_and!; [by apply GetParticipantParams_check_nil
                | by apply DeleteParticipantParams_check_nil |].
    intros name Hname. by apply UpdateParticipantParams_check_nil. }
  destruct Hchecks as (Hcg & Hcd & Hcu).
  split.
  - intros Habsent. subst noSuchSession.
    destruct Hcases as [-> | [-> | (name & Hname & ->)]];
      unfold W.GetParticipant, W.DeleteParticipant, W.UpdateParticipant,
        W.doActionOnSession;
      rewrite ?Hcg, ?Hcd, ?(Hcu name Hname); simpl; by rewrite Habsent.
  - intros s Hs Hmissing.
    destruct Hcases as [-> | [-> | (name & Hname & ->)]];
      unfold W.GetParticipant, W.DeleteParticipant, W.UpdateParticipant,
        W.doActionOnSession;
      rewrite ?Hcg, ?Hcd, ?(Hcu name Hname); simpl; by rewrite Hs, Hmissing.
Qed.

Lemma WebRtc_participant_route_witness :
  let r := SampleHttp.request "GET" (generateSessionId Sample.sum1)
             (generateSessionId Sample.sum3) "" in
  let sid := pathVar r "sessionId" in
  let pid := pathVar r "participantId" in
  (isId "sessionId" sid = None
   ∧ isId "participantId" pid = None
   ∧ isGet r = true)
  ∧ (W.sessions Sample.webRtc1 !! sid = None →
     Server.onSessionParticipantRequest webRtcHandler
       (SampleHttp.decodeUpdate "" "") Sample.webRtc1 r false
     = Served Sample.webRtc1
         (encodeResult [WriteHeader 400]
            (EncodeParticipant
               {| ParticipantResult.Participant := None;
                  ParticipantResult.Errors :=
                    ["session " +:+ sid +:+ " does not exist"] |}) false))
  ∧ (∀ s, W.sessions Sample.webRtc1 !! sid = Some s →
       webRtcSession.participants s !! pid = None →
       Server.onSessionParticipantRequest webRtcHandler
         (SampleHttp.decodeUpdate "" "") Sample.webRtc1 r false
       = Served Sample.webRtc1 [WriteHeader 404]).
Proof.
  intros r sid pid. split; [split_and!; reflexivity |].
  apply (WebRtc_participant_route (SampleHttp.decodeUpdate "" "")
           Sample.webRtc1 r false); [reflexivity | reflexivity |].
  left. reflexivity.
Defined.

(** X23: The two routes that create a record, in front of the
    [WebRtcSessionHandler], for a PUT or a POST whose body is decoded. A
    session with a blank name is refused with the status 400 and the error
    of the check; with another name it is registered and returned with the
    status 201. A participant for a session that is not registered is
    refused with the status 400 and the error session ... does not exist;
    for a registered session it is registered and returned with the status
    201. The identifier of the session is the one of the path, which
    passes [isId], and the name of the participant is not blank. *)
Theorem WebRtc_creation_routes
    (decodeCreate : string → option CreateSessionParams.t)
    (decodeAdd : string → option AddParticipantParams.t)
    (h : W.t) (r : Request.t) (sum : list ascii) (now : string)
    (encodeFails : bool) :
  isPutOrPost r = true →
  (∀ p, decodeCreate (Request.Body r) = Some p →
     (isNotBlank "name" (CreateSessionParams.Name p) ≠ None →
      Server.onSessionsRequest webRtcHandler decodeCreate h r (sum, now)
        encodeFails
      = Served h
          (encodeResult [WriteHeader 400]
             (EncodeSession
                {| SessionResult.Session := None;
                   SessionResult.Errors := ["name must not be blank"] |})
             encodeFails))
     ∧ (isNotBlank "name" (CreateSessionParams.Name p) = None →
        Server.onSessionsRequest webRtcHandler decodeCreate h r (sum, now)
          encodeFails
        = Served
            {| W.sessions :=
                 <[generateSessionId sum := W.newSession p sum now]>
                   (W.sessions h) |}
            (encodeResult [WriteHeader 201]
               (EncodeSession
                  {| SessionResult.Session :=
                       Some {| Session.Name := CreateSessionParams.Name p;
                               Session.Id := generateSessionId sum;
                               Session.CreationDateTime := now |};
                     SessionResult.Errors := [] |}) encodeFails)))
  ∧ (∀ p, decodeAdd (Request.Body r) = Some p →
       let sid := pathVar r "sessionId" in
       let added :=
         {| Participant.Name := AddParticipantParams.Name p;
            Participant.Id := generateParticipantId sum;
            Participant.SessionId := sid;
            Participant.CreationDateTime := now |} in
       isId "sessionId" sid = None →
       isNotBlank "name" (AddParticipantParams.Name p) = None →
       (W.sessions h !! sid = None →
        Server.onSessionParticipantsRequest webRtcHandler decodeAdd h r
          (sum, now) encodeFails
        = Served h
            (encodeResult [WriteHeader 400]
               (EncodeParticipant
                  {| ParticipantResult.Participant := None;
                     ParticipantResult.Errors :=
                       ["session " +:+ sid +:+ " does not exist"] |})
               encodeFails))
       ∧ (∀ s, W.sessions h !! sid = Some s →
            Server.onSessionParticipantsRequest webRtcHandler decodeAdd h r
              (sum, now) encodeFails
            = Served
                (W.store h sid
                   {| webRtcSession.Session := webRtcSession.Session s;
                      webRtcSession.participants :=
                        <[Participant.Id added := added]>
                          (webRtcSession.participants s) |})
                (encodeResult [WriteHeader 201]
                   (EncodeParticipant
                      {| ParticipantResult.Participant := Some added;
                         ParticipantResult.Errors := [] |}) encodeFails))).
Proof.
  intros Hmethod.
  assert (Hget : isGet r = false).
  { revert Hmethod. unfold isPutOrPost, isGet.
    by intros [->%String.eqb_eq | ->%String.eqb_eq]%orb_prop. }
  split.
  - intros p Hdecode.
    unfold Server.onSessionsRequest, webRtcHandler. simpl.
    rewrite Hmethod, Hdecode. simpl.
    unfold W.CreateSession, CreateSessionParams.check. simpl. split.
    + intros Hblank.
      destruct (isNotBlank "name" (CreateSessionParams.Name p)) as [e |] eqn:He;
        [| done].
      rewrite isNotBlank_name in He. by apply checkNotBlank_Some in He as ->.
    + by intros ->.
  - intros p Hdecode sid added Hsid Hname.
    unfold Server.onSessionParticipantsRequest,
      Server.onPostSessionParticipantsRequest, webRtcHandler. simpl.
    rewrite Hget, Hmethod, Hdecode. simpl.
    unfold W.AddParticipant, W.doActionOnSession, AddParticipantParams.check.
    simpl. fold sid. rewrite Hsid, Hname. simpl. split.
    + by intros ->.
    + intros s Hs. by rewrite Hs.
Qed.

Lemma WebRtc_creation_routes_witness :
  let r := SampleHttp.request "POST" (generateSessionId Sample.sum1) "" "bob" in
  let sid := pathVar r "sessionId" in
  let p := {| AddParticipantParams.SessionId := ""; AddParticipantParams.Name := "bob" |} in
  let added :=
    {| Participant.Name := "bob"; Participant.Id := generateParticipantId Sample.sum3;
       Participant.SessionId := sid; Participant.CreationDateTime := Sample.later |} in
  (isPutOrPost r = true
   ∧ SampleHttp.decodeAdd "" (Request.Body r) = Some p
   ∧ isId "sessionId" sid = None
   ∧ isNotBlank "name" (AddParticipantParams.Name p) = None)
  ∧ (W.sessions Sample.webRtc1 !! sid = None →
     Server.onSessionParticipantsRequest webRtcHandler (SampleHttp.decodeAdd "")
       Sample.webRtc1 r (Sample.sum3, Sample.later) false
     = Served Sample.webRtc1
         (encodeResult [WriteHeader 400]
            (EncodeParticipant
               {| ParticipantResult.Participant := None;
                  ParticipantResult.Errors :=
                    ["session " +:+ sid +:+ " does not exist"] |}) false))
  ∧ (∀ s, W.sessions Sample.webRtc1 !! sid = Some s →
       Server.onSessionParticipantsRequest webRtcHandler (SampleHttp.decodeAdd "")
         Sample.webRtc1 r (Sample.sum3, Sample.later) false
       = Served
           (W.store Sample.webRtc1 sid
              {| webRtcSession.Session := webRtcSession.Session s;
                 webRtcSession.participants :=
                   <[Participant.Id added := added]>
                     (webRtcSession.participants s) |})
           (encodeResult [WriteHeader 201]
              (EncodeParticipant
                 {| ParticipantResult.Participant := Some added;
                    ParticipantResult.Errors := [] |}) false)).
Proof.
  intros r sid p added. split; [split_and!; reflexivity |].
  apply (proj2 (WebRtc_creation_routes SampleHttp.decodeCreate
                  (SampleHttp.decodeAdd "") Sample.webRtc1 r Sample.sum3
                  Sample.later false eq_refl) p); reflexivity.
Defined.

(** ** The server in front of the [MockSessionHandler] *)

(** X24: The route of one session, in front of the [MockSessionHandler]: a
    GET or a DELETE with an identifier that [uuid.Parse] accepts and that
    is not registered gets no response at all, because the handler
    panics; and no request on this route is ever answered with the status
    404. *)
Theorem Mock_session_route_never_answers_not_found
    (uuid_Parse : string → option string) (h : M.t) (r : Request.t)
    (encodeFails : bool) :
  (isGet r = true ∨ isDelete r = true →
   uuid_Parse (pathVar r "sessionId") = None →
   GoMap.index (M.sessions h) (pathVar r "sessionId") = None →
   Server.onSessionRequest (mockHandler uuid_Parse) h r encodeFails = Crashed h)
  ∧ (∀ h' w,
       Server.onSessionRequest (mockHandler uuid_Parse) h r encodeFails
       = Served h' w →
       firstStatus w ≠ Some 404).
Proof.
  split.
  - intros Hmethod Hid Habsent.
    assert (Hget : M.GetSession uuid_Parse h
                     {| GetSessionParams.Id := pathVar r "sessionId" |}
                   = Panics h).
    { unfold M.GetSession, M.checkSessionId.
      cbn [GetSessionParams.Id]. by rewrite Hid, Habsent. }
    assert (Hdelete : M.DeleteSession uuid_Parse h
                        {| DeleteSessionParams.Id := pathVar r "sessionId" |}
                      = Panics h).
    { unfold M.DeleteSession, M.checkSessionId.
      cbn [DeleteSessionParams.Id].
      rewrite Hid, Habsent, (GoMap_remove_absent _ _ Habsent). by destruct h. }
    unfold Server.onSessionRequest, Server.onGetSessionRequest,
      Server.onDeleteSessionRequest, mockHandler.
    cbn [SessionHandler.GetSession SessionHandler.DeleteSession].
    rewrite Hget, Hdelete.
    destruct Hmethod as [-> | Hdel]; [done |].
    rewrite Hdel. by destruct (isGet r).
  - intros h' w.
    unfold Server.onSessionRequest, Server.onGetSessionRequest,
      Server.onDeleteSessionRequest, mockHandler.
    cbn [SessionHandler.GetSession SessionHandler.DeleteSession].
    unfold M.GetSession, M.DeleteSession, M.checkSessionId.
    intros Hserved.
    repeat (case_match; simplify_eq/=); unfold encodeResult;
      by repeat case_match.
Qed.

Lemma Mock_session_route_never_answers_not_found_witness :
  let r := SampleHttp.request "GET" Sample.uuid3 "" "" in
  (isGet r = true
   ∧ Sample.uuid_Parse (pathVar r "sessionId") = None
   ∧ GoMap.index (M.sessions Sample.mock1) (pathVar r "sessionId") = None)
  ∧ Server.onSessionRequest (mockHandler Sample.uuid_Parse) Sample.mock1 r false
    = Crashed Sample.mock1.
Proof.
  intros r.
  assert (Habsent : GoMap.index (M.sessions Sample.mock1) (pathVar r "sessionId")
                    = None) by (vm_compute; reflexivity).
  split; [split_and!; [reflexivity | reflexivity | exact Habsent] |].
  apply (proj1 (Mock_session_route_never_answers_not_found Sample.uuid_Parse
                  Sample.mock1 r false));
    [left; reflexivity | reflexivity | exact Habsent].
Defined.

(** ** The logger *)

(** X25: Whatever string it is given, [ParseLogLevel] returns one of the four
    levels; when it returns an error the level is [Info]; the level it
    returns lets the messages of [LogErrorF] through, and lets those of
    [LogDebugF] through only when the lowered string is debug. *)
Theorem ParseLogLevel_levels (ToLower Quote : string → string) (level : string) :
  let '(l, err) := logger.ParseLogLevel ToLower Quote level in
  l ∈ [logger.Debug; logger.Info; logger.Warn; logger.Error]
  ∧ (err ≠ None →
     l = logger.Info ∧ err = Some ("unknown log level " +:+ Quote level))
  ∧ (err = None ↔ ToLower level ∈ ["info"; "debug"; "error"; "warn"])
  ∧ logger.LogErrorF l = true
  ∧ (logger.LogDebugF l = true ↔ ToLower level = "debug").
Proof.
  unfold logger.ParseLogLevel.
  destruct (String.eqb_spec (ToLower level) "info") as [Hi | Hi];
    [rewrite Hi; split_and!; [set_solver | done | split; [set_solver | done]
                              | done | done] |].
  destruct (String.eqb_spec (ToLower level) "debug") as [Hd | Hd];
    [rewrite Hd; split_and!; [set_solver | done | split; [set_solver | done]
                              | done | done] |].
  destruct (String.eqb_spec (ToLower level) "error") as [He | He];
    [rewrite He; split_and!; [set_solver | done | split; [set_solver | done]
                              | done | done] |].
  destruct (String.eqb_spec (ToLower level) "warn") as [Hw | Hw];
    [rewrite Hw; split_and!; [set_solver | done | split; [set_solver | done]
                              | done | done] |].
  split_and!; [set_solver | done | | done | done].
  split; [done |]. rewrite !elem_of_cons, elem_of_nil. intuition congruence.
Qed.
